(** * dsync: the synchronisation and conflict-resolution engine

    A shallow embedding of [sync_service/core/handler.py],
    [sync_service/core/utils.py], the initial pass of
    [sync_service/cli/main.py] and the handler of [sync5.py],
    together with the slice of the Python
    library they run on (posixpath, pathlib parts, fnmatch, str.format,
    strftime, hashlib.md5, os and shutil over a tree of files and
    directories). *)

From Stdlib Require Import ZArith List Ascii String Strings.Byte Lia.
From stdpp Require Import base option list strings gmap fin_maps.

(** ** Strings the way Python slices them *)

Module pystr.

Definition is_sep (c : ascii) : bool := Ascii.eqb c "/".
Definition is_dot (c : ascii) : bool := Ascii.eqb c ".".

(** [s.startswith(p)] *)
Definition startswith (s p : string) : bool := String.prefix p s.

(** [s.endswith("/")] *)
Fixpoint ends_with_sep (s : string) : bool :=
  match s with
  | "" => false
  | String c "" => is_sep c
  | String _ s' => ends_with_sep s'
  end.

(** [s.split("/")]: never empty, [""] for the empty string. *)
Fixpoint split_sep (s : string) : list string :=
  match s with
  | "" => [""]
  | String c s' =>
      if is_sep c then "" :: split_sep s'
      else match split_sep s' with
           | x :: xs => String c x :: xs
           | [] => [String c ""]
           end
  end.

(** ["/".join(l)] *)
Fixpoint join_sep (l : list string) : string :=
  match l with
  | [] => ""
  | [x] => x
  | x :: xs => x +:+ "/" +:+ join_sep xs
  end.

(** [(p[:i], p[i:])] with [i = p.rfind("/") + 1]. *)
Fixpoint rsplit_sep (s : string) : string * string :=
  match s with
  | "" => ("", "")
  | String c s' =>
      let '(h, t) := rsplit_sep s' in
      if is_sep c then (String c h, t)
      else match h with
           | "" => ("", String c t)
           | _ => (String c h, t)
           end
  end.

(** [s.rstrip("/")] *)
Fixpoint rstrip_sep (s : string) : string :=
  match s with
  | "" => ""
  | String c s' =>
      match rstrip_sep s' with
      | "" => if is_sep c then "" else String c ""
      | r => String c r
      end
  end.

Fixpoint all_sep (s : string) : bool :=
  match s with
  | "" => true
  | String c s' => is_sep c && all_sep s'
  end.

Fixpoint all_dots (s : string) : bool :=
  match s with
  | "" => true
  | String c s' => is_dot c && all_dots s'
  end.

Fixpoint has_sep (s : string) : bool :=
  match s with
  | "" => false
  | String c s' => is_sep c || has_sep s'
  end.

(** [(s[:d], s[d:])] with [d = s.rfind(".")], when there is a dot. *)
Fixpoint rsplit_dot (s : string) : option (string * string) :=
  match s with
  | "" => None
  | String c s' =>
      match rsplit_dot s' with
      | Some (a, e) => Some (String c a, e)
      | None => if is_dot c then Some ("", s) else None
      end
  end.

End pystr.

(** ** posixpath *)

Module posixpath.
Import pystr.

Definition isabs (p : string) : bool := startswith p "/".

(** [os.path.join(a, b)] *)
Definition join (a b : string) : string :=
  if startswith b "/" then b
  else if String.eqb a "" || ends_with_sep a then a +:+ b
  else a +:+ "/" +:+ b.

(** [os.path.join] applied to the elements of a non-empty list. *)
Definition join_all (l : list string) : string :=
  match l with
  | [] => ""
  | x :: xs => fold_left join xs x
  end.

Definition basename (p : string) : string := snd (rsplit_sep p).

Definition dirname (p : string) : string :=
  let head := fst (rsplit_sep p) in
  if negb (String.eqb head "") && negb (all_sep head)
  then rstrip_sep head else head.

(** [genericpath._splitext] on one path component. *)
Definition splitext_name (name : string) : string * string :=
  match rsplit_dot name with
  | Some (a, e) => if all_dots a then (name, "") else (a, e)
  | None => (name, "")
  end.

Definition splitext (p : string) : string * string :=
  let '(h, t) := rsplit_sep p in
  let '(a, e) := splitext_name t in
  (h +:+ a, e).

(** The loop of [normpath] over the split components; [rooted] says
    whether the path had initial slashes, [acc] is [new_comps]
    reversed. *)
Fixpoint norm_comps (rooted : bool) (acc : list string)
    (comps : list string) : list string :=
  match comps with
  | [] => rev acc
  | c :: cs =>
      if String.eqb c "" || String.eqb c "." then norm_comps rooted acc cs
      else if negb (String.eqb c "..") then norm_comps rooted (c :: acc) cs
      else match acc with
           | [] => if rooted then norm_comps rooted acc cs
                   else norm_comps rooted (c :: acc) cs
           | top :: acc' =>
               if String.eqb top ".." then norm_comps rooted (c :: acc) cs
               else norm_comps rooted acc' cs
           end
  end.

Definition initial_slashes (p : string) : string :=
  if startswith p "/" then
    if startswith p "//" && negb (startswith p "///") then "//" else "/"
  else "".

Definition normpath (p : string) : string :=
  match p with
  | "" => "."
  | _ =>
      let ini := initial_slashes p in
      let comps := norm_comps (isabs p) [] (split_sep p) in
      match ini +:+ join_sep comps with
      | "" => "."
      | r => r
      end
  end.

(** [os.path.abspath] with the working directory [cwd]. *)
Definition abspath (cwd p : string) : string :=
  normpath (if isabs p then p else join cwd p).

Definition nonempty_parts (p : string) : list string :=
  filter (λ x, x ≠ "") (split_sep p).

Fixpoint common_len (a b : list string) : nat :=
  match a, b with
  | x :: a', y :: b' => if String.eqb x y then S (common_len a' b') else 0
  | _, _ => 0
  end.

(** [os.path.relpath(path, start)]; [None] is the [ValueError] raised
    for an empty [path]. *)
Definition relpath (cwd path start : string) : option string :=
  match path with
  | "" => None
  | _ =>
      let start_list := nonempty_parts (abspath cwd start) in
      let path_list := nonempty_parts (abspath cwd path) in
      let i := common_len start_list path_list in
      let rel_list :=
        repeat ".." (length start_list - i) ++ drop i path_list in
      match rel_list with
      | [] => Some "."
      | _ => Some (join_all rel_list)
      end
  end.

(** [pathlib.Path(p).parts] *)
Definition parts (p : string) : list string :=
  let root := initial_slashes p in
  let names :=
    filter (λ x, x ≠ "" ∧ x ≠ ".") (split_sep p) in
  match root with
  | "" => names
  | _ => root :: names
  end.

End posixpath.

(** ** fnmatch *)

Module fnmatch.

(** What [fnmatch.translate] turns a pattern into: [*], [?], a
    bracket expression (negated or not, as a list of ranges; a single
    character is the range from it to itself) or a literal. *)
Inductive token :=
| TStar
| TAny
| TClass (negated : bool) (ranges : list (ascii * ascii))
| TLit (c : ascii).

(** The items of a bracket body: [x-y] is a range when [x] and [y]
    are there, any other character stands for itself. *)
Fixpoint class_items (body : list ascii) : list (ascii * ascii) :=
  match body with
  | [] => []
  | x :: rest =>
      match rest with
      | dash :: y :: rest' =>
          if Ascii.eqb dash "-" then (x, y) :: class_items rest'
          else (x, x) :: class_items rest
      | _ => (x, x) :: class_items rest
      end
  end.

(** The scan for the closing bracket: the body up to the first ["]"]
    and what follows it. *)
Fixpoint until_close (s : string) : option (list ascii * string) :=
  match s with
  | "" => None
  | String c s' =>
      if Ascii.eqb c "]" then Some ([], s')
      else match until_close s' with
           | Some (b, r) => Some (c :: b, r)
           | None => None
           end
  end.

(** After ["["]: an optional ["!"], then an optional ["]"] that
    belongs to the body, then the scan. *)
Definition bracket (s : string) : option (bool * list ascii * string) :=
  let '(neg, s1) :=
    match s with
    | String "!" s' => (true, s')
    | _ => (false, s)
    end in
  match s1 with
  | String "]" s2 =>
      match until_close s2 with
      | Some (b, r) => Some (neg, "]"%char :: b, r)
      | None => None
      end
  | _ =>
      match until_close s1 with
      | Some (b, r) => Some (neg, b, r)
      | None => None
      end
  end.

Fixpoint translate_fuel (fuel : nat) (pat : string) : list token :=
  match fuel, pat with
  | 0, _ | _, "" => []
  | S n, String c rest =>
      if Ascii.eqb c "*" then TStar :: translate_fuel n rest
      else if Ascii.eqb c "?" then TAny :: translate_fuel n rest
      else if Ascii.eqb c "[" then
        match bracket rest with
        | Some (neg, body, rest') =>
            TClass neg (class_items body) :: translate_fuel n rest'
        | None => TLit c :: translate_fuel n rest
        end
      else TLit c :: translate_fuel n rest
  end.

(** Every step consumes a character, so the length is fuel enough. *)
Definition translate (pat : string) : list token :=
  translate_fuel (String.length pat) pat.

Definition in_range (c : ascii) (r : ascii * ascii) : bool :=
  (N_of_ascii (fst r) <=? N_of_ascii c)%N
  && (N_of_ascii c <=? N_of_ascii (snd r))%N.

Definition class_matches (neg : bool) (rs : list (ascii * ascii))
    (c : ascii) : bool :=
  xorb neg (existsb (in_range c) rs).

Fixpoint match_tokens (ts : list token) (s : string) : bool :=
  match ts with
  | [] => match s with "" => true | _ => false end
  | TStar :: ts' =>
      (fix star (s : string) : bool :=
         match_tokens ts' s
         || match s with
            | "" => false
            | String _ s' => star s'
            end) s
  | TAny :: ts' =>
      match s with "" => false | String _ s' => match_tokens ts' s' end
  | TClass neg rs :: ts' =>
      match s with
      | "" => false
      | String c s' => class_matches neg rs c && match_tokens ts' s'
      end
  | TLit x :: ts' =>
      match s with
      | "" => false
      | String c s' => Ascii.eqb x c && match_tokens ts' s'
      end
  end.

(** [fnmatch.fnmatch(name, pat)] on POSIX, where [normcase] is the
    identity. *)
Definition fnmatch (name pat : string) : bool :=
  match_tokens (translate pat) name.

End fnmatch.

(** ** Exceptions *)

Inductive exn :=
| FileNotFoundError
| IsADirectoryError
| NotADirectoryError
| FileExistsError
| PermissionError
| OSError
| SameFileError
| ShutilError
| ValueError
| KeyError
| IndexError
| TypeError
| AttributeError
| Unsupported.

(** [except OSError] catches these ([shutil.Error] derives from
    [OSError]); [Unsupported] marks Python behaviour this development
    does not cover and is caught by nothing narrower than
    [except Exception]. *)
Definition is_OSError (e : exn) : bool :=
  match e with
  | FileNotFoundError | IsADirectoryError | NotADirectoryError
  | FileExistsError | PermissionError | OSError | SameFileError
  | ShutilError => true
  | _ => false
  end.

Inductive result (A : Type) :=
| Ok (a : A)
| Raise (e : exn).
Arguments Ok {A} a.
Arguments Raise {A} e.

Definition is_ok {A} (r : result A) : bool :=
  match r with Ok _ => true | Raise _ => false end.

(** ** str.format and strftime *)

Module pyformat.

(** The keyword arguments of the call, in order. *)
Definition kwargs := list (string * string).

Fixpoint kw_lookup (kw : kwargs) (name : string) : option string :=
  match kw with
  | [] => None
  | (k, v) :: kw' => if String.eqb k name then Some v else kw_lookup kw' name
  end.

Definition is_digit (c : ascii) : bool :=
  (48 <=? N_of_ascii c)%N && (N_of_ascii c <=? 57)%N.

Fixpoint all_digits (s : string) : bool :=
  match s with
  | "" => true
  | String c s' => is_digit c && all_digits s'
  end.

Fixpoint has_any (cs : list ascii) (s : string) : bool :=
  match s with
  | "" => false
  | String c s' => existsb (Ascii.eqb c) cs || has_any cs s'
  end.

(** A replacement field [{name}]. An empty or numeric name asks for a
    positional argument, and there is none; a name with a
    conversion, a format specification, an attribute or an index is
    not covered here. *)
Definition field (kw : kwargs) (name : string) : result string :=
  if has_any ["!"; ":"; "."; "["; "{"]%char name then Raise Unsupported
  else if all_digits name then Raise IndexError
  else match kw_lookup kw name with
       | Some v => Ok v
       | None => Raise KeyError
       end.

(** [template.format] with keyword arguments [kw]: [inside] is the field name read so far
    after an opening brace, reversed. *)
Fixpoint format_go (kw : kwargs) (inside : option string)
    (s : string) : result string :=
  match inside with
  | Some acc =>
      match s with
      | "" => Raise ValueError
      | String "}" s' =>
          match field kw (String.rev acc) with
          | Ok v =>
              match format_go kw None s' with
              | Ok r => Ok (v +:+ r)
              | Raise e => Raise e
              end
          | Raise e => Raise e
          end
      | String c s' => format_go kw (Some (String c acc)) s'
      end
  | None =>
      match s with
      | "" => Ok ""
      | String "{" (String "{" s') =>
          match format_go kw None s' with
          | Ok r => Ok (String "{" r)
          | Raise e => Raise e
          end
      | String "{" s' => format_go kw (Some "") s'
      | String "}" (String "}" s') =>
          match format_go kw None s' with
          | Ok r => Ok (String "}" r)
          | Raise e => Raise e
          end
      | String "}" _ => Raise ValueError
      | String c s' =>
          match format_go kw None s' with
          | Ok r => Ok (String c r)
          | Raise e => Raise e
          end
      end
  end.

Definition format (template : string) (kw : kwargs) : result string :=
  format_go kw None template.

End pyformat.

Module datetime.

(** What [datetime.now()] returns, to the second. *)
Record t := mk {
  year : nat; month : nat; day : nat;
  hour : nat; minute : nat; second : nat
}.

Definition digit (n : nat) : ascii := ascii_of_nat (48 + n mod 10).

Definition pad2 (n : nat) : string :=
  String (digit (n / 10)) (String (digit n) "").

Definition pad4 (n : nat) : string :=
  String (digit (n / 1000)) (String (digit (n / 100)) (pad2 n)).

(** [strftime('%Y%m%d_%H%M%S')], for the four-digit years. *)
Definition strftime (d : t) : string :=
  pad4 (year d) +:+ pad2 (month d) +:+ pad2 (day d) +:+ "_"
  +:+ pad2 (hour d) +:+ pad2 (minute d) +:+ pad2 (second d).

End datetime.

(** ** hashlib.md5 *)

Module hashlib.
Local Open Scope Z_scope.

Definition w32 (x : Z) : Z := x mod 2 ^ 32.

Definition rotl (x c : Z) : Z :=
  w32 (Z.lor (Z.shiftl x c) (Z.shiftr x (32 - c))).

Definition lnot32 (x : Z) : Z := Z.lxor x 0xffffffff.

Definition shifts : list Z :=
  [7; 12; 17; 22; 7; 12; 17; 22; 7; 12; 17; 22; 7; 12; 17; 22;
   5; 9; 14; 20; 5; 9; 14; 20; 5; 9; 14; 20; 5; 9; 14; 20;
   4; 11; 16; 23; 4; 11; 16; 23; 4; 11; 16; 23; 4; 11; 16; 23;
   6; 10; 15; 21; 6; 10; 15; 21; 6; 10; 15; 21; 6; 10; 15; 21].

Definition sines : list Z :=
  [0xd76aa478; 0xe8c7b756; 0x242070db; 0xc1bdceee; 0xf57c0faf; 0x4787c62a; 0xa8304613; 0xfd469501;
   0x698098d8; 0x8b44f7af; 0xffff5bb1; 0x895cd7be; 0x6b901122; 0xfd987193; 0xa679438e; 0x49b40821;
   0xf61e2562; 0xc040b340; 0x265e5a51; 0xe9b6c7aa; 0xd62f105d; 0x02441453; 0xd8a1e681; 0xe7d3fbc8;
   0x21e1cde6; 0xc33707d6; 0xf4d50d87; 0x455a14ed; 0xa9e3e905; 0xfcefa3f8; 0x676f02d9; 0x8d2a4c8a;
   0xfffa3942; 0x8771f681; 0x6d9d6122; 0xfde5380c; 0xa4beea44; 0x4bdecfa9; 0xf6bb4b60; 0xbebfbc70;
   0x289b7ec6; 0xeaa127fa; 0xd4ef3085; 0x04881d05; 0xd9d4d039; 0xe6db99e5; 0x1fa27cf8; 0xc4ac5665;
   0xf4292244; 0x432aff97; 0xab9423a7; 0xfc93a039; 0x655b59c3; 0x8f0ccc92; 0xffeff47d; 0x85845dd1;
   0x6fa87e4f; 0xfe2ce6e0; 0xa3014314; 0x4e0811a1; 0xf7537e82; 0xbd3af235; 0x2ad7d2bb; 0xeb86d391].

Definition quad : Type := Z * Z * Z * Z.

Definition init : quad := (0x67452301, 0xefcdab89, 0x98badcfe, 0x10325476).

(** The round function and the index of the message word of step [i]. *)
Definition mix (i : nat) (b c d : Z) : Z * nat :=
  if (i <? 16)%nat then
    (Z.lor (Z.land b c) (Z.land (lnot32 b) d), i)
  else if (i <? 32)%nat then
    (Z.lor (Z.land d b) (Z.land (lnot32 d) c), ((5 * i + 1) mod 16)%nat)
  else if (i <? 48)%nat then
    (Z.lxor b (Z.lxor c d), ((3 * i + 5) mod 16)%nat)
  else
    (Z.lxor c (Z.lor b (lnot32 d)), ((7 * i) mod 16)%nat).

Definition step (block : list Z) (h : quad) (i : nat) : quad :=
  let '(a, b, c, d) := h in
  let '(f, g) := mix i b c d in
  let f' := w32 (f + a + nth i sines 0 + nth g block 0) in
  (d, w32 (b + rotl f' (nth i shifts 0)), b, c).

Definition compress (h : quad) (block : list Z) : quad :=
  let '(a0, b0, c0, d0) := h in
  let '(a, b, c, d) := fold_left (step block) (seq 0 64) h in
  (w32 (a0 + a), w32 (b0 + b), w32 (c0 + c), w32 (d0 + d)).

(** Little-endian bytes of [x]. *)
Fixpoint le_bytes (n : nat) (x : Z) : list Z :=
  match n with
  | O => []
  | S n' => x mod 256 :: le_bytes n' (x / 256)
  end.

Fixpoint le_words (bs : list Z) : list Z :=
  match bs with
  | b0 :: b1 :: b2 :: b3 :: rest =>
      (b0 + 256 * (b1 + 256 * (b2 + 256 * b3))) :: le_words rest
  | _ => []
  end.

Definition padded (msg : list Z) : list Z :=
  let len := Z.of_nat (length msg) in
  msg ++ [128] ++ repeat 0 (Z.to_nat ((55 - len) mod 64))
      ++ le_bytes 8 (8 * len).

Fixpoint blocks (fuel : nat) (h : quad) (ws : list Z) : quad :=
  match fuel, ws with
  | O, _ | _, [] => h
  | S n, _ => blocks n (compress h (take 16 ws)) (drop 16 ws)
  end.

Definition hex_digit (x : Z) : ascii :=
  if x <? 10 then ascii_of_N (Z.to_N (48 + x))
  else ascii_of_N (Z.to_N (87 + x)).

Fixpoint hex (bs : list Z) : string :=
  match bs with
  | [] => ""
  | b :: bs' => String (hex_digit (b / 16)) (String (hex_digit (b mod 16)) (hex bs'))
  end.

(** [hashlib.md5(data).hexdigest()] *)
Definition md5_hexdigest (data : list byte) : string :=
  let ws := le_words (padded (map (λ b, Z.of_N (Byte.to_N b)) data)) in
  let '(a, b, c, d) := blocks (length ws) init ws in
  hex (le_bytes 4 a ++ le_bytes 4 b ++ le_bytes 4 c ++ le_bytes 4 d).

(** The hasher object: what [update] has been fed so far. *)
Definition hasher : Type := list byte.
Definition md5 : hasher := [].
Definition update (h : hasher) (buf : list byte) : hasher := h ++ buf.
Definition hexdigest (h : hasher) : string := md5_hexdigest h.

End hashlib.

(** ** The file tree and the state of a run *)

(** A regular file with its bytes and the modification time that
    [os.path.getmtime] reports, or a directory. *)
Inductive node :=
| File (content : list byte) (mtime : Z)
| Dir.

(** A tree maps the components of an absolute, normalised path to what
    is there; the root is the empty list and is always a directory.
    Paths are resolved lexically, as [os.path.normpath] does it: this
    is what the kernel does on a tree without symbolic links, for a
    path in which what is named before a [..] or before a final
    separator is a directory. The paths are those a file system can
    hold: none has a NUL byte, which Python turns down with
    [ValueError] before any system call, and which neither [os.walk]
    nor the observer delivers, and none is longer than PATH_MAX (see
    [os.is_path]). A name is at most [NAME_MAX] bytes long where an
    entry is made. *)
Abbreviation tree := (gmap (list string) node).

(** The mutations of the tree, as the system calls that make them. *)
Inductive fs_op :=
| OpMkdir (k : list string)
| OpWrite (k : list string)
| OpRename (k k' : list string)
| OpUnlink (k : list string)
| OpRmdir (k : list string).

Inductive log_entry :=
| LogInfo (msg : string)
| LogError (msg : string).

(** The tree, the working directory of the process, the handler's
    [is_syncing] attribute, what went to the log and the mutations made
    so far (both oldest first). *)
Record state := State {
  files : tree;
  cwd : string;
  is_syncing : bool;
  log : list log_entry;
  ops : list fs_op
}.

Definition set_files (m : tree) (st : state) : state :=
  State m (cwd st) (is_syncing st) (log st) (ops st).
Definition set_is_syncing (b : bool) (st : state) : state :=
  State (files st) (cwd st) b (log st) (ops st).
Definition add_log (e : log_entry) (st : state) : state :=
  State (files st) (cwd st) (is_syncing st) (log st ++ [e]) (ops st).
Definition add_op (o : fs_op) (st : state) : state :=
  State (files st) (cwd st) (is_syncing st) (log st) (ops st ++ [o]).

(** ** The monad of the engine: state, and exceptions that keep the
    state reached when they were raised *)

Definition M (A : Type) : Type := state → result A * state.

Definition ret {A} (a : A) : M A := λ st, (Ok a, st).
Definition raise {A} (e : exn) : M A := λ st, (Raise e, st).
Definition bind {A B} (m : M A) (f : A → M B) : M B :=
  λ st, match m st with
        | (Ok a, st') => f a st'
        | (Raise e, st') => (Raise e, st')
        end.

(** [try: body except: handler(e)] for the exceptions [catches]
    accepts. *)
Definition try_except {A} (body : M A) (catches : exn → bool)
    (handler : exn → M A) : M A :=
  λ st, match body st with
        | (Ok a, st') => (Ok a, st')
        | (Raise e, st') =>
            if catches e then handler e st' else (Raise e, st')
        end.

(** [try: body finally: final] *)
Definition try_finally {A} (body : M A) (final : M unit) : M A :=
  λ st, match body st with
        | (r, st') =>
            match final st' with
            | (Ok _, st'') => (r, st'')
            | (Raise e, st'') => (Raise e, st'')
            end
        end.

Notation "'let*' x ':=' m 'in' k" := (bind m (λ x, k))
  (at level 10, x name, m at level 100, k at level 200,
   format "'let*'  x  :=  m  'in'  '/' k").
Notation "'let*' ' p ':=' m 'in' k" :=
  (bind m (λ x, match x with p => k end))
  (at level 10, p pattern, m at level 100, k at level 200,
   format "'let*'  ' p  :=  m  'in'  '/' k").

Definition lift {A} (r : result A) : M A := λ st, (r, st).
Definition get_state : M state := λ st, (Ok st, st).
Definition modify (f : state → state) : M unit := λ st, (Ok tt, f st).

Definition any_exception (e : exn) : bool := true.

(** ** os, os.path and shutil on the tree *)

Module os.
Import pystr posixpath.

Fixpoint has_nul (p : string) : bool :=
  match p with
  | "" => false
  | String c p' => Ascii.eqb c "000" || has_nul p'
  end.

(** PATH_MAX on Linux, the terminating NUL byte included. *)
Definition PATH_MAX : nat := 4096.

(** A string that is a path for the system and leads where
    [normpath] says: it has no NUL byte, is shorter than PATH_MAX and
    is in normal form, without a final separator, [.] or an inner
    [..]. The functions below are those of the system on such strings.
    The paths the program is given are taken to be such; a statement
    about a path that the program makes itself says so of that
    path. *)
Definition is_path (p : string) : bool :=
  negb (has_nul p) && (String.length p <? PATH_MAX) && String.eqb (normpath p) p.

(** Where the path leads; the empty path leads nowhere. *)
Definition resolve (wd p : string) : option (list string) :=
  match p with
  | "" => None
  | _ => Some (norm_comps true []
                 (split_sep (if isabs p then p else join wd p)))
  end.

Definition stat_key (m : tree) (k : list string) : option node :=
  match k with
  | [] => Some Dir
  | _ => m !! k
  end.

Definition parent (k : list string) : list string := removelast k.

Definition stat (st : state) (p : string) : option node :=
  match resolve (cwd st) p with
  | Some k => stat_key (files st) k
  | None => None
  end.

(** NAME_MAX, the longest name, in bytes, that an entry can have on
    the file systems the program runs on (APFS, ext4). *)
Definition NAME_MAX : nat := 255.

Definition name_ok (name : string) : bool :=
  String.length name <=? NAME_MAX.

(** What a system call fails with when the walk to [pre ++ rest],
    arrived at the directory [pre], does not get to the end: ENOTDIR
    when the walk has to go on below a regular file; at a name that is
    not there, ENAMETOOLONG when it is longer than any entry can be and
    ENOENT otherwise. A walk that gets to the end has found what is
    there: those cases do not arise where [stat] has found nothing. *)
Fixpoint walk_error (m : tree) (pre rest : list string) : exn :=
  match rest with
  | [] => FileNotFoundError
  | name :: rest' =>
      match stat_key m (pre ++ [name]), rest' with
      | Some Dir, _ => walk_error m (pre ++ [name]) rest'
      | Some (File _ _), _ :: _ => NotADirectoryError
      | Some (File _ _), [] => FileNotFoundError
      | None, _ => if name_ok name then FileNotFoundError else OSError
      end
  end.

Definition lookup_error (m : tree) (k : list string) : exn :=
  walk_error m [] k.

(** The error of a call on a path at which [stat] finds nothing; the
    empty path is ENOENT. *)
Definition missing (st : state) (p : string) : exn :=
  match resolve (cwd st) p with
  | Some k => lookup_error (files st) k
  | None => FileNotFoundError
  end.

(** [os.path.exists], [os.path.isdir] *)
Definition path_exists (p : string) : M bool :=
  λ st, (Ok (match stat st p with Some _ => true | None => false end), st).

Definition path_isdir (p : string) : M bool :=
  λ st, (Ok (match stat st p with Some Dir => true | _ => false end), st).

(** [os.path.getmtime]. Directory times are not tracked. *)
Definition path_getmtime (p : string) : M Z :=
  λ st, match stat st p with
        | Some (File _ t) => (Ok t, st)
        | Some Dir => (Raise Unsupported, st)
        | None => (Raise (missing st p), st)
        end.

(** [os.path.abspath] *)
Definition path_abspath (p : string) : M string :=
  λ st, (Ok (abspath (cwd st) p), st).

(** [os.path.relpath] *)
Definition path_relpath (p start : string) : M string :=
  λ st, match relpath (cwd st) p start with
        | Some r => (Ok r, st)
        | None => (Raise ValueError, st)
        end.

(** [open(p, 'rb')] followed by reading: the bytes of the file, or the
    [OSError] of the walk to a path at which nothing is found. A
    string with a NUL byte, at which [open] raises [ValueError], is no
    path: see [is_path]. *)
Definition open_rb (p : string) : M (list byte) :=
  λ st, match stat st p with
        | Some (File c _) => (Ok c, st)
        | Some Dir => (Raise IsADirectoryError, st)
        | None => (Raise (missing st p), st)
        end.

(** The [mkdir] system call at a resolved path; a new name longer
    than NAME_MAX is ENAMETOOLONG, an [OSError]. *)
Definition mkdir_key (k : list string) : M unit :=
  λ st, match stat_key (files st) k with
        | Some _ => (Raise FileExistsError, st)
        | None =>
            match stat_key (files st) (parent k) with
            | Some Dir =>
                if name_ok (List.last k "") then
                  (Ok tt, add_op (OpMkdir k) (set_files (<[k := Dir]> (files st)) st))
                else (Raise OSError, st)
            | Some (File _ _) => (Raise NotADirectoryError, st)
            | None => (Raise (lookup_error (files st) (parent k)), st)
            end
        end.

Definition exists_key (k : list string) : M bool :=
  λ st, (Ok (match stat_key (files st) k with Some _ => true | None => false end), st).

Definition isdir_key (k : list string) : M bool :=
  λ st, (Ok (match stat_key (files st) k with Some Dir => true | _ => false end), st).

(** The recursion of [os.makedirs(name, exist_ok=True)], on the
    components of the path in reverse: the missing head first, then
    [mkdir], whose [OSError] is dropped when the directory is there. *)
Fixpoint makedirs_rev (rk : list string) : M unit :=
  match rk with
  | [] => ret tt
  | _ :: rhead =>
      let* head_exists := exists_key (rev rhead) in
      let* _ :=
        if head_exists : bool then ret tt
        else try_except (makedirs_rev rhead)
               (λ e, match e with FileExistsError => true | _ => false end)
               (λ _, ret tt) in
      try_except (mkdir_key (rev rk)) is_OSError
        (λ e, let* d := isdir_key (rev rk) in
              if d : bool then ret tt else raise e)
  end.

Definition makedirs (p : string) : M unit :=
  let* st := get_state in
  match resolve (cwd st) p with
  | Some k => makedirs_rev (rev k)
  | None => raise FileNotFoundError
  end.

(** The name of [k'] inside [k], when [k'] is an entry of [k]. *)
Definition child_name (k k' : list string) : option string :=
  if decide (take (length k) k' = k) then
    match drop (length k) k' with
    | [x] => Some x
    | _ => None
    end
  else None.

Definition entries (m : tree) (k : list string) : list string :=
  omap (λ kv, child_name k kv.1) (map_to_list m).

(** [os.listdir] *)
Definition listdir (p : string) : M (list string) :=
  λ st, match resolve (cwd st) p with
        | Some k =>
            match stat_key (files st) k with
            | Some Dir => (Ok (entries (files st) k), st)
            | Some (File _ _) => (Raise NotADirectoryError, st)
            | None => (Raise (lookup_error (files st) k), st)
            end
        | None => (Raise FileNotFoundError, st)
        end.

(** [os.rmdir]: an empty directory other than the root. *)
Definition rmdir (p : string) : M unit :=
  λ st, match resolve (cwd st) p with
        | Some k =>
            match k, stat_key (files st) k with
            | [], _ => (Raise OSError, st)
            | _, Some Dir =>
                match entries (files st) k with
                | [] => (Ok tt, add_op (OpRmdir k) (set_files (delete k (files st)) st))
                | _ => (Raise OSError, st)
                end
            | _, Some (File _ _) => (Raise NotADirectoryError, st)
            | _, None => (Raise (lookup_error (files st) k), st)
            end
        | None => (Raise FileNotFoundError, st)
        end.

(** [os.remove] and [os.unlink] *)
Definition remove (p : string) : M unit :=
  λ st, match resolve (cwd st) p with
        | Some k =>
            match stat_key (files st) k with
            | Some (File _ _) =>
                (Ok tt, add_op (OpUnlink k) (set_files (delete k (files st)) st))
            | Some Dir => (Raise IsADirectoryError, st)
            | None => (Raise (lookup_error (files st) k), st)
            end
        | None => (Raise FileNotFoundError, st)
        end.

(** [os.rename] of a regular file; renaming a directory with what is
    below it is not covered. A new name longer than NAME_MAX is
    ENAMETOOLONG. *)
Definition rename (src dst : string) : M unit :=
  λ st, match resolve (cwd st) src, resolve (cwd st) dst with
        | Some k, Some k' =>
            match stat_key (files st) k with
            | Some (File c t) =>
                match stat_key (files st) k' with
                | Some Dir => (Raise IsADirectoryError, st)
                | Some (File _ _) =>
                    if decide (k = k') then (Ok tt, st)
                    else (Ok tt, add_op (OpRename k k')
                                   (set_files (<[k' := File c t]> (delete k (files st))) st))
                | None =>
                    match stat_key (files st) (parent k') with
                    | Some Dir =>
                        if name_ok (List.last k' "") then
                          (Ok tt, add_op (OpRename k k')
                                    (set_files (<[k' := File c t]> (delete k (files st))) st))
                        else (Raise OSError, st)
                    | Some (File _ _) => (Raise NotADirectoryError, st)
                    | None => (Raise (lookup_error (files st) (parent k')), st)
                    end
                end
            | Some Dir => (Raise Unsupported, st)
            | None => (Raise (lookup_error (files st) k), st)
            end
        | _, _ => (Raise FileNotFoundError, st)
        end.

End os.

Module shutil.
Import pystr posixpath.

(** [shutil._samefile]: both are there and are the same entry. *)
Definition samefile (src dst : string) : M bool :=
  λ st, (Ok (match os.resolve (cwd st) src, os.resolve (cwd st) dst with
             | Some k, Some k' =>
                 match os.stat_key (files st) k with
                 | Some _ => bool_decide (k = k')
                 | None => false
                 end
             | _, _ => false
             end), st).

(** [open(dst, 'wb')], the copy of the bytes, and [copystat], which
    gives the copy the modification time of the source. A new name
    longer than NAME_MAX is ENAMETOOLONG. *)
Definition write_file (dst : string) (c : list byte) (t : Z) : M unit :=
  λ st, match os.resolve (cwd st) dst with
        | Some k =>
            let written :=
              add_op (OpWrite k) (set_files (<[k := File c t]> (files st)) st) in
            match os.stat_key (files st) k with
            | Some Dir => (Raise IsADirectoryError, st)
            | Some (File _ _) => (Ok tt, written)
            | None =>
                match os.stat_key (files st) (os.parent k) with
                | Some Dir =>
                    if os.name_ok (List.last k "") then (Ok tt, written)
                    else (Raise OSError, st)
                | Some (File _ _) => (Raise NotADirectoryError, st)
                | None => (Raise (os.lookup_error (files st) (os.parent k)), st)
                end
            end
        | None => (Raise FileNotFoundError, st)
        end.

Definition copyfile (src dst : string) : M unit :=
  let* same := samefile src dst in
  if same : bool then raise SameFileError
  else
    λ st, match os.stat st src with
          | Some (File c t) => write_file dst c t st
          | Some Dir => (Raise IsADirectoryError, st)
          | None => (Raise (os.missing st src), st)
          end.

(** [shutil.copy2(src, dst)], which returns where the copy went. *)
Definition copy2 (src dst : string) : M string :=
  let* d := os.path_isdir dst in
  let dst := if d : bool then join dst (basename src) else dst in
  let* _ := copyfile src dst in
  ret dst.

(** [shutil.move(src, dst)]; moving a directory is not covered. *)
Definition move (src dst : string) : M string :=
  let* d := os.path_isdir dst in
  let* same := samefile src dst in
  if d && same then
    let* _ := os.rename src dst in ret dst
  else
    let real_dst :=
      if d : bool then join dst (basename (rstrip_sep src)) else dst in
    let* taken := if d : bool then os.path_exists real_dst else ret false in
    if taken : bool then raise ShutilError
    else
      let* _ :=
        try_except (os.rename src real_dst) is_OSError
          (λ _, let* sd := os.path_isdir src in
                if sd : bool then raise Unsupported
                else let* _ := copy2 src real_dst in os.remove src) in
      ret real_dst.

End shutil.

(** ** sync_service/core/utils.py *)

Module utils.

(** 65536, in a form whose head is known without unfolding the number. *)
Definition chunk_size : nat := S (N.to_nat 65535).

(** The loop of [calculate_file_hash]: [buf] is what the last
    [f.read(65536)] returned and [rest] what the file still holds. *)
Fixpoint read_loop (fuel : nat) (buf rest : list byte)
    (hasher : hashlib.hasher) : hashlib.hasher :=
  match fuel with
  | O => hasher
  | S n =>
      match buf with
      | [] => hasher
      | _ => read_loop n (take chunk_size rest) (drop chunk_size rest)
               (hashlib.update hasher buf)
      end
  end.

(** Every turn of the loop but the last takes bytes off the file, so
    its length and one more is fuel enough. *)
Definition calculate_file_hash (filepath : string) : M string :=
  let* data := os.open_rb filepath in
  ret (hashlib.hexdigest
         (read_loop (S (length data)) (take chunk_size data)
            (drop chunk_size data) hashlib.md5)).

Definition logging_info (msg : string) : M unit :=
  modify (add_log (LogInfo msg)).

Definition logging_error (msg : string) : M unit :=
  modify (add_log (LogError msg)).

Definition truthy_str (o : option string) : option string :=
  match o with
  | Some "" => None
  | _ => o
  end.

Definition log_sync_action (action src_path : string)
    (dest_path details : option string) : M unit :=
  let* a := os.path_abspath src_path in
  let msg := action +:+ ": " +:+ a in
  let* msg :=
    match truthy_str dest_path with
    | Some d => let* b := os.path_abspath d in ret (msg +:+ " -> " +:+ b)
    | None => ret msg
    end in
  let msg :=
    match truthy_str details with
    | Some d => msg +:+ " (" +:+ d +:+ ")"
    | None => msg
    end in
  logging_info msg.

(** The message is one record of four lines. *)
Definition log_conflict_resolution
    (resolution src_path dest_path action_taken : string) : M unit :=
  let nl := String (ascii_of_nat 10) "" in
  let* s := os.path_abspath src_path in
  let* d := os.path_abspath dest_path in
  let msg :=
    "Conflict detected between:" +:+ nl
    +:+ "  Source:      " +:+ s +:+ nl
    +:+ "  Destination: " +:+ d +:+ nl
    +:+ "Resolution '" +:+ resolution +:+ "' applied: " +:+ action_taken in
  logging_info msg.

End utils.

(** ** Configuration values *)

(** What the YAML loader hands over. *)
#[warnings="-register-all"]
Inductive pyval :=
| VNone
| VBool (b : bool)
| VInt (z : Z)
| VStr (s : string)
| VList (l : list pyval)
| VDict (d : gmap string pyval).

Module py.

(** Truth value testing. *)
Definition truthy (v : pyval) : bool :=
  match v with
  | VNone => false
  | VBool b => b
  | VInt z => negb (z =? 0)%Z
  | VStr s => negb (String.eqb s "")
  | VList l => match l with [] => false | _ => true end
  | VDict d => negb (size d =? 0)
  end.

(** [v == s] for a string literal [s]. *)
Definition eq_str (v : pyval) (s : string) : bool :=
  match v with
  | VStr x => String.eqb x s
  | _ => false
  end.

(** [d.get(key, default)] *)
Definition get (d : gmap string pyval) (key : string) (default : pyval) : pyval :=
  match d !! key with
  | Some v => v
  | None => default
  end.

End py.

(** ** sync_service/core/handler.py *)

Module handler.
Import pystr posixpath.

(** The attributes of a [SyncHandler] that never change after
    [__init__]; [is_syncing] lives in the state. *)
Record SyncHandler := {
  source_dir : string;
  destination_dir : string;
  exclude_patterns : list string;
  config : gmap string pyval;
  dry_run : bool;
  conflict_settings : gmap string pyval
}.

Definition default_conflict_settings : gmap string pyval :=
  <["deleted_files" := VStr "trash"]>
  (<["modified_files" := VStr "keep_both"]>
  (<["trash_dir" := VStr ".trash"]>
  (<["duplicate_format" := VStr "{original_name}_{timestamp}{ext}"]> ∅))).

(** [settings.update(other)]: the keys of [other] win. Only a mapping
    or an empty sequence is covered. *)
Definition dict_update (settings : gmap string pyval) (other : pyval)
    : M (gmap string pyval) :=
  match other with
  | VDict d => ret (d ∪ settings)
  | VStr "" | VList [] => ret settings
  | VStr _ => raise ValueError
  | VList _ => raise Unsupported
  | VNone | VBool _ | VInt _ => raise TypeError
  end.

(** [SyncHandler.__init__] *)
Definition init (source_dir destination_dir : string)
    (exclude_patterns : option (list string))
    (config : option (gmap string pyval)) (dry_run : bool)
    : M SyncHandler :=
  let* source_dir := os.path_abspath source_dir in
  let* destination_dir := os.path_abspath destination_dir in
  let exclude_patterns :=
    match exclude_patterns with Some l => l | None => [] end in
  let config :=
    match config with Some c => c | None => ∅ end in
  let* _ := modify (set_is_syncing false) in
  let settings := default_conflict_settings in
  let* settings :=
    dict_update settings (py.get config "conflict_resolution" (VDict ∅)) in
  let* pair_settings :=
    match py.get config "sync_pair_config" (VDict ∅) with
    | VDict sync_pair => ret (py.get sync_pair "conflict_resolution" (VDict ∅))
    | _ => raise AttributeError
    end in
  let* settings := dict_update settings pair_settings in
  ret {| source_dir := source_dir;
         destination_dir := destination_dir;
         exclude_patterns := exclude_patterns;
         config := config;
         dry_run := dry_run;
         conflict_settings := settings |}.

(** [self.conflict_settings[key]] *)
Definition setting (h : SyncHandler) (key : string) : M pyval :=
  match conflict_settings h !! key with
  | Some v => ret v
  | None => raise KeyError
  end.

Definition hidden (part : string) : bool := startswith part ".".

Definition should_exclude (h : SyncHandler) (path : string) : M bool :=
  let* relative_path := os.path_relpath path (source_dir h) in
  if py.truthy (py.get (config h) "skip_hidden" (VBool true))
     && existsb hidden (parts relative_path)
  then ret true
  else ret (existsb (fnmatch.fnmatch relative_path) (exclude_patterns h)).

Definition files_are_identical (file1 file2 : string) : M bool :=
  try_except
    (let* h1 := utils.calculate_file_hash file1 in
     let* h2 := utils.calculate_file_hash file2 in
     ret (String.eqb h1 h2))
    is_OSError
    (λ _, ret false).

(** A setting used as a string: as a path component by
    [os.path.join], which raises [TypeError] on anything else. *)
Definition as_path (v : pyval) : M string :=
  match v with
  | VStr s => ret s
  | _ => raise TypeError
  end.

(** [now] is what [datetime.now()] returns during the call. *)
Definition get_trash_path (h : SyncHandler) (now : datetime.t)
    (filename : string) : M string :=
  let* td := setting h "trash_dir" in
  let* td := as_path td in
  let trash_dir := join (destination_dir h) td in
  let timestamp := datetime.strftime now in
  let '(base_name, ext) := splitext filename in
  let trash_name := base_name +:+ "_" +:+ timestamp +:+ ext in
  let* _ := utils.logging_info ("Trash location: " +:+ join trash_dir trash_name) in
  ret (join trash_dir trash_name).

Definition get_duplicate_path (h : SyncHandler) (now : datetime.t)
    (dest_path : string) : M string :=
  let '(base_path, ext) := splitext dest_path in
  let timestamp := datetime.strftime now in
  let original_name := basename base_path in
  let* fmt := setting h "duplicate_format" in
  let* new_name :=
    match fmt with
    | VStr template =>
        lift (pyformat.format template
                [("original_name", original_name);
                 ("timestamp", timestamp);
                 ("ext", ext)])
    | _ => raise AttributeError
    end in
  ret (join (dirname dest_path) new_name).

(** The recursion goes to [os.path.dirname(directory)], which is
    shorter whenever [directory] could be removed. *)
Fixpoint cleanup_empty_dirs_fuel (fuel : nat) (h : SyncHandler)
    (directory : string) : M unit :=
  match fuel with
  | O => ret tt
  | S n =>
      let* there := os.path_exists directory in
      if negb there then ret tt
      else if String.eqb directory (destination_dir h) then ret tt
      else
        try_except
          (let* names := os.listdir directory in
           match names with
           | [] =>
               let* _ := os.rmdir directory in
               let* rel := os.path_relpath directory (destination_dir h) in
               let* _ := utils.logging_info ("Removed empty directory: " +:+ rel) in
               cleanup_empty_dirs_fuel n h (dirname directory)
           | _ => ret tt
           end)
          is_OSError
          (λ _, ret tt)
  end.

Definition cleanup_empty_dirs (h : SyncHandler) (directory : string) : M unit :=
  cleanup_empty_dirs_fuel (S (String.length directory)) h directory.

Definition sync_file (h : SyncHandler) (now : datetime.t)
    (src_path : string) : M unit :=
  try_finally
    (let* _ := modify (set_is_syncing true) in
     let* rel_path := os.path_relpath src_path (source_dir h) in
     let dest_path := join (destination_dir h) rel_path in
     let* excluded := should_exclude h src_path in
     if excluded : bool then ret tt
     else
       let* there := os.path_exists dest_path in
       if there : bool then
         let* same := files_are_identical src_path dest_path in
         if same : bool then ret tt
         else
           let* policy := setting h "modified_files" in
           if py.eq_str policy "keep_both" then
             let* new_dest_path := get_duplicate_path h now dest_path in
             if dry_run h then
               utils.log_sync_action "Would create new version" src_path
                 (Some new_dest_path) None
             else
               let* _ := os.makedirs (dirname new_dest_path) in
               let* _ := shutil.copy2 src_path new_dest_path in
               utils.log_sync_action "Created new version" src_path
                 (Some new_dest_path) None
           else
             let* policy := setting h "modified_files" in
             if py.eq_str policy "keep_newest" then
               let* ts := os.path_getmtime src_path in
               let* td := os.path_getmtime dest_path in
               if (ts >? td)%Z then
                 if negb (dry_run h) then
                   let* _ := shutil.copy2 src_path dest_path in
                   utils.log_sync_action "Updated (newer)" src_path
                     (Some dest_path) None
                 else ret tt
               else ret tt
             else
               if negb (dry_run h) then
                 let* _ := shutil.copy2 src_path dest_path in
                 utils.log_sync_action "Updated" src_path (Some dest_path) None
               else
                 utils.log_sync_action "Would sync" src_path (Some dest_path) None
       else
         let* _ := os.makedirs (dirname dest_path) in
         let* _ := shutil.copy2 src_path dest_path in
         utils.log_sync_action "Synced" src_path (Some dest_path) None)
    (modify (set_is_syncing false)).

Definition handle_delete (h : SyncHandler) (now : datetime.t)
    (src_path : string) : M unit :=
  try_finally
    (let* _ := modify (set_is_syncing true) in
     let* rel_path := os.path_relpath src_path (source_dir h) in
     let dest_path := join (destination_dir h) rel_path in
     let* there := os.path_exists dest_path in
     if negb there then ret tt
     else if dry_run h then
       utils.log_sync_action "Would handle deletion" src_path (Some dest_path) None
     else
       let* policy := setting h "deleted_files" in
       let* _ :=
         if py.eq_str policy "trash" then
           let* trash_path := get_trash_path h now (basename dest_path) in
           let* _ := os.makedirs (dirname trash_path) in
           let* _ := shutil.move dest_path trash_path in
           utils.log_sync_action "Moved to trash" dest_path (Some trash_path) None
         else
           let* policy := setting h "deleted_files" in
           if py.eq_str policy "delete" then
             let* _ := os.remove dest_path in
             utils.log_sync_action "Deleted" dest_path None
               (Some "permanent deletion")
           else ret tt in
       if py.truthy (py.get (config h) "cleanup_empty_dirs" (VBool true)) then
         cleanup_empty_dirs h (dirname dest_path)
       else ret tt)
    (modify (set_is_syncing false)).

(** A watchdog event. *)
Record event := {
  is_directory : bool;
  src_path : string;
  dest_path : string
}.

Definition busy : M bool := λ st, (Ok (is_syncing st), st).

Definition on_created (h : SyncHandler) (now : datetime.t) (ev : event) : M unit :=
  let* b := busy in
  if is_directory ev || b then ret tt
  else sync_file h now (src_path ev).

Definition on_modified (h : SyncHandler) (now : datetime.t) (ev : event) : M unit :=
  let* b := busy in
  if is_directory ev || b then ret tt
  else sync_file h now (src_path ev).

(** The two calls of [on_moved] read the clock one after the other. *)
Definition on_moved (h : SyncHandler) (now now' : datetime.t) (ev : event) : M unit :=
  let* b := busy in
  if is_directory ev || b then ret tt
  else
    let* _ := handle_delete h now (src_path ev) in
    if startswith (dest_path ev) (source_dir h)
    then sync_file h now' (dest_path ev)
    else ret tt.

Definition on_deleted (h : SyncHandler) (now : datetime.t) (ev : event) : M unit :=
  let* b := busy in
  if is_directory ev || b then ret tt
  else handle_delete h now (src_path ev).

End handler.

(** ** sync_service/cli/main.py *)

Module main.
Import pystr posixpath handler.

(** [os.walk(top)], top down. [keep] is what the body of the loop
    leaves in [dirs] before the walk goes on; a directory that cannot
    be listed yields nothing. No directory is deeper than the tree has
    entries, which bounds the descent. *)
Fixpoint walk_fuel (fuel : nat) (keep : list string → list string)
    (st : state) (top : string)
    : list (string * list string * list string) :=
  match fuel with
  | O => []
  | S n =>
      match os.listdir top st with
      | (Ok names, _) =>
          let is_dir name :=
            match os.stat st (join top name) with
            | Some Dir => true
            | _ => false
            end in
          let dirs := keep (filter (λ x, is_dir x = true) names) in
          let nondirs := filter (λ x, is_dir x = false) names in
          (top, dirs, nondirs)
            :: flat_map (λ d, walk_fuel n keep st (join top d)) dirs
      | (Raise _, _) => []
      end
  end.

Definition walk (keep : list string → list string) (top : string)
    : M (list (string * list string * list string)) :=
  λ st, (Ok (walk_fuel (S (size (files st))) keep st top), st).

(** [for x in l: body(x)] *)
Fixpoint for_each {A} (l : list A) (body : A → M unit) : M unit :=
  match l with
  | [] => ret tt
  | x :: l' => let* _ := body x in for_each l' body
  end.

(** The pruning of [dirs] in the first walk. *)
Definition prune (config : gmap string pyval) (dirs : list string)
    : list string :=
  if py.truthy (py.get config "skip_hidden" (VBool true))
  then filter (λ d, hidden d = false) dirs
  else dirs.

(** The paths [os.path.join(root, file)] of a walk, in order. *)
Definition walked_files (w : list (string * list string * list string))
    : list string :=
  flat_map (λ '(root, _, fs), map (join root) fs) w.

(** First pass: the files to sync and the set of their relative
    paths. *)
Fixpoint scan_source (h : SyncHandler) (source_dir : string)
    (candidates : list string) : M (list string * gset string) :=
  match candidates with
  | [] => ret ([], ∅)
  | src_file :: rest =>
      let* excluded := should_exclude h src_file in
      if excluded : bool then scan_source h source_dir rest
      else
        let* rel := os.path_relpath src_file source_dir in
        let* '(l, s) := scan_source h source_dir rest in
        ret (src_file :: l, {[rel]} ∪ s)
  end.

(** The text of an exception is kept to the name of its class. *)
Definition exn_text (e : exn) : string :=
  match e with
  | FileNotFoundError => "FileNotFoundError"
  | IsADirectoryError => "IsADirectoryError"
  | NotADirectoryError => "NotADirectoryError"
  | FileExistsError => "FileExistsError"
  | PermissionError => "PermissionError"
  | OSError => "OSError"
  | SameFileError => "SameFileError"
  | ShutilError => "Error"
  | ValueError => "ValueError"
  | KeyError => "KeyError"
  | IndexError => "IndexError"
  | TypeError => "TypeError"
  | AttributeError => "AttributeError"
  | Unsupported => "Unsupported"
  end.

Definition sync_worker (h : SyncHandler) (now : datetime.t)
    (src_file : string) : M bool :=
  try_except
    (let* _ := sync_file h now src_file in ret true)
    any_exception
    (λ e, let* _ := utils.logging_error
                      ("Error syncing " +:+ src_file +:+ ": " +:+ exn_text e) in
          ret false).

(** The pool of the sync phase, one task after the other in the
    order of submission; [clock] gives the time at which the task of
    a path runs. The exception a task ends with is logged when its
    result is asked for. *)
Definition sync_all (h : SyncHandler) (clock : string → datetime.t)
    (files_to_sync : list string) : M unit :=
  for_each files_to_sync (λ src_file,
    try_except
      (let* _ := sync_worker h (clock src_file) src_file in ret tt)
      any_exception
      (λ e, utils.logging_error
              ("Error processing " +:+ src_file +:+ ": " +:+ exn_text e))).

(** Second walk: the destination files without a source. *)
Fixpoint scan_destination (h : SyncHandler) (destination_dir : string)
    (source_files : gset string) (candidates : list string)
    : M (list (string * string)) :=
  match candidates with
  | [] => ret []
  | dest_file :: rest =>
      let* excluded := should_exclude h dest_file in
      if excluded : bool then
        scan_destination h destination_dir source_files rest
      else
        let* rel_path := os.path_relpath dest_file destination_dir in
        let* l := scan_destination h destination_dir source_files rest in
        if bool_decide (rel_path ∈ source_files) then ret l
        else ret ((dest_file, rel_path) :: l)
  end.

Definition delete_worker (h : SyncHandler) (now : datetime.t)
    (source_dir : string) (file_info : string * string) : M bool :=
  let '(dest_file, rel_path) := file_info in
  let src_path := join source_dir rel_path in
  let* _ := handle_delete h now src_path in
  ret true.

(** The pool of the delete phase; nothing asks for the results, so an
    exception a task ends with is dropped. *)
Definition delete_all (h : SyncHandler) (clock : string → datetime.t)
    (source_dir : string) (dest_files_to_check : list (string * string))
    : M unit :=
  for_each dest_files_to_check (λ file_info,
    try_except
      (let* _ := delete_worker h (clock (fst file_info)) source_dir file_info in
       ret tt)
      any_exception
      (λ _, ret tt)).

(** [main] always passes a dictionary for [config]. *)
Definition perform_initial_sync (source_dir destination_dir : string)
    (exclude_patterns : option (list string))
    (config : gmap string pyval) (dry_run : bool)
    (clock : string → datetime.t) : M unit :=
  let* _ := utils.logging_info
              ("Starting initial sync from " +:+ source_dir +:+ " to "
               +:+ destination_dir) in
  let* h := init source_dir destination_dir exclude_patterns
              (Some config) dry_run in
  let* there := os.path_exists destination_dir in
  let* _ :=
    if negb there then
      let* _ := if negb dry_run then os.makedirs destination_dir else ret tt in
      utils.logging_info ("Created destination directory: " +:+ destination_dir)
    else ret tt in
  let* w := walk (prune config) source_dir in
  let* '(files_to_sync, source_files) :=
    scan_source h source_dir (walked_files w) in
  let* _ := sync_all h clock files_to_sync in
  let* w := walk (λ dirs, dirs) destination_dir in
  let* dest_files_to_check :=
    scan_destination h destination_dir source_files (walked_files w) in
  let* _ :=
    match dest_files_to_check with
    | [] => ret tt
    | _ => delete_all h clock source_dir dest_files_to_check
    end in
  utils.logging_info "Initial sync completed".

(** The settings [main] hands to a pair: a copy of the global
    settings with the pair under [sync_pair_config]. *)
Definition sync_pair_settings (settings sync_pair : gmap string pyval)
    : gmap string pyval :=
  <["sync_pair_config" := VDict sync_pair]> settings.

End main.

(** ** sync5.py, the single-file version of the engine *)

(** Its [SyncHandler] has the attributes of the one in [handler.py];
    [should_exclude], [files_are_identical] and [get_duplicate_path]
    have the same text in both files and are taken from there. The
    class defines no event method and no [cleanup_empty_dirs]. *)
Module sync5.
Import pystr posixpath handler.

(** [SyncHandler.__init__]: the defaults updated with the global
    [conflict_resolution] settings only. *)
Definition init (source_dir destination_dir : string)
    (exclude_patterns : option (list string))
    (config : option (gmap string pyval)) (dry_run : bool)
    : M SyncHandler :=
  let* source_dir := os.path_abspath source_dir in
  let* destination_dir := os.path_abspath destination_dir in
  let exclude_patterns :=
    match exclude_patterns with Some l => l | None => [] end in
  let config :=
    match config with Some c => c | None => ∅ end in
  let* _ := modify (set_is_syncing false) in
  let settings := default_conflict_settings in
  let* settings :=
    dict_update settings (py.get config "conflict_resolution" (VDict ∅)) in
  ret {| source_dir := source_dir;
         destination_dir := destination_dir;
         exclude_patterns := exclude_patterns;
         config := config;
         dry_run := dry_run;
         conflict_settings := settings |}.

Definition get_trash_path (h : SyncHandler) (now : datetime.t)
    (filename : string) : M string :=
  let* td := setting h "trash_dir" in
  let* td := as_path td in
  let trash_dir := join (destination_dir h) td in
  let timestamp := datetime.strftime now in
  let '(base_name, ext) := splitext filename in
  let trash_name := base_name +:+ "_" +:+ timestamp +:+ ext in
  ret (join trash_dir trash_name).

(** The last statement looks up [self.cleanup_empty_dirs], which
    neither the class nor [FileSystemEventHandler] defines. *)
Definition handle_delete (h : SyncHandler) (now : datetime.t)
    (src_path : string) : M unit :=
  try_finally
    (let* _ := modify (set_is_syncing true) in
     let* rel_path := os.path_relpath src_path (source_dir h) in
     let dest_path := join (destination_dir h) rel_path in
     let* there := os.path_exists dest_path in
     if negb there then ret tt
     else if dry_run h then
       utils.logging_info ("Would handle deletion of: " +:+ rel_path)
     else
       let* policy := setting h "deleted_files" in
       let* _ :=
         if py.eq_str policy "trash" then
           let* trash_path := get_trash_path h now (basename dest_path) in
           let* _ := os.makedirs (dirname trash_path) in
           let* _ := shutil.move dest_path trash_path in
           utils.logging_info ("Moved to trash: " +:+ rel_path)
         else
           let* policy := setting h "deleted_files" in
           if py.eq_str policy "delete" then
             let* _ := os.remove dest_path in
             utils.logging_info ("Deleted: " +:+ rel_path)
           else ret tt in
       if py.truthy (py.get (config h) "cleanup_empty_dirs" (VBool true)) then
         raise AttributeError
       else ret tt)
    (modify (set_is_syncing false)).

Definition sync_file (h : SyncHandler) (now : datetime.t)
    (src_path : string) : M unit :=
  try_finally
    (let* _ := modify (set_is_syncing true) in
     let* rel_path := os.path_relpath src_path (source_dir h) in
     let dest_path := join (destination_dir h) rel_path in
     let* excluded := should_exclude h src_path in
     if excluded : bool then ret tt
     else
       let* there := os.path_exists dest_path in
       if there : bool then
         let* same := files_are_identical src_path dest_path in
         if same : bool then ret tt
         else
           let* policy := setting h "modified_files" in
           if py.eq_str policy "keep_both" then
             let* new_dest_path := get_duplicate_path h now dest_path in
             if dry_run h then
               utils.logging_info
                 ("Would create new version: " +:+ basename new_dest_path)
             else
               let* _ := os.makedirs (dirname new_dest_path) in
               let* _ := shutil.copy2 src_path new_dest_path in
               let* rel := os.path_relpath new_dest_path (destination_dir h) in
               utils.logging_info ("Created new version: " +:+ rel)
           else
             let* policy := setting h "modified_files" in
             if py.eq_str policy "keep_newest" then
               let* ts := os.path_getmtime src_path in
               let* td := os.path_getmtime dest_path in
               if (ts >? td)%Z then
                 if negb (dry_run h) then
                   let* _ := shutil.copy2 src_path dest_path in
                   utils.logging_info ("Updated (newer): " +:+ rel_path)
                 else ret tt
               else ret tt
             else
               if negb (dry_run h) then
                 let* _ := shutil.copy2 src_path dest_path in
                 utils.logging_info ("Updated: " +:+ rel_path)
               else ret tt
       else
         if dry_run h then
           utils.logging_info ("Would sync: " +:+ rel_path)
         else
           let* _ := os.makedirs (dirname dest_path) in
           let* _ := shutil.copy2 src_path dest_path in
           utils.logging_info ("Synced: " +:+ rel_path))
    (modify (set_is_syncing false)).

End sync5.

(** ** Notions used to state the properties *)

Module spec.
Import pystr posixpath handler.

(** A file name proper: not empty, not [.] or [..], without a
    separator. *)
Definition plain (n : string) : Prop :=
  n ≠ "" ∧ n ≠ "." ∧ n ≠ ".." ∧ has_sep n = false.

Definition plainb (n : string) : bool :=
  negb (String.eqb n "") && negb (String.eqb n ".")
  && negb (String.eqb n "..") && negb (has_sep n).

(** A tree whose entries have proper names, as those of a file system
    have. *)
Definition plain_names (m : tree) : Prop :=
  ∀ k x, m !! k = Some x → Forall plain k.

(** The decision of [should_exclude] on a relative path. *)
Definition excluded (h : SyncHandler) (rel : string) : bool :=
  py.truthy (py.get (config h) "skip_hidden" (VBool true))
  && existsb hidden (parts rel)
  || existsb (fnmatch.fnmatch rel) (exclude_patterns h).

(** A configuration layer: the [conflict_resolution] mapping of a
    settings dictionary, empty when the key is absent. *)
Definition layer (cfg d : gmap string pyval) : Prop :=
  cfg !! "conflict_resolution" = Some (VDict d)
  ∨ (cfg !! "conflict_resolution" = None ∧ d = ∅).

(** Source and destination are regular files with different
    digests. *)
Definition divergent (st : state) (src dst : string) : Prop :=
  ∃ sc sm dc dm,
    os.stat st src = Some (File sc sm)
    ∧ os.stat st dst = Some (File dc dm)
    ∧ hashlib.md5_hexdigest sc ≠ hashlib.md5_hexdigest dc.

(** What [files_are_identical] decides. *)
Definition identical (st : state) (f1 f2 : string) : bool :=
  match os.stat st f1, os.stat st f2 with
  | Some (File c1 _), Some (File c2 _) =>
      String.eqb (hashlib.md5_hexdigest c1) (hashlib.md5_hexdigest c2)
  | _, _ => false
  end.

(** [m'] is [m] with new directories, all of them on the way to
    [k]. *)
Definition grown (m m' : tree) (k : list string) : Prop :=
  ∀ j, m' !! j = m !! j
       ∨ (m !! j = None ∧ m' !! j = Some Dir ∧ j `prefix_of` k).

(** No regular file lies on the way to [k]. *)
(** The walk from the root to [j] goes through directories. *)
Definition dirs_to (m : tree) (j : list string) : Prop :=
  ∀ i, i `prefix_of` j → os.stat_key m i = Some Dir.

Definition no_file_on_path (m : tree) (k : list string) : Prop :=
  ∀ j c t, j `prefix_of` k → os.stat_key m j ≠ Some (File c t).

(** The state after the file at [k] was written with the bytes [c]
    and the modification time [t]. *)
Definition written (k : list string) (c : list byte) (t : Z)
    (st : state) : state :=
  add_op (OpWrite k) (set_files (<[k := File c t]> (files st)) st).

(** The state is as it was, up to the log and the guard. *)
Definition quiet (st st' : state) : Prop :=
  files st' = files st ∧ ops st' = ops st ∧ cwd st' = cwd st.

(** A computation that only reads the tree: whatever it ends with,
    the state it leaves is as it was, up to the log and the guard. *)
Definition reads {A} (m : M A) : Prop := ∀ st, quiet st (snd (m st)).

(** A duplicate format that [str.format] renders with the three
    keyword arguments of [get_duplicate_path]; whether it does depends
    on the names of the arguments, not on their values. *)
Definition renders (template : string) : Prop :=
  ∃ name, pyformat.format template
            [("original_name", ""); ("timestamp", ""); ("ext", "")] = Ok name.

(** When [sync_file] has nothing to write, for the value [v] of the
    [modified_files] setting: the path is excluded, or the
    destination is there and either is identical, or the run is dry
    (under keep_both the name of the duplicate is still made), or the
    destination is not newer under keep_newest. *)
Definition settled (h : SyncHandler) (st : state) (src rel : string)
    (v : pyval) : Prop :=
  let dp := join (destination_dir h) rel in
  excluded h rel = true
  ∨ (os.stat st dp ≠ None
     ∧ (identical st src dp = true
        ∨ (py.eq_str v "keep_both" = true
           ∧ dry_run h = true
           ∧ ∃ template,
               conflict_settings h !! "duplicate_format" = Some (VStr template)
               ∧ renders template)
        ∨ (py.eq_str v "keep_both" = false
           ∧ ((py.eq_str v "keep_newest" = true
               ∧ ∃ sc ts dc td,
                   os.stat st src = Some (File sc ts)
                   ∧ os.stat st dp = Some (File dc td)
                   ∧ ((ts >? td)%Z = false ∨ dry_run h = true))
              ∨ (py.eq_str v "keep_newest" = false
                 ∧ dry_run h = true))))).

(** The state after the file at [k] was renamed to [k']. *)
Definition renamed (k k' : list string) (c : list byte) (t : Z)
    (st : state) : state :=
  add_op (OpRename k k')
    (set_files (<[k' := File c t]> (delete k (files st))) st).

(** A character that [fnmatch] gives a meaning to. *)
Definition wild (c : ascii) : bool :=
  Ascii.eqb c "*" || Ascii.eqb c "?" || Ascii.eqb c "[".

(** A pattern without such characters. *)
Fixpoint literal (s : string) : bool :=
  match s with
  | "" => true
  | String c s' => negb (wild c) && literal s'
  end.

End spec.

Arguments posixpath.join : simpl never.
Arguments posixpath.dirname : simpl never.
Arguments posixpath.basename : simpl never.
Arguments posixpath.splitext : simpl never.
Arguments posixpath.relpath : simpl never.
Arguments posixpath.abspath : simpl never.
Arguments os.resolve : simpl never.
Arguments datetime.strftime : simpl never.
Arguments hashlib.md5_hexdigest : simpl never.
Arguments fnmatch.fnmatch : simpl never.
Arguments pyformat.format : simpl never.
Arguments utils.chunk_size : simpl never.

(** ** Trees and handlers to run the engine on *)

Module examples.
Import handler.

Definition bytes (s : string) : list byte := String.list_byte_of_string s.

(** [/src] holds [a.txt] and [sub/n.txt]; [/dst] holds another
    [a.txt], older, and [b.txt], which has no source. *)
Definition tree0 : tree :=
  <[ ["src"] := Dir ]>
  (<[ ["src"; "a.txt"] := File (bytes "X") 200 ]>
  (<[ ["src"; "sub"] := Dir ]>
  (<[ ["src"; "sub"; "n.txt"] := File (bytes "N") 50 ]>
  (<[ ["dst"] := Dir ]>
  (<[ ["dst"; "a.txt"] := File (bytes "Y") 100 ]>
  (<[ ["dst"; "b.txt"] := File (bytes "B") 10 ]> ∅)))))).

Definition st0 : state := State tree0 "/" false [] [].

Definition now0 : datetime.t := datetime.mk 2025 1 7 9 30 5.
Definition now1 : datetime.t := datetime.mk 2025 1 7 9 30 6.

(** The handler of the pair [/src] to [/dst] whose configuration has
    [settings] for [conflict_resolution] and nothing else. *)
Definition handler_of (dry : bool) (settings : gmap string pyval)
    : SyncHandler :=
  {| source_dir := "/src";
     destination_dir := "/dst";
     exclude_patterns := [];
     config := <["conflict_resolution" := VDict settings]> ∅;
     dry_run := dry;
     conflict_settings := settings ∪ default_conflict_settings |}.

Definition keep_newest : gmap string pyval :=
  <["modified_files" := VStr "keep_newest"]> ∅.
Definition overwrite : gmap string pyval :=
  <["modified_files" := VStr "overwrite"]> ∅.
Definition same_name : gmap string pyval :=
  <["duplicate_format" := VStr "{original_name}{ext}"]> ∅.

(** The example tree after [a.txt] was copied to the destination and
    the copy touched. *)
Definition st_same : state :=
  State (<[ ["dst"; "a.txt"] := File (bytes "X") 7 ]> tree0) "/" false [] [].


Definition delete_files : gmap string pyval :=
  <["deleted_files" := VStr "delete"]> ∅.

(** A handler of the pair with exclude patterns and the default
    settings, and a handler told not to skip hidden files. *)
Definition with_patterns (patterns : list string) : SyncHandler :=
  {| source_dir := "/src";
     destination_dir := "/dst";
     exclude_patterns := patterns;
     config := ∅;
     dry_run := false;
     conflict_settings := default_conflict_settings |}.
Definition show_hidden (h : SyncHandler) : SyncHandler :=
  {| source_dir := source_dir h;
     destination_dir := destination_dir h;
     exclude_patterns := exclude_patterns h;
     config := <["skip_hidden" := VBool false]> (config h);
     dry_run := dry_run h;
     conflict_settings := conflict_settings h |}.

(** A file moved out of the watched tree, and a directory made in
    it. *)
Definition moved_out : event :=
  {| is_directory := false;
     src_path := "/src/a.txt";
     dest_path := "/elsewhere/a.txt" |}.
Definition made_dir : event :=
  {| is_directory := true; src_path := "/src/sub"; dest_path := "" |}.


(** The example tree with an empty directory in the destination. *)
Definition st_empty_dir : state :=
  State (<[ ["dst"; "old"] := Dir ]> tree0) "/" false [] [].

(** The example tree with a hidden directory in the source. *)
Definition st_hidden : state :=
  State (<[ ["src"; ".git"] := Dir ]>
         (<[ ["src"; ".git"; "config"] := File (bytes "C") 5 ]> tree0))
    "/" false [] [].

(** The example tree with a regular file named as the trash directory
    is, and with a directory named as the trash path of [b.txt] is at
    [now0]. *)
Definition st_trash_is_file : state :=
  State (<[ ["dst"; ".trash"] := File (bytes "T") 1 ]> tree0) "/" false [] [].
Definition st_trash_name_taken : state :=
  State (<[ ["dst"; ".trash"] := Dir ]>
         (<[ ["dst"; ".trash"; "b_20250107_093005.txt"] := Dir ]> tree0))
    "/" false [] [].

(** A name of 250 bytes, and the example tree with a file of that name
    in the destination. *)
Definition long_name : string :=
  string_of_list_ascii (repeat "a"%char 246) +:+ ".txt".
Definition st_long_name : state :=
  State (<[ ["dst"; long_name] := File (bytes "L") 3 ]> tree0) "/" false [] [].

End examples.


(** * Properties *)

Import pystr posixpath handler spec.

(** ** The monad *)

Lemma bind_ok {A B} (m : M A) (f : A → M B) st a st' :
  m st = (Ok a, st') → bind m f st = f a st'.
Proof. intros H. unfold bind. by rewrite H. Qed.

Lemma bind_raise {A B} (m : M A) (f : A → M B) st e st' :
  m st = (Raise e, st') → bind m f st = (Raise e, st').
Proof. intros H. unfold bind. by rewrite H. Qed.

Lemma try_finally_flag {A} (body : M A) st :
  is_syncing (snd (try_finally body (modify (set_is_syncing false)) st)) = false.
Proof. unfold try_finally, modify. by destruct (body st) as [r st']. Qed.

Lemma try_finally_run {A} (body : M A) (f : state → state) st r st' :
  body st = (r, st') → try_finally body (modify f) st = (r, f st').
Proof. intros H. unfold try_finally, modify. by rewrite H. Qed.

Lemma bind_ext_at {A B} (m : M A) (f g : A → M B) st :
  (∀ a st', m st = (Ok a, st') → f a st' = g a st') →
  bind m f st = bind m g st.
Proof.
  intros H. unfold bind. destruct (m st) as [[a|e] st']; [by apply H|done].
Qed.

Lemma try_except_ext_at {A} (body body' : M A) catches handler st :
  body st = body' st →
  try_except body catches handler st = try_except body' catches handler st.
Proof. intros H. unfold try_except. by rewrite H. Qed.

Lemma is_OSError_walk_error m pre rest :
  is_OSError (os.walk_error m pre rest) = true.
Proof.
  revert pre. induction rest as [|name rest IH]; intros pre; [done|].
  cbn [os.walk_error].
  destruct (os.stat_key m (pre ++ [name])) as [[c t|]|];
    [by destruct rest|apply IH|by destruct (os.name_ok name)].
Qed.

(** The walk goes through directories. *)
Lemma walk_error_through m pre j rest :
  (∀ i, i `prefix_of` j → i ≠ [] → os.stat_key m (pre ++ i) = Some Dir) →
  os.walk_error m pre (j ++ rest) = os.walk_error m (pre ++ j) rest.
Proof.
  revert pre. induction j as [|name j IH]; intros pre Hdirs.
  { by rewrite app_nil_r. }
  cbn [app os.walk_error].
  rewrite (Hdirs [name]); [|by apply prefix_cons, prefix_nil|done].
  rewrite IH; [by rewrite <- app_assoc|].
  intros i Hi Hne. rewrite <- app_assoc. apply Hdirs; [|done].
  by apply prefix_cons.
Qed.

Lemma lookup_error_at m j name rest :
  (∀ i, i `prefix_of` j → os.stat_key m i = Some Dir) →
  (∀ c t, os.stat_key m (j ++ [name]) = Some (File c t) → rest ≠ [] →
          os.lookup_error m (j ++ name :: rest) = NotADirectoryError)
  ∧ (os.stat_key m (j ++ [name]) = None →
     os.lookup_error m (j ++ name :: rest)
     = if os.name_ok name then FileNotFoundError else OSError).
Proof.
  intros Hdirs. unfold os.lookup_error.
  rewrite walk_error_through by (intros i Hi _; by apply Hdirs).
  cbn [app os.walk_error]. split.
  - intros c t -> Hrest. by destruct rest.
  - by intros ->.
Qed.

Lemma is_OSError_lookup_error m k : is_OSError (os.lookup_error m k) = true.
Proof. apply is_OSError_walk_error. Qed.

Lemma is_OSError_missing st p : is_OSError (os.missing st p) = true.
Proof.
  unfold os.missing. destruct (os.resolve (cwd st) p); [|done].
  apply is_OSError_lookup_error.
Qed.

(** ** Strings and paths *)

Lemma app_cons c (a b : string) : String c a +:+ b = String c (a +:+ b).
Proof. reflexivity. Qed.

Lemma app_empty_l (b : string) : "" +:+ b = b.
Proof. reflexivity. Qed.

Lemma app_assoc_s (a b c : string) : (a +:+ b) +:+ c = a +:+ b +:+ c.
Proof. induction a as [|x a IH]; [done|]. rewrite !app_cons. by f_equal. Qed.

Lemma app_length_s (a b : string) :
  String.length (a +:+ b) = String.length a + String.length b.
Proof. induction a as [|x a IH]; [done|]. rewrite app_cons. simpl. lia. Qed.

Lemma is_sep_true c : is_sep c = true → c = "/"%char.
Proof. unfold is_sep. by intros ?%Ascii.eqb_eq. Qed.

Lemma split_sep_cons s : ∃ x xs, split_sep s = x :: xs.
Proof.
  induction s as [|c s (x & xs & IH)]; simpl; [eauto|].
  destruct (is_sep c); [eauto|]. rewrite IH. eauto.
Qed.

Lemma split_sep_app_sep a b :
  split_sep (a +:+ String "/" b) = split_sep a ++ split_sep b.
Proof.
  induction a as [|c a IH]; [done|].
  rewrite app_cons. simpl. rewrite IH.
  destruct (is_sep c); [done|].
  by destruct (split_sep_cons a) as (x & xs & ->).
Qed.

Lemma split_sep_nosep b : has_sep b = false → split_sep b = [b].
Proof.
  induction b as [|c b IH]; [done|]. simpl.
  intros [-> Hb]%orb_false_elim. by rewrite IH.
Qed.

Lemma rsplit_sep_nosep s : has_sep s = false → rsplit_sep s = ("", s).
Proof.
  induction s as [|c s IH]; [done|]. simpl.
  intros [-> Hs]%orb_false_elim. by rewrite IH.
Qed.

Lemma rsplit_sep_app a b :
  has_sep b = false → rsplit_sep (a +:+ String "/" b) = (a +:+ "/", b).
Proof.
  intros Hb. induction a as [|c a IH].
  - rewrite app_empty_l. simpl. by rewrite (rsplit_sep_nosep _ Hb).
  - rewrite !app_cons. simpl. rewrite IH.
    destruct (is_sep c); [done|]. by destruct a.
Qed.

Lemma has_sep_split s :
  has_sep s = true → ∃ a b, s = a +:+ String "/" b ∧ has_sep b = false.
Proof.
  induction s as [|c s IH]; [done|]. simpl.
  destruct (has_sep s) eqn:Hs.
  - intros _. destruct IH as (a & b & -> & Hb); [done|].
    exists (String c a), b. by rewrite app_cons.
  - rewrite orb_false_r. intros ->%is_sep_true. by exists "", s.
Qed.

Lemma has_sep_app a b : has_sep (a +:+ b) = has_sep a || has_sep b.
Proof.
  induction a as [|c a IH]; [done|]. rewrite app_cons. simpl.
  by rewrite IH, orb_assoc.
Qed.

Lemma isabs_cons c p : isabs (String c p) = is_sep c.
Proof.
  unfold isabs, startswith, is_sep.
  change (String.prefix "/" (String c p))
    with (if ascii_dec "/" c then String.prefix "" p else false).
  destruct (ascii_dec "/" c) as [<-|Hne]; [vm_compute; by destruct p|].
  symmetry. apply Ascii.eqb_neq. congruence.
Qed.

Lemma isabs_has_sep p : isabs p = true → has_sep p = true.
Proof.
  destruct p as [|c p]; [done|]. rewrite isabs_cons. simpl. by intros ->.
Qed.

Lemma nosep_not_abs n : has_sep n = false → startswith n "/" = false.
Proof.
  destruct n as [|c n]; [done|]. simpl. intros [Hc _]%orb_false_elim.
  change (isabs (String c n) = false). by rewrite isabs_cons.
Qed.

Lemma isabs_app a b : isabs a = true → isabs (a +:+ b) = true.
Proof. destruct a as [|c a]; [done|]. by rewrite app_cons, !isabs_cons. Qed.

Lemma rstrip_sep_snoc a : rstrip_sep (a +:+ "/") = rstrip_sep a.
Proof.
  induction a as [|c a IH]; [done|]. rewrite app_cons. simpl. by rewrite IH.
Qed.

Lemma rstrip_sep_empty s : rstrip_sep s = "" → all_sep s = true.
Proof.
  induction s as [|c s IH]; [done|]. simpl.
  destruct (rstrip_sep s); [|done].
  destruct (is_sep c); [|done]. intros _. by apply IH.
Qed.

Lemma rstrip_sep_ends s : ends_with_sep (rstrip_sep s) = false.
Proof.
  induction s as [|c s IH]; [done|]. simpl.
  destruct (rstrip_sep s) as [|c' r] eqn:Hr.
  - by destruct (is_sep c) eqn:Hc.
  - exact IH.
Qed.

Lemma rstrip_sep_abs s :
  isabs s = true → all_sep s = false → isabs (rstrip_sep s) = true.
Proof.
  destruct s as [|c s]; [done|]. rewrite isabs_cons. simpl. intros Hc.
  rewrite Hc. simpl.
  intros Hs. destruct (rstrip_sep s) eqn:Hr.
  - apply rstrip_sep_empty in Hr. congruence.
  - by rewrite isabs_cons.
Qed.

Lemma split_sep_rstrip s :
  ∃ k, split_sep s = split_sep (rstrip_sep s) ++ repeat "" k.
Proof.
  induction s as [|c s [k IH]]; [by exists 0|]. simpl.
  destruct (rstrip_sep s) as [|c' r] eqn:Hr.
  - simpl in IH. destruct (is_sep c) eqn:Hc; rewrite IH.
    + by exists (S k).
    + exists k. simpl. by rewrite Hc.
  - exists k. set (t := String c' r) in *.
    change (split_sep (String c t))
      with (if is_sep c then "" :: split_sep t
            else match split_sep t with
                 | x :: xs => String c x :: xs
                 | [] => [String c ""]
                 end).
    destruct (is_sep c); rewrite IH; [done|].
    by destruct (split_sep_cons t) as (x & xs & ->).
Qed.

Lemma all_sep_snoc a : all_sep (a +:+ "/") = all_sep a.
Proof.
  induction a as [|c a IH]; [done|]. rewrite app_cons. simpl. by rewrite IH.
Qed.

Lemma ends_with_sep_snoc a : ends_with_sep (a +:+ "/") = true.
Proof.
  induction a as [|c a IH]; [done|]. rewrite app_cons. simpl.
  destruct (a +:+ "/") eqn:E; [by destruct a|done].
Qed.

Lemma ends_with_sep_inv s : ends_with_sep s = true → ∃ a, s = a +:+ "/".
Proof.
  induction s as [|c s IH]; [done|]. simpl. destruct s as [|c' s].
  - intros ->%is_sep_true. by exists "".
  - intros H. destruct (IH H) as [a ->]. by exists (String c a).
Qed.

Lemma snoc_nonempty a (b : string) c : a +:+ String c b ≠ "".
Proof. by destruct a. Qed.

Lemma norm_comps_app r acc l1 l2 :
  norm_comps r acc (l1 ++ l2) = norm_comps r (rev (norm_comps r acc l1)) l2.
Proof.
  revert acc. induction l1 as [|c l1 IH]; intros acc; simpl.
  - by rewrite rev_involutive.
  - destruct (String.eqb c "" || String.eqb c "."); [done|].
    destruct (negb (String.eqb c "..")); [done|].
    destruct acc as [|top acc]; [by destruct r|].
    by destruct (String.eqb top "..").
Qed.

Lemma norm_comps_empties r acc k : norm_comps r acc (repeat "" k) = rev acc.
Proof. induction k as [|k IH]; [done|]. simpl. apply IH. Qed.

Lemma norm_comps_plain r acc n :
  plain n → norm_comps r acc [n] = rev acc ++ [n].
Proof.
  intros (H1 & H2 & H3 & _). simpl.
  apply String.eqb_neq in H1, H2, H3. by rewrite H1, H2, H3.
Qed.

(** The last component either extends the key, leaves it or drops its
    end; a plain name extends it. *)
Lemma norm_comps_last_ne P b n :
  plain n → n ≠ b → norm_comps true (rev P) [b] ≠ P ++ [n].
Proof.
  intros Hn Hne.
  assert (Hlen : ∀ l : list string, length l ≤ length P → l ≠ P ++ [n]).
  { intros l Hl E. apply (f_equal length) in E.
    rewrite length_app in E. simpl in E. lia. }
  assert (Hlast : ∀ l x, x ≠ n → l ++ [x] ≠ P ++ [n]).
  { intros l x Hx E. apply app_inj_tail in E as [_ E]. done. }
  simpl.
  destruct (String.eqb b "" || String.eqb b ".").
  { rewrite rev_involutive. by apply Hlen. }
  destruct (negb (String.eqb b "..")) eqn:Hb.
  { simpl. apply Hlast. congruence. }
  apply negb_false_iff, String.eqb_eq in Hb as ->.
  destruct (rev P) as [|top acc] eqn:HP.
  { simpl. apply Hlen. simpl. lia. }
  destruct (String.eqb top "..").
  { simpl. by apply Hlast. }
  apply Hlen. apply (f_equal length) in HP.
  rewrite length_rev in *. simpl in HP. lia.
Qed.

Lemma join_ends a n :
  startswith n "/" = false → ends_with_sep a = true → join a n = a +:+ n.
Proof. intros Hn Ha. unfold join. by rewrite Hn, Ha, orb_true_r. Qed.

Lemma join_plain a n :
  startswith n "/" = false → a ≠ "" → ends_with_sep a = false →
  join a n = a +:+ "/" +:+ n.
Proof.
  intros Hn Ha He. unfold join. rewrite Hn, He.
  apply String.eqb_neq in Ha. by rewrite Ha.
Qed.

Lemma isabs_join a b : isabs a = true → isabs (join a b) = true.
Proof.
  intros Ha. unfold join. destruct (startswith b "/") eqn:Hb; [done|].
  destruct (_ || _); by apply isabs_app.
Qed.

Lemma resolve_abs wd p :
  isabs p = true → os.resolve wd p = Some (norm_comps true [] (split_sep p)).
Proof. intros H. unfold os.resolve. rewrite H. by destruct p. Qed.

(** An absolute path, cut at its last separator: where its directory,
    the path itself and a sibling lead. *)
Lemma resolve_parts wd a b :
  isabs (a +:+ String "/" b) = true → has_sep b = false →
  let d := a +:+ String "/" b in
  let P := norm_comps true [] (split_sep a) in
  basename d = b
  ∧ isabs (dirname d) = true
  ∧ os.resolve wd (dirname d) = Some P
  ∧ os.resolve wd d = Some (norm_comps true (rev P) [b])
  ∧ ∀ n, plain n →
      basename (join (dirname d) n) = n
      ∧ os.resolve wd (join (dirname d) n) = Some (P ++ [n]).
Proof.
  intros Habs Hb d P.
  assert (Hrs : rsplit_sep d = (a +:+ "/", b)) by by apply rsplit_sep_app.
  assert (Hd : os.resolve wd d = Some (norm_comps true (rev P) [b])).
  { rewrite resolve_abs by done. unfold d.
    by rewrite split_sep_app_sep, (split_sep_nosep _ Hb), norm_comps_app. }
  assert (Ha : a = "" ∨ isabs a = true).
  { destruct a as [|c a]; [by left|right].
    unfold d in Habs. by rewrite app_cons, isabs_cons in *. }
  assert (Hda : isabs (a +:+ "/") = true).
  { destruct Ha as [->|Ha]; [done|by apply isabs_app]. }
  assert (Hsib : ∀ x n, plain n → isabs x = true →
            norm_comps true [] (split_sep x) = P →
            basename (x +:+ String "/" n) = n
            ∧ os.resolve wd (x +:+ String "/" n) = Some (P ++ [n])).
  { intros x n Hn Hx HP. pose proof Hn as (_ & _ & _ & Hns).
    unfold basename. rewrite rsplit_sep_app by done. split; [done|].
    rewrite resolve_abs by by apply isabs_app.
    rewrite split_sep_app_sep, (split_sep_nosep _ Hns), norm_comps_app.
    by rewrite norm_comps_plain, rev_involutive, HP. }
  assert (Hdir : dirname d = (if all_sep a then a +:+ "/" else rstrip_sep a)).
  { unfold dirname. rewrite Hrs. simpl fst.
    assert (String.eqb (a +:+ "/") "" = false) as ->.
    { apply String.eqb_neq, snoc_nonempty. }
    rewrite all_sep_snoc, rstrip_sep_snoc. by destruct (all_sep a). }
  split; [unfold basename; by rewrite Hrs|].
  rewrite Hdir. destruct (all_sep a) eqn:Hall.
  - split; [done|]. split; [|split; [done|]].
    + rewrite resolve_abs by done.
      change "/" with (String "/" "") at 1. rewrite split_sep_app_sep.
      rewrite norm_comps_app. simpl. by rewrite rev_involutive.
    + intros n Hn. pose proof Hn as (_ & _ & _ & Hns).
      rewrite join_ends by auto using nosep_not_abs, ends_with_sep_snoc.
      rewrite app_assoc_s. change ("/" +:+ n) with (String "/" n).
      destruct Ha as [->|Ha].
      * unfold basename. rewrite rsplit_sep_app by done. split; [done|].
        rewrite resolve_abs by (by rewrite app_empty_l, isabs_cons).
        rewrite split_sep_app_sep, (split_sep_nosep _ Hns), norm_comps_app.
        by rewrite norm_comps_plain, rev_involutive.
      * by apply Hsib.
  - destruct Ha as [->|Ha]; [done|].
    assert (Hr : isabs (rstrip_sep a) = true) by by apply rstrip_sep_abs.
    destruct (split_sep_rstrip a) as [k Hk].
    assert (HP : norm_comps true [] (split_sep (rstrip_sep a)) = P).
    { unfold P. rewrite Hk, norm_comps_app, norm_comps_empties.
      by rewrite rev_involutive. }
    split; [done|]. split; [by rewrite resolve_abs, HP|]. split; [done|].
    intros n Hn. pose proof Hn as (_ & _ & _ & Hns).
    rewrite join_plain; [|by apply nosep_not_abs| |by apply rstrip_sep_ends].
    2:{ intros E. by rewrite E in Hr. }
    change ("/" +:+ n) with (String "/" n). by apply Hsib.
Qed.

Lemma resolve_split wd d :
  isabs d = true →
  ∃ P,
    isabs (dirname d) = true
    ∧ os.resolve wd (dirname d) = Some P
    ∧ os.resolve wd d = Some (norm_comps true (rev P) [basename d])
    ∧ ∀ n, plain n →
        basename (join (dirname d) n) = n
        ∧ os.resolve wd (join (dirname d) n) = Some (P ++ [n]).
Proof.
  intros Habs.
  destruct (has_sep_split d (isabs_has_sep _ Habs)) as (a & b & -> & Hb).
  destruct (resolve_parts wd a b Habs Hb) as (Hbn & H1 & H2 & H3 & H4).
  rewrite Hbn. eauto 10.
Qed.

Lemma resolve_join_plain wd T n :
  isabs T = true → plain n →
  ∃ K,
    os.resolve wd T = Some K
    ∧ basename (join T n) = n
    ∧ isabs (join T n) = true
    ∧ os.resolve wd (join T n) = Some (K ++ [n])
    ∧ os.resolve wd (dirname (join T n)) = Some K.
Proof.
  intros Habs Hn. pose proof Hn as (_ & _ & _ & Hns).
  assert (Hj : ∃ a, join T n = a +:+ String "/" n
                 ∧ norm_comps true [] (split_sep a)
                   = norm_comps true [] (split_sep T)).
  { destruct (ends_with_sep T) eqn:He.
    - destruct (ends_with_sep_inv _ He) as [a ->]. exists a.
      rewrite join_ends by auto using nosep_not_abs.
      rewrite app_assoc_s. split; [done|].
      change "/" with (String "/" ""). rewrite split_sep_app_sep.
      rewrite norm_comps_app. simpl. by rewrite rev_involutive.
    - exists T. split; [|done].
      apply join_plain; [by apply nosep_not_abs| |done]. by intros ->. }
  destruct Hj as (a & Hj & Ha).
  assert (Habs' : isabs (a +:+ String "/" n) = true).
  { rewrite <- Hj. by apply isabs_join. }
  destruct (resolve_parts wd a n Habs' Hns) as (Hbn & H1 & H2 & H3 & H4).
  exists (norm_comps true [] (split_sep T)).
  split; [by apply resolve_abs|].
  rewrite Hj, <- Ha. split; [done|]. split; [done|]. split; [|done].
  rewrite H3. by rewrite norm_comps_plain, rev_involutive.
Qed.

(** ** Reading and hashing *)

Lemma chunk_size_pos : utils.chunk_size ≠ 0.
Proof. done. Qed.

Lemma take_nil_inv {A} n (l : list A) : n ≠ 0 → take n l = [] → l = [].
Proof. destruct n, l; done. Qed.

Lemma read_loop_feeds fuel buf rest hasher :
  length buf + length rest < fuel →
  (buf = [] → rest = []) →
  utils.read_loop fuel buf rest hasher = hasher ++ buf ++ rest.
Proof.
  revert buf rest hasher.
  induction fuel as [|n IH]; intros buf rest hasher Hlen Hend; [lia|].
  destruct buf as [|x buf].
  { rewrite Hend by done. simpl. by rewrite app_nil_r. }
  cbn [utils.read_loop]. rewrite IH.
  - unfold hashlib.update. by rewrite take_drop, <- app_assoc.
  - rewrite length_take, length_drop. simpl in Hlen. lia.
  - intros Ht. apply take_nil_inv in Ht as ->; [by rewrite drop_nil|].
    apply chunk_size_pos.
Qed.

Lemma read_loop_all c :
  utils.read_loop (S (length c)) (take utils.chunk_size c)
    (drop utils.chunk_size c) hashlib.md5 = c.
Proof.
  rewrite read_loop_feeds.
  - unfold hashlib.md5. rewrite app_nil_l. apply take_drop.
  - rewrite length_take, length_drop. lia.
  - intros Ht. apply take_nil_inv in Ht as ->; [by rewrite drop_nil|].
    apply chunk_size_pos.
Qed.

Lemma calculate_file_hash_file st p c t :
  os.stat st p = Some (File c t) →
  utils.calculate_file_hash p st = (Ok (hashlib.md5_hexdigest c), st).
Proof.
  intros H. unfold utils.calculate_file_hash, bind, os.open_rb, ret.
  rewrite H, read_loop_all. reflexivity.
Qed.

Lemma calculate_file_hash_other st p :
  (∀ c t, os.stat st p ≠ Some (File c t)) →
  ∃ e, is_OSError e = true ∧ utils.calculate_file_hash p st = (Raise e, st).
Proof.
  intros H. unfold utils.calculate_file_hash, bind, os.open_rb.
  destruct (os.stat st p) as [[c t|]|];
    [by destruct (H c t)|by exists IsADirectoryError|].
  exists (os.missing st p). split; [apply is_OSError_missing|done].
Qed.

Lemma files_are_identical_run st f1 f2 :
  files_are_identical f1 f2 st = (Ok (identical st f1 f2), st).
Proof.
  unfold files_are_identical, try_except, bind, identical.
  destruct (os.stat st f1) as [[c1 t1|]|] eqn:H1.
  - rewrite (calculate_file_hash_file _ _ _ _ H1).
    destruct (os.stat st f2) as [[c2 t2|]|] eqn:H2.
    + by rewrite (calculate_file_hash_file _ _ _ _ H2).
    + destruct (calculate_file_hash_other st f2) as (e & He & ->);
        [by rewrite H2|]. by rewrite He.
    + destruct (calculate_file_hash_other st f2) as (e & He & ->);
        [by rewrite H2|]. by rewrite He.
  - destruct (calculate_file_hash_other st f1) as (e & He & ->);
      [by rewrite H1|]. by rewrite He.
  - destruct (calculate_file_hash_other st f1) as (e & He & ->);
      [by rewrite H1|]. by rewrite He.
Qed.

Lemma log_sync_action_run action src dst details st :
  ∃ msg, utils.log_sync_action action src dst details st
         = (Ok tt, add_log (LogInfo msg) st).
Proof.
  unfold utils.log_sync_action, bind, os.path_abspath, utils.logging_info,
    modify, ret.
  destruct (utils.truthy_str dst); eauto.
Qed.

(** ** The reentrancy guard *)

(** C9. Whatever [sync_file] and [handle_delete] end with, a return or
    an exception that escapes, the state they leave has [is_syncing]
    False. *)
Theorem is_syncing_false_on_exit h now src_path st :
  is_syncing (snd (sync_file h now src_path st)) = false
  ∧ is_syncing (snd (handle_delete h now src_path st)) = false.
Proof. split; apply try_finally_flag. Qed.

(** ** The layers of the conflict policy *)

Lemma dict_update_dict settings d st :
  dict_update settings (VDict d) st = (Ok (d ∪ settings), st).
Proof. reflexivity. Qed.

Lemma layer_get cfg d :
  layer cfg d → py.get cfg "conflict_resolution" (VDict ∅) = VDict d.
Proof.
  unfold py.get. intros [H | [H ->]]; by rewrite H.
Qed.

(** C6. The conflict settings of a handler are the hardcoded defaults,
    updated with the global [conflict_resolution] settings, updated with
    those of the pair: each field has the value of the last layer that
    sets it, and a field no layer sets has its default, which is trash
    for deleted files, keep_both for modified files, [.trash] for the
    trash directory and original name, timestamp, extension for the
    duplicate format. *)
Theorem conflict_policy_is_layered source destination exclude settings
    sync_pair dry (g p : gmap string pyval) st :
  layer settings g →
  layer sync_pair p →
  ∃ h st',
    init source destination exclude
      (Some (main.sync_pair_settings settings sync_pair)) dry st = (Ok h, st')
    ∧ (∀ key : string,
         conflict_settings h !! key =
           match p !! key with
           | Some v => Some v
           | None =>
               match g !! key with
               | Some v => Some v
               | None => default_conflict_settings !! key
               end
           end)
    ∧ default_conflict_settings !! "deleted_files" = Some (VStr "trash")
    ∧ default_conflict_settings !! "modified_files" = Some (VStr "keep_both")
    ∧ default_conflict_settings !! "trash_dir" = Some (VStr ".trash")
    ∧ default_conflict_settings !! "duplicate_format"
        = Some (VStr "{original_name}_{timestamp}{ext}").
Proof.
  intros Hg Hp.
  assert (Hcr : py.get (main.sync_pair_settings settings sync_pair)
                  "conflict_resolution" (VDict ∅) = VDict g).
  { unfold py.get, main.sync_pair_settings.
    rewrite lookup_insert_ne by done. by apply layer_get. }
  assert (Hsp : py.get (main.sync_pair_settings settings sync_pair)
                  "sync_pair_config" (VDict ∅) = VDict sync_pair).
  { unfold py.get, main.sync_pair_settings. by rewrite lookup_insert_eq. }
  eexists _, _. split.
  - unfold init, bind, os.path_abspath, modify, ret. cbn beta iota.
    rewrite Hcr, Hsp. cbn beta iota. rewrite (layer_get _ _ Hp). reflexivity.
  - split.
    + intros key. cbn. rewrite !lookup_union.
      destruct (p !! key), (g !! key), (default_conflict_settings !! key); reflexivity.
    + repeat split; reflexivity.
Qed.

(** ** Hidden files *)

Lemma should_exclude_run h path st rel :
  relpath (cwd st) path (source_dir h) = Some rel →
  should_exclude h path st = (Ok (excluded h rel), st).
Proof.
  intros H. unfold should_exclude, bind, os.path_relpath, excluded. rewrite H.
  by destruct (py.truthy _ && existsb hidden (parts rel)).
Qed.

Lemma should_exclude_raise h path st :
  relpath (cwd st) path (source_dir h) = None →
  should_exclude h path st = (Raise ValueError, st).
Proof.
  intros H. unfold should_exclude, bind, os.path_relpath. by rewrite H.
Qed.

Lemma walk_dirs_kept fuel keep st top root dirs fs :
  (root, dirs, fs) ∈ main.walk_fuel fuel keep st top →
  ∃ l, dirs = keep l.
Proof.
  revert top. induction fuel as [|n IH]; intros top; simpl.
  - by intros ?%elem_of_nil.
  - destruct (os.listdir top st) as [[names|e] st']; [|by intros ?%elem_of_nil].
    intros [H | H]%elem_of_cons.
    + injection H as -> -> ->. eauto.
    + apply list_elem_of_In, in_flat_map in H as (d & _ & H).
      apply list_elem_of_In in H. eauto.
Qed.

Lemma prune_default cfg dirs d :
  cfg !! "skip_hidden" = None → d ∈ main.prune cfg dirs → hidden d = false.
Proof.
  intros H. unfold main.prune, py.get. rewrite H. simpl.
  by intros [? _]%list_elem_of_filter.
Qed.

Lemma plainb_plain n : plainb n = true → plain n.
Proof.
  unfold plainb, plain.
  intros [[[H1 H2]%andb_prop H3]%andb_prop H4]%andb_prop.
  apply negb_true_iff in H1, H2, H3, H4.
  apply String.eqb_neq in H1, H2, H3. done.
Qed.

Lemma plain_names_check m :
  forallb (λ kv, forallb plainb kv.1) (map_to_list m) = true → plain_names m.
Proof.
  intros H k x Hk. rewrite forallb_forall in H.
  apply elem_of_map_to_list, list_elem_of_In in Hk. specialize (H _ Hk).
  cbn [fst] in H. rewrite forallb_forall in H.
  apply Forall_forall. intros n Hn. apply plainb_plain, H, list_elem_of_In, Hn.
Qed.

Lemma ends_with_sep_app a b : b ≠ "" → ends_with_sep (a +:+ b) = ends_with_sep b.
Proof.
  intros Hb. induction a as [|c a IH]; [done|]. rewrite app_cons.
  cbn [ends_with_sep]. destruct (a +:+ b) eqn:E; [|done].
  destruct a; [|done]. by destruct b.
Qed.

Lemma startswith_app a b : a ≠ "" → startswith (a +:+ b) "/" = startswith a "/".
Proof.
  intros Ha. destruct a as [|c a]; [done|].
  change (isabs (String c a +:+ b) = isabs (String c a)).
  by rewrite app_cons, !isabs_cons.
Qed.

Lemma join_assoc wd top n :
  wd ≠ "" → top ≠ "" → isabs top = false → plain n →
  join wd (join top n) = join (join wd top) n.
Proof.
  intros Hwd Htop Hrel (Hn & _ & _ & Hns).
  pose proof (nosep_not_abs _ Hns) as Hna.
  assert (Htn : startswith (join top n) "/" = false).
  { unfold join. rewrite Hna. unfold isabs in Hrel.
    destruct (_ || _); rewrite startswith_app; done. }
  assert (Hwt : ∃ w, w ≠ "" ∧ ∀ x, startswith x "/" = false → join wd x = w +:+ x).
  { destruct (ends_with_sep wd) eqn:He.
    - exists wd. split; [done|]. intros x Hx. by apply join_ends.
    - exists (wd +:+ "/"). split; [by destruct wd|]. intros x Hx.
      rewrite join_plain by done. by rewrite app_assoc_s. }
  destruct Hwt as (w & Hw & Hj). rewrite !Hj by done.
  unfold join. rewrite Hna.
  assert (String.eqb top "" = false) as -> by by apply String.eqb_neq.
  assert (String.eqb (w +:+ top) "" = false) as ->.
  { apply String.eqb_neq. by destruct w. }
  rewrite ends_with_sep_app by done. cbn [orb].
  destruct (ends_with_sep top); by rewrite ?app_assoc_s.
Qed.

Lemma resolve_join_name wd top K n :
  isabs wd = true → os.resolve wd top = Some K → plain n →
  os.resolve wd (join top n) = Some (K ++ [n]).
Proof.
  intros Hwd HK Hn.
  destruct (isabs top) eqn:Habs.
  { destruct (resolve_join_plain wd top n Habs Hn) as (K' & HK' & _ & _ & H & _).
    congruence. }
  assert (Htop : top ≠ "") by (intros ->; done).
  assert (Hwt : isabs (join wd top) = true) by by apply isabs_join.
  destruct (resolve_join_plain wd (join wd top) n Hwt Hn)
    as (K' & HK' & _ & Habs' & H & _).
  rewrite resolve_abs in HK', H by done.
  assert (K' = K) as ->.
  { unfold os.resolve in HK. rewrite Habs in HK. destruct top; [done|].
    congruence. }
  pose proof Hn as (_ & _ & _ & Hns).
  assert (Hrel : isabs (join top n) = false).
  { unfold isabs, join. rewrite (nosep_not_abs _ Hns). unfold isabs in Habs.
    destruct (_ || _); rewrite startswith_app; done. }
  unfold os.resolve. rewrite Hrel.
  rewrite join_assoc; [|by intros ->|done..].
  destruct (join top n) eqn:E; [|done].
  unfold join in E. rewrite (nosep_not_abs _ Hns) in E.
  destruct (_ || _); by destruct top.
Qed.

Lemma entries_lookup m k d : d ∈ os.entries m k → ∃ v, m !! (k ++ [d]) = Some v.
Proof.
  unfold os.entries. intros ([k' v] & Hin & Hc)%list_elem_of_omap.
  apply elem_of_map_to_list in Hin. unfold os.child_name in Hc. cbn [fst] in Hc.
  destruct (decide _) as [Ht|]; [|done].
  destruct (drop (length k) k') as [|x [|y l]] eqn:Hd; [done| |done].
  injection Hc as ->. exists v.
  by rewrite <- Ht, <- Hd, take_drop.
Qed.

Lemma entries_plain m k d : plain_names m → d ∈ os.entries m k → plain d.
Proof.
  intros Hm [v Hv]%entries_lookup. apply Hm in Hv.
  apply Forall_app in Hv as [_ Hv]. by inversion Hv.
Qed.

Lemma prune_iff cfg dirs d :
  cfg !! "skip_hidden" = None →
  d ∈ main.prune cfg dirs ↔ d ∈ dirs ∧ hidden d = false.
Proof.
  intros H. unfold main.prune, py.get. rewrite H. simpl.
  rewrite list_elem_of_filter. tauto.
Qed.

Lemma listdir_entries top st names st' :
  os.listdir top st = (Ok names, st') →
  ∃ k, os.resolve (cwd st) top = Some k ∧ names = os.entries (files st) k.
Proof.
  unfold os.listdir. destruct (os.resolve (cwd st) top) as [k|]; [|done].
  destruct (os.stat_key (files st) k) as [[c t|]|]; [done| |done].
  intros [= <- _]. eauto.
Qed.

(** Where the walk goes when hidden directories are pruned. *)
Lemma walk_parent fuel cfg st top root dirs fs :
  cfg !! "skip_hidden" = None →
  (root, dirs, fs) ∈ main.walk_fuel fuel (main.prune cfg) st top →
  root = top
  ∨ ∃ r dirs' fs' d,
      (r, dirs', fs') ∈ main.walk_fuel fuel (main.prune cfg) st top
      ∧ d ∈ dirs' ∧ hidden d = false ∧ root = join r d.
Proof.
  intros Hc. revert top. induction fuel as [|n IH]; intros top; cbn [main.walk_fuel].
  - by intros ?%elem_of_nil.
  - destruct (os.listdir top st) as [[names|e] st']; [|by intros ?%elem_of_nil].
    set (ds := main.prune cfg _). set (nd := filter _ names).
    intros [H | H]%elem_of_cons.
    + injection H as -> -> ->. by left.
    + apply list_elem_of_In, in_flat_map in H as (d & Hd & H).
      apply list_elem_of_In in H. pose proof Hd as Hd'. apply list_elem_of_In in Hd'.
      right. destruct (IH _ H) as [-> | (r & dirs' & fs' & d' & Hin & ?)].
      * exists top, ds, nd, d. split; [by left|]. split; [done|]. split; [|done].
        by apply (prune_iff cfg _ d Hc) in Hd' as [_ ?].
      * exists r, dirs', fs', d'. split; [|done]. right.
        apply list_elem_of_In, in_flat_map. exists d. split; [done|].
        by apply list_elem_of_In.
Qed.

Lemma walk_below fuel cfg st top kt root dirs fs :
  cfg !! "skip_hidden" = None →
  isabs (cwd st) = true → plain_names (files st) →
  os.resolve (cwd st) top = Some kt →
  (root, dirs, fs) ∈ main.walk_fuel fuel (main.prune cfg) st top →
  ∃ ds, os.resolve (cwd st) root = Some (kt ++ ds)
    ∧ Forall (λ d, hidden d = false) ds
    ∧ ∀ f, f ∈ fs → plain f.
Proof.
  intros Hc Hwd Hm. revert top kt.
  induction fuel as [|n IH]; intros top kt Hkt; cbn [main.walk_fuel].
  - by intros ?%elem_of_nil.
  - destruct (os.listdir top st) as [[names|e] st'] eqn:Hl;
      [|by intros ?%elem_of_nil].
    destruct (listdir_entries _ _ _ _ Hl) as (k & Hk & ->).
    rewrite Hkt in Hk. injection Hk as <-.
    intros [H | H]%elem_of_cons.
    + injection H as -> -> ->. exists []. rewrite app_nil_r.
      split; [done|]. split; [done|].
      intros f [_ Hf]%list_elem_of_filter. by eapply entries_plain.
    + apply list_elem_of_In, in_flat_map in H as (d & Hd & H).
      apply list_elem_of_In in H. apply list_elem_of_In in Hd.
      apply (prune_iff cfg _ d Hc) in Hd as [[_ Hd]%list_elem_of_filter Hhid].
      assert (Hpl : plain d) by by eapply entries_plain.
      destruct (IH (join top d) (kt ++ [d])) with (1 := resolve_join_name _ _ _ _ Hwd Hkt Hpl) (2 := H)
        as (ds & Hr & Hds & Hfs).
      exists (d :: ds). rewrite <- app_assoc in Hr. split; [done|].
      split; [by constructor|done].
Qed.

Lemma walked_files_below fuel cfg st top kt f :
  cfg !! "skip_hidden" = None →
  isabs (cwd st) = true → plain_names (files st) →
  os.resolve (cwd st) top = Some kt →
  f ∈ main.walked_files (main.walk_fuel fuel (main.prune cfg) st top) →
  ∃ ds name, os.resolve (cwd st) f = Some (kt ++ ds ++ [name])
    ∧ Forall (λ d, hidden d = false) ds.
Proof.
  intros Hc Hwd Hm Hkt. unfold main.walked_files.
  intros ([[root dirs] fs] & Hw & Hf)%list_elem_of_In%in_flat_map.
  apply in_map_iff in Hf as (name & <- & Hname).
  apply list_elem_of_In in Hw, Hname.
  destruct (walk_below _ _ _ _ _ _ _ _ Hc Hwd Hm Hkt Hw) as (ds & Hr & Hds & Hfs).
  exists ds, name. split; [|done]. rewrite app_assoc.
  apply resolve_join_name; auto.
Qed.

(** C10. When the configuration has no [skip_hidden], [should_exclude]
    returns True for every path whose path relative to the source root
    has a part that starts with a dot, and the walk of the source in
    the initial sync keeps in [dirs] the names that do not start with a
    dot and no other, so that it enters no hidden directory: every
    directory it comes to, other than the top, is a kept name of a
    directory it came to before, and, in a tree whose entries have
    proper names and a process whose working directory is absolute,
    every directory and every file it comes to lies below the top
    through names none of which starts with a dot. A configuration
    that sets [skip_hidden] to false turns both off. *)
Theorem skip_hidden_is_the_default h cfg :
  config h !! "skip_hidden" = None →
  cfg !! "skip_hidden" = None →
  (∀ path st rel,
     relpath (cwd st) path (source_dir h) = Some rel →
     existsb hidden (parts rel) = true →
     should_exclude h path st = (Ok true, st))
  ∧ (∀ dirs d, d ∈ main.prune cfg dirs ↔ d ∈ dirs ∧ hidden d = false)
  ∧ (∀ fuel st top root dirs fs,
       (root, dirs, fs) ∈ main.walk_fuel fuel (main.prune cfg) st top →
       (∀ d, d ∈ dirs → hidden d = false)
       ∧ (root = top
          ∨ ∃ r dirs' fs' d,
              (r, dirs', fs') ∈ main.walk_fuel fuel (main.prune cfg) st top
              ∧ d ∈ dirs' ∧ hidden d = false ∧ root = join r d))
  ∧ (∀ fuel st top kt,
       isabs (cwd st) = true →
       plain_names (files st) →
       os.resolve (cwd st) top = Some kt →
       (∀ root dirs fs,
          (root, dirs, fs) ∈ main.walk_fuel fuel (main.prune cfg) st top →
          ∃ ds, os.resolve (cwd st) root = Some (kt ++ ds)
            ∧ Forall (λ d, hidden d = false) ds)
       ∧ (∀ f,
            f ∈ main.walked_files (main.walk_fuel fuel (main.prune cfg) st top) →
            ∃ ds name, os.resolve (cwd st) f = Some (kt ++ ds ++ [name])
              ∧ Forall (λ d, hidden d = false) ds))
  ∧ (∀ h' path st rel,
       config h' !! "skip_hidden" = Some (VBool false) →
       relpath (cwd st) path (source_dir h') = Some rel →
       should_exclude h' path st
       = (Ok (existsb (fnmatch.fnmatch rel) (exclude_patterns h')), st))
  ∧ (∀ cfg' dirs,
       cfg' !! "skip_hidden" = Some (VBool false) → main.prune cfg' dirs = dirs).
Proof.
  intros Hh Hc. split; [|split; [|split; [|split; [|split]]]].
  - intros path st rel Hrel Hhid.
    rewrite (should_exclude_run _ _ _ _ Hrel). unfold excluded, py.get.
    by rewrite Hh, Hhid.
  - intros dirs d. by apply prune_iff.
  - intros fuel st top root dirs fs Hin. split.
    + destruct (walk_dirs_kept _ _ _ _ _ _ _ Hin) as [l ->].
      intros d. by apply prune_default.
    + by eapply walk_parent.
  - intros fuel st top kt Hwd Hm Hkt. split.
    + intros root dirs fs Hin.
      destruct (walk_below _ _ _ _ _ _ _ _ Hc Hwd Hm Hkt Hin) as (ds & ? & ? & _).
      by exists ds.
    + intros f. by apply walked_files_below.
  - intros h' path st rel Hf Hrel.
    rewrite (should_exclude_run _ _ _ _ Hrel). unfold excluded, py.get.
    by rewrite Hf.
  - intros cfg' dirs Hf. unfold main.prune, py.get. by rewrite Hf.
Qed.


(** ** The tree under the operations of os and shutil *)

Lemma stat_inv st p x :
  os.stat st p = Some x →
  ∃ k, os.resolve (cwd st) p = Some k ∧ os.stat_key (files st) k = Some x.
Proof. unfold os.stat. destruct (os.resolve _ _); [eauto|done]. Qed.

Lemma stat_resolved st p k :
  os.resolve (cwd st) p = Some k → os.stat st p = os.stat_key (files st) k.
Proof. intros H. unfold os.stat. by rewrite H. Qed.

Lemma stat_key_file m k c t :
  os.stat_key m k = Some (File c t) → k ≠ [] ∧ m !! k = Some (File c t).
Proof. by destruct k. Qed.

Lemma stat_key_snoc m k x : os.stat_key m (k ++ [x]) = m !! (k ++ [x]).
Proof. by destruct k. Qed.

Lemma parent_snoc k (x : string) : os.parent (k ++ [x]) = k.
Proof. unfold os.parent. apply removelast_last. Qed.

Lemma stat_key_insert m k v j :
  k ≠ [] → os.stat_key (<[k := v]> m) j
           = if decide (k = j) then Some v else os.stat_key m j.
Proof.
  intros Hk. destruct j as [|x j]; simpl.
  - by rewrite decide_False.
  - apply lookup_insert.
Qed.

Lemma stat_key_delete m k j :
  k ≠ [] → os.stat_key (delete k m) j
           = if decide (k = j) then None else os.stat_key m j.
Proof.
  intros Hk. destruct j as [|x j]; simpl.
  - by rewrite decide_False.
  - apply lookup_delete.
Qed.

Lemma grown_refl m k : grown m m k.
Proof. intros j. by left. Qed.

Lemma grown_insert m k :
  m !! k = None → grown m (<[k := Dir]> m) k.
Proof.
  intros H j. destruct (decide (k = j)) as [<-|Hne].
  - right. by rewrite lookup_insert_eq.
  - left. by rewrite lookup_insert_ne.
Qed.

Lemma grown_trans m1 m2 m3 k1 k2 :
  k1 `prefix_of` k2 → grown m1 m2 k1 → grown m2 m3 k2 → grown m1 m3 k2.
Proof.
  intros Hp H12 H23 j.
  destruct (H12 j) as [E1|(E1 & E2 & E3)], (H23 j) as [F1|(F1 & F2 & F3)].
  - left. congruence.
  - right. rewrite <- E1. done.
  - right. rewrite F1. repeat split; try done. by etrans.
  - congruence.
Qed.

Lemma grown_stat m m' k j x :
  grown m m' k → os.stat_key m j = Some x → os.stat_key m' j = Some x.
Proof.
  intros Hg. destruct j as [|y j]; [done|]. simpl.
  destruct (Hg (y :: j)) as [->|(E & _)]; [done|congruence].
Qed.

Lemma grown_stat_off m m' k j :
  grown m m' k → ¬ j `prefix_of` k → os.stat_key m' j = os.stat_key m j.
Proof.
  intros Hg Hj. destruct j as [|y j]; [done|]. simpl.
  by destruct (Hg (y :: j)) as [->|(_ & _ & ?)].
Qed.

Lemma snoc_not_prefix (k : list string) x : ¬ (k ++ [x]) `prefix_of` k.
Proof.
  intros H%prefix_length. rewrite length_app in H. simpl in H. lia.
Qed.

Lemma no_file_on_path_prefix m k k' :
  k' `prefix_of` k → no_file_on_path m k → no_file_on_path m k'.
Proof. intros Hp H j c t Hj. apply H. by etrans. Qed.

Lemma grown_no_file m m' k j c t :
  grown m m' k → os.stat_key m' j = Some (File c t) →
  os.stat_key m j = Some (File c t).
Proof.
  intros Hg. destruct j as [|y j]; [done|]. simpl.
  destruct (Hg (y :: j)) as [->|(_ & -> & _)]; done.
Qed.

(** What [makedirs] leaves: the other fields as they were, and the
    tree grown on the way to the directory, which is there when the
    call returns; it returns when no regular file is in the way and
    no name is too long. *)
Lemma makedirs_rev_spec rk st :
  ∃ r m' o,
    os.makedirs_rev rk st
    = (r, State m' (cwd st) (is_syncing st) (log st) (ops st ++ o))
    ∧ grown (files st) m' (rev rk)
    ∧ (r = Ok tt → os.stat_key m' (rev rk) = Some Dir)
    ∧ (no_file_on_path (files st) (rev rk) →
       forallb os.name_ok (rev rk) = true → r = Ok tt).
Proof.
  revert st. induction rk as [|name rhead IH]; intros st.
  { exists (Ok tt), (files st), []. rewrite app_nil_r.
    split; [by destruct st|]. split; [apply grown_refl|done]. }
  cbn [os.makedirs_rev]. set (k := rev (name :: rhead)).
  assert (Hpre : rev rhead `prefix_of` k).
  { unfold k. simpl. by apply prefix_app_r. }
  assert (Hk : k ≠ []).
  { unfold k. simpl. by destruct (rev rhead). }
  assert (Hpar : os.parent k = rev rhead).
  { unfold k. simpl. apply parent_snoc. }
  assert (Hlast : List.last k "" = name).
  { unfold k. simpl. apply last_last. }
  assert (Hshort : forallb os.name_ok k = true →
                   forallb os.name_ok (rev rhead) = true
                   ∧ os.name_ok name = true).
  { unfold k. simpl. rewrite forallb_app. cbn [forallb].
    rewrite andb_true_r. apply andb_prop. }
  (* the head *)
  assert (Hhead : ∃ r1 m1 o1,
    (if match os.stat_key (files st) (rev rhead) with
        | Some _ => true
        | None => false
        end
     then ret tt
     else try_except (os.makedirs_rev rhead)
            (λ e, match e with FileExistsError => true | _ => false end)
            (λ _, ret tt)) st
    = (r1, State m1 (cwd st) (is_syncing st) (log st) (ops st ++ o1))
    ∧ grown (files st) m1 (rev rhead)
    ∧ (no_file_on_path (files st) k → forallb os.name_ok k = true →
       r1 = Ok tt ∧ os.stat_key m1 (rev rhead) = Some Dir)).
  { destruct (os.stat_key (files st) (rev rhead)) as [x|] eqn:Hx.
    - exists (Ok tt), (files st), []. rewrite app_nil_r.
      split; [by destruct st|]. split; [apply grown_refl|].
      intros Hnf _. split; [done|]. destruct x as [c t|]; [|done].
      by destruct (Hnf (rev rhead) c t).
    - destruct (IH st) as (r1 & m1 & o1 & E & Hg & Hok & Hnf).
      unfold try_except. rewrite E.
      assert (Hgoal : no_file_on_path (files st) k →
                      forallb os.name_ok k = true →
                      r1 = Ok tt ∧ os.stat_key m1 (rev rhead) = Some Dir).
      { intros H Hs. assert (r1 = Ok tt) as ->; [|by auto].
        apply Hnf; [by eapply no_file_on_path_prefix|by apply Hshort]. }
      destruct r1 as [[]|e]; [by eauto 8|].
      destruct e; eexists _, m1, o1; (split; [reflexivity|]);
        (split; [done|]); intros H Hs; by destruct (Hgoal H Hs). }
  destruct Hhead as (r1 & m1 & o1 & E1 & Hg1 & Hnf1).
  unfold bind at 1. unfold os.exists_key at 1. unfold bind at 1. rewrite E1.
  destruct r1 as [[]|e1].
  2:{ exists (Raise e1), m1, o1. split; [done|]. split.
      - eapply grown_trans; [done|done|apply grown_refl].
      - split; [done|]. intros H Hs. by destruct (Hnf1 H Hs). }
  unfold try_except, os.mkdir_key. cbn [files cwd is_syncing log ops].
  assert (Hg : grown (files st) m1 k).
  { eapply grown_trans; [done|done|apply grown_refl]. }
  destruct (os.stat_key m1 k) as [x|] eqn:Hx.
  - (* already there *)
    cbn [is_OSError]. unfold bind, os.isdir_key. cbn [files].
    rewrite Hx. destruct x as [c t|].
    + exists (Raise FileExistsError), m1, o1. split; [done|]. split; [done|].
      split; [done|]. intros H _.
      by destruct (H k c t); [|eapply grown_no_file].
    + by exists (Ok tt), m1, o1.
  - rewrite Hpar. destruct (os.stat_key m1 (rev rhead)) as [[c t|]|] eqn:Hp.
    + cbn [is_OSError]. unfold bind, os.isdir_key. cbn [files]. rewrite Hx.
      exists (Raise NotADirectoryError), m1, o1. split; [done|].
      split; [done|]. split; [done|]. intros H _.
      by destruct (H (rev rhead) c t); [|eapply grown_no_file].
    + rewrite Hlast. destruct (os.name_ok name) eqn:Hname.
      * exists (Ok tt), (<[k := Dir]> m1), (o1 ++ [OpMkdir k]).
        split; [unfold add_op, set_files; cbn; by rewrite app_assoc|].
        split; [|split; [|done]].
        -- eapply grown_trans; [done|done|]. apply grown_insert.
           destruct k; [done|exact Hx].
        -- intros _. rewrite stat_key_insert by done. by rewrite decide_True.
      * cbn [is_OSError]. unfold bind, os.isdir_key. cbn [files]. rewrite Hx.
        exists (Raise OSError), m1, o1. split; [done|].
        split; [done|]. split; [done|]. intros _ Hs.
        destruct (Hshort Hs) as [_ ?]. congruence.
    + rewrite is_OSError_lookup_error.
      unfold bind, os.isdir_key. cbn [files]. rewrite Hx.
      eexists (Raise _), m1, o1. split; [done|].
      split; [done|]. split; [done|]. intros H Hs.
      destruct (Hnf1 H Hs) as [_ ?]. congruence.
Qed.

Lemma makedirs_spec p st r st' :
  os.makedirs p st = (r, st') →
  cwd st' = cwd st ∧ is_syncing st' = is_syncing st ∧ log st' = log st
  ∧ ∃ o, ops st' = ops st ++ o
  ∧ match os.resolve (cwd st) p with
    | Some k => grown (files st) (files st') k
                ∧ (r = Ok tt → os.stat_key (files st') k = Some Dir)
    | None => r = Raise FileNotFoundError ∧ files st' = files st
    end.
Proof.
  unfold os.makedirs, bind, get_state.
  destruct (os.resolve (cwd st) p) as [k|].
  - destruct (makedirs_rev_spec (rev k) st) as (r' & m' & o & E & Hg & Hok & _).
    rewrite E, rev_involutive in *. intros [= <- <-]. cbn. eauto 10.
  - intros [= <- <-]. repeat split; try done. exists []. by rewrite app_nil_r.
Qed.

Lemma makedirs_ok p st k :
  os.resolve (cwd st) p = Some k →
  no_file_on_path (files st) k →
  forallb os.name_ok k = true →
  ∃ st', os.makedirs p st = (Ok tt, st')
  ∧ cwd st' = cwd st ∧ is_syncing st' = is_syncing st ∧ log st' = log st
  ∧ grown (files st) (files st') k
  ∧ os.stat_key (files st') k = Some Dir.
Proof.
  intros Hk Hnf Hs. unfold os.makedirs, bind, get_state. rewrite Hk.
  destruct (makedirs_rev_spec (rev k) st) as (r & m' & o & E & Hg & Hok & Hr).
  rewrite rev_involutive in *. rewrite E, (Hr Hnf Hs).
  eexists. split; [done|]. cbn. auto 10.
Qed.


Lemma copyfile_cases src target st r st' :
  shutil.copyfile src target st = (r, st') →
  (∃ e, r = Raise e ∧ st' = st)
  ∨ (∃ c t k,
       os.stat st src = Some (File c t)
       ∧ os.resolve (cwd st) target = Some k
       ∧ os.resolve (cwd st) src ≠ Some k
       ∧ os.stat_key (files st) k ≠ Some Dir
       ∧ r = Ok tt ∧ st' = written k c t st).
Proof.
  unfold shutil.copyfile, bind, shutil.samefile, raise.
  match goal with |- context [if ?b then _ else _] => destruct b eqn:Hb end.
  { intros [= <- <-]. left. eauto. }
  unfold shutil.write_file.
  destruct (os.stat st src) as [[c t|]|] eqn:Hsrc;
    [|intros [= <- <-]; left; eauto..].
  destruct (os.resolve (cwd st) target) as [k|] eqn:Hk;
    [|intros [= <- <-]; left; eauto].
  assert (Hne : os.resolve (cwd st) src ≠ Some k).
  { destruct (stat_inv _ _ _ Hsrc) as (ks & Hks & Hsk).
    rewrite Hks, Hsk in Hb. apply bool_decide_eq_false in Hb. congruence. }
  destruct (os.stat_key (files st) k) as [[c' t'|]|] eqn:Hkk.
  - intros [= <- <-]. right. exists c, t, k. by rewrite Hkk.
  - intros [= <- <-]. left. eauto.
  - destruct (os.stat_key (files st) (os.parent k)) as [[c' t'|]|].
    + intros [= <- <-]. left. eauto.
    + destruct (os.name_ok _); intros [= <- <-]; [|left; eauto].
      right. exists c, t, k. by rewrite Hkk.
    + intros [= <- <-]. left. eauto.
Qed.

Lemma copy2_cases src dst st r st' :
  shutil.copy2 src dst st = (r, st') →
  (∃ e, r = Raise e ∧ st' = st)
  ∨ (∃ c t k target,
       target = (match os.stat st dst with
                 | Some Dir => join dst (basename src)
                 | _ => dst
                 end)
       ∧ os.stat st src = Some (File c t)
       ∧ os.resolve (cwd st) target = Some k
       ∧ os.resolve (cwd st) src ≠ Some k
       ∧ os.stat_key (files st) k ≠ Some Dir
       ∧ r = Ok target ∧ st' = written k c t st).
Proof.
  unfold shutil.copy2, bind, os.path_isdir.
  set (target := if match os.stat st dst with Some Dir => true | _ => false end
                 then join dst (basename src) else dst).
  assert (Ht : target = match os.stat st dst with
                        | Some Dir => join dst (basename src)
                        | _ => dst
                        end).
  { unfold target. by destruct (os.stat st dst) as [[]|]. }
  rewrite <- Ht. clearbody target.
  destruct (shutil.copyfile src target st) as [r0 st0] eqn:E.
  destruct (copyfile_cases _ _ _ _ _ E)
    as [(e & -> & ->)|(c & t & k & H1 & H2 & H3 & H4 & -> & ->)].
  - intros [= <- <-]. left. eauto.
  - intros [= <- <-]. right. exists c, t, k, target. done.
Qed.

Lemma copy2_file st src dst c t kd :
  os.stat st src = Some (File c t) →
  os.resolve (cwd st) dst = Some kd →
  os.resolve (cwd st) src ≠ Some kd →
  (∃ c' t', os.stat_key (files st) kd = Some (File c' t'))
  ∨ (os.stat_key (files st) kd = None
     ∧ os.stat_key (files st) (os.parent kd) = Some Dir
     ∧ os.name_ok (List.last kd "") = true) →
  shutil.copy2 src dst st = (Ok dst, written kd c t st).
Proof.
  intros Hsrc Hkd Hne Hdst.
  assert (Hd : match os.stat st dst with Some Dir => true | _ => false end
               = false).
  { rewrite (stat_resolved _ _ _ Hkd).
    by destruct Hdst as [(c' & t' & ->)|[-> _]]. }
  destruct (stat_inv _ _ _ Hsrc) as (ks & Hks & Hsk).
  unfold shutil.copy2, bind, os.path_isdir. rewrite Hd.
  unfold shutil.copyfile, bind, shutil.samefile, raise, ret.
  rewrite Hks, Hkd, Hsk, bool_decide_false by congruence.
  rewrite Hsrc. unfold shutil.write_file. rewrite Hkd.
  destruct Hdst as [(c' & t' & ->)|(-> & -> & ->)]; done.
Qed.


(** ** The decisions of [sync_file] *)

Lemma setting_run h key v st :
  conflict_settings h !! key = Some v → setting h key st = (Ok v, st).
Proof. intros H. unfold setting. by rewrite H. Qed.

Lemma identical_divergent st src dst sc sm dc dm :
  os.stat st src = Some (File sc sm) →
  os.stat st dst = Some (File dc dm) →
  hashlib.md5_hexdigest sc ≠ hashlib.md5_hexdigest dc →
  identical st src dst = false.
Proof.
  intros Hs Hd Hne. unfold identical. rewrite Hs, Hd.
  by apply String.eqb_neq.
Qed.


Lemma path_exists_some st p x :
  os.stat st p = Some x → os.path_exists p st = (Ok true, st).
Proof. intros H. unfold os.path_exists. by rewrite H. Qed.

Lemma path_exists_none st p :
  os.stat st p = None → os.path_exists p st = (Ok false, st).
Proof. intros H. unfold os.path_exists. by rewrite H. Qed.

Lemma getmtime_file st p c t :
  os.stat st p = Some (File c t) → os.path_getmtime p st = (Ok t, st).
Proof. intros H. unfold os.path_getmtime. by rewrite H. Qed.

(** The steps every call of [sync_file] on a path that is not excluded
    starts with. *)
Lemma sync_file_start h now src st rel r st' :
  relpath (cwd st) src (source_dir h) = Some rel →
  excluded h rel = false →
  (let dest_path := join (destination_dir h) rel in
   (let* there := os.path_exists dest_path in
    if there : bool then
      let* same := files_are_identical src dest_path in
      if same : bool then ret tt
      else
        let* policy := setting h "modified_files" in
        if py.eq_str policy "keep_both" then
          let* new_dest_path := get_duplicate_path h now dest_path in
          if dry_run h then
            utils.log_sync_action "Would create new version" src
              (Some new_dest_path) None
          else
            let* _ := os.makedirs (dirname new_dest_path) in
            let* _ := shutil.copy2 src new_dest_path in
            utils.log_sync_action "Created new version" src
              (Some new_dest_path) None
        else
          let* policy := setting h "modified_files" in
          if py.eq_str policy "keep_newest" then
            let* ts := os.path_getmtime src in
            let* td := os.path_getmtime dest_path in
            if (ts >? td)%Z then
              if negb (dry_run h) then
                let* _ := shutil.copy2 src dest_path in
                utils.log_sync_action "Updated (newer)" src
                  (Some dest_path) None
              else ret tt
            else ret tt
          else
            if negb (dry_run h) then
              let* _ := shutil.copy2 src dest_path in
              utils.log_sync_action "Updated" src (Some dest_path) None
            else
              utils.log_sync_action "Would sync" src (Some dest_path) None
    else
      let* _ := os.makedirs (dirname dest_path) in
      let* _ := shutil.copy2 src dest_path in
      utils.log_sync_action "Synced" src (Some dest_path) None)
     (set_is_syncing true st) = (r, st')) →
  sync_file h now src st = (r, set_is_syncing false st').
Proof.
  intros Hrel Hex Hrest. unfold sync_file. eapply try_finally_run.
  erewrite bind_ok by reflexivity.
  erewrite bind_ok by (unfold os.path_relpath; cbn [cwd set_is_syncing];
                       by rewrite Hrel).
  erewrite bind_ok by (by apply should_exclude_run).
  rewrite Hex. exact Hrest.
Qed.



(** ** Calling [sync_file] again *)

Lemma try_finally_inv {A} (body : M A) (f : state → state) st r st' :
  try_finally body (modify f) st = (r, st') →
  ∃ st'', body st = (r, st'') ∧ st' = f st''.
Proof.
  unfold try_finally, modify. destruct (body st) as [r0 st0].
  intros [= <- <-]. eauto.
Qed.

Lemma stat_ext st st' p :
  files st' = files st → cwd st' = cwd st → os.stat st' p = os.stat st p.
Proof. intros Hf Hc. unfold os.stat. by rewrite Hf, Hc. Qed.

Lemma identical_ext st st' p q :
  files st' = files st → cwd st' = cwd st →
  identical st' p q = identical st p q.
Proof. intros Hf Hc. unfold identical. by rewrite !(stat_ext st st'). Qed.

Lemma written_identical st st' src dp c t k :
  os.stat st src = Some (File c t) →
  os.resolve (cwd st) dp = Some k →
  k ≠ [] →
  os.resolve (cwd st) src ≠ Some k →
  files st' = <[k := File c t]> (files st) →
  cwd st' = cwd st →
  os.stat st' dp ≠ None ∧ identical st' src dp = true.
Proof.
  intros Hsrc Hk Hne Hks Hf Hc.
  assert (Hd : os.stat st' dp = Some (File c t)).
  { unfold os.stat. rewrite Hc, Hk, Hf, stat_key_insert by done.
    by rewrite decide_True. }
  assert (Hs : os.stat st' src = Some (File c t)).
  { destruct (stat_inv _ _ _ Hsrc) as (ks & Hr & Hsk).
    unfold os.stat. rewrite Hc, Hr, Hf, stat_key_insert by done.
    rewrite decide_False by congruence. done. }
  split; [by rewrite Hd|].
  unfold identical. rewrite Hs, Hd. apply String.eqb_refl.
Qed.

Lemma resolve_plain wd d :
  isabs d = true → plain (basename d) →
  ∃ P, os.resolve wd (dirname d) = Some P
       ∧ os.resolve wd d = Some (P ++ [basename d]).
Proof.
  intros Habs Hb. destruct (resolve_split wd d Habs) as (P & _ & H1 & H2 & _).
  exists P. split; [done|]. by rewrite H2, norm_comps_plain, rev_involutive.
Qed.

(** *** [str.format] *)

Lemma format_go_field kw acc s :
  pyformat.format_go kw (Some acc) (String "}" s)
  = match pyformat.field kw (String.rev acc) with
    | Ok v =>
        match pyformat.format_go kw None s with
        | Ok r => Ok (v +:+ r)
        | Raise e => Raise e
        end
    | Raise e => Raise e
    end.
Proof. reflexivity. Qed.

Lemma format_go_inside kw acc c s :
  c ≠ "}"%char →
  pyformat.format_go kw (Some acc) (String c s)
  = pyformat.format_go kw (Some (String c acc)) s.
Proof.
  intros Hc.
  destruct c as [[] [] [] [] [] [] [] []]; try reflexivity. by destruct Hc.
Qed.

Lemma format_go_open kw s :
  pyformat.format_go kw None (String "{" s)
  = match s with
    | String c s' =>
        if Ascii.eqb c "{" then
          match pyformat.format_go kw None s' with
          | Ok r => Ok (String "{" r)
          | Raise e => Raise e
          end
        else pyformat.format_go kw (Some "") s
    | "" => pyformat.format_go kw (Some "") s
    end.
Proof.
  destruct s as [|c s]; [reflexivity|].
  destruct c as [[] [] [] [] [] [] [] []]; reflexivity.
Qed.

Lemma format_go_close kw s :
  pyformat.format_go kw None (String "}" s)
  = match s with
    | String c s' =>
        if Ascii.eqb c "}" then
          match pyformat.format_go kw None s' with
          | Ok r => Ok (String "}" r)
          | Raise e => Raise e
          end
        else Raise ValueError
    | "" => Raise ValueError
    end.
Proof.
  destruct s as [|c s]; [reflexivity|].
  destruct c as [[] [] [] [] [] [] [] []]; reflexivity.
Qed.

Lemma format_go_char kw c s :
  c ≠ "{"%char → c ≠ "}"%char →
  pyformat.format_go kw None (String c s)
  = match pyformat.format_go kw None s with
    | Ok r => Ok (String c r)
    | Raise e => Raise e
    end.
Proof.
  intros H1 H2.
  destruct c as [[] [] [] [] [] [] [] []]; try reflexivity;
    by (destruct H1 || destruct H2).
Qed.

(** Whether [format] returns depends on the names of the keyword
    arguments, not on their values. *)
Lemma format_go_names kw kw' n :
  (∀ name, is_Some (pyformat.kw_lookup kw name)
           ↔ is_Some (pyformat.kw_lookup kw' name)) →
  ∀ s inside, String.length s ≤ n →
    is_ok (pyformat.format_go kw inside s)
    = is_ok (pyformat.format_go kw' inside s).
Proof.
  intros Hkw. induction n as [|n IH]; intros s inside Hlen.
  { destruct s; [|simpl in Hlen; lia]. by destruct inside. }
  destruct s as [|c s]; [by destruct inside|]. simpl in Hlen.
  assert (Hs : String.length s ≤ n) by lia.
  assert (Hnone : ∀ (f g : string → string),
            is_ok match pyformat.format_go kw None s with
                  | Ok r => Ok (f r) | Raise e => Raise e end
            = is_ok match pyformat.format_go kw' None s with
                    | Ok r => Ok (g r) | Raise e => Raise e end).
  { intros f g. pose proof (IH s None Hs) as E.
    by destruct (pyformat.format_go kw None s),
                (pyformat.format_go kw' None s). }
  destruct inside as [acc|].
  - destruct (Ascii.eqb_spec c "}") as [->|Hc].
    + rewrite !format_go_field. unfold pyformat.field.
      destruct (pyformat.has_any _ _); [done|].
      destruct (pyformat.all_digits _); [done|].
      specialize (Hkw (String.rev acc)).
      destruct (pyformat.kw_lookup kw _) as [v|],
               (pyformat.kw_lookup kw' _) as [v'|].
      * apply Hnone.
      * destruct Hkw as [Hkw _]. by destruct Hkw.
      * destruct Hkw as [_ Hkw]. by destruct Hkw.
      * done.
    + rewrite !format_go_inside by done. by apply IH.
  - destruct (Ascii.eqb_spec c "{") as [->|Ho].
    { rewrite !format_go_open. destruct s as [|c' s']; [by apply IH|].
      destruct (Ascii.eqb c' "{"); [|by apply IH].
      pose proof (IH s' None ltac:(simpl in Hs; lia)) as E.
      by destruct (pyformat.format_go kw None s'),
                  (pyformat.format_go kw' None s'). }
    destruct (Ascii.eqb_spec c "}") as [->|Hc].
    { rewrite !format_go_close. destruct s as [|c' s']; [done|].
      destruct (Ascii.eqb c' "}"); [|done].
      pose proof (IH s' None ltac:(simpl in Hs; lia)) as E.
      by destruct (pyformat.format_go kw None s'),
                  (pyformat.format_go kw' None s'). }
    rewrite !format_go_char by done. apply Hnone.
Qed.

Lemma format_names template kw kw' name :
  map fst kw = map fst kw' →
  pyformat.format template kw = Ok name →
  ∃ name', pyformat.format template kw' = Ok name'.
Proof.
  intros Hk H.
  assert (Hl : ∀ n, is_Some (pyformat.kw_lookup kw n)
                    ↔ is_Some (pyformat.kw_lookup kw' n)).
  { clear H. intros n. revert kw' Hk. induction kw as [|[k v] kw IH]; intros [|[k' v'] kw'] Hk;
      try done.
    injection Hk as -> Hk. cbn [pyformat.kw_lookup].
    destruct (String.eqb k' n); [split; intros _; by eexists|by apply IH]. }
  pose proof (format_go_names kw kw' _ Hl template None (le_n _)) as E.
  unfold pyformat.format in *. rewrite H in E.
  destruct (pyformat.format_go kw' None template); [eauto|done].
Qed.

Lemma get_duplicate_path_run h now dp st template name :
  conflict_settings h !! "duplicate_format" = Some (VStr template) →
  pyformat.format template
    [("original_name", basename (fst (splitext dp)));
     ("timestamp", datetime.strftime now);
     ("ext", snd (splitext dp))] = Ok name →
  get_duplicate_path h now dp st = (Ok (join (dirname dp) name), st).
Proof.
  intros Hfmt Hname. unfold get_duplicate_path.
  destruct (splitext dp) as [base_path ext]. cbn [fst snd] in Hname.
  erewrite bind_ok by (by apply setting_run).
  unfold bind, lift. by rewrite Hname.
Qed.

Lemma get_duplicate_path_inv h now dp st p st' :
  get_duplicate_path h now dp st = (Ok p, st') →
  st' = st
  ∧ ∃ template name,
      conflict_settings h !! "duplicate_format" = Some (VStr template)
      ∧ pyformat.format template
          [("original_name", basename (fst (splitext dp)));
           ("timestamp", datetime.strftime now);
           ("ext", snd (splitext dp))] = Ok name
      ∧ p = join (dirname dp) name.
Proof.
  unfold get_duplicate_path. destruct (splitext dp) as [base_path ext].
  cbn [fst snd]. unfold setting, bind, ret, raise, lift.
  destruct (conflict_settings h !! "duplicate_format") as [fmt|]; [|done].
  destruct fmt as [| | |template| |]; try done.
  destruct (pyformat.format template _) as [name|e] eqn:Hf; [|done].
  intros [= <- <-]. eauto 10.
Qed.

Lemma get_duplicate_path_renders h now dp st template :
  conflict_settings h !! "duplicate_format" = Some (VStr template) →
  renders template →
  ∃ p, get_duplicate_path h now dp st = (Ok p, st).
Proof.
  intros Hfmt [name0 Hr].
  destruct (format_names template
              [("original_name", ""); ("timestamp", ""); ("ext", "")]
              [("original_name", basename (fst (splitext dp)));
               ("timestamp", datetime.strftime now);
               ("ext", snd (splitext dp))] name0 eq_refl Hr) as [name Hname].
  exists (join (dirname dp) name). by eapply get_duplicate_path_run.
Qed.

Lemma settled_ext h st st' src rel v :
  files st' = files st → cwd st' = cwd st →
  settled h st src rel v → settled h st' src rel v.
Proof.
  intros Hf Hc. unfold settled.
  by rewrite !(stat_ext st st'), (identical_ext st st').
Qed.

Lemma sync_file_settled h now src st rel v :
  relpath (cwd st) src (source_dir h) = Some rel →
  conflict_settings h !! "modified_files" = Some v →
  settled h st src rel v →
  ∃ st', sync_file h now src st = (Ok tt, st') ∧ quiet st st'.
Proof.
  intros Hrel Hpol Hs. set (st1 := set_is_syncing true st).
  destruct (excluded h rel) eqn:Hex.
  { exists (set_is_syncing false st1). split; [|by unfold quiet].
    unfold sync_file. eapply try_finally_run.
    erewrite bind_ok by reflexivity.
    erewrite bind_ok by (unfold os.path_relpath; cbn [cwd set_is_syncing];
                         by rewrite Hrel).
    erewrite bind_ok by (by apply should_exclude_run).
    by rewrite Hex. }
  destruct Hs as [?|[Hthere Hs]]; [congruence|].
  set (dp := join (destination_dir h) rel) in *.
  destruct (os.stat st dp) as [x|] eqn:Hdst; [clear Hthere|done].
  assert (Hgo : ∃ st2,
    (let* same := files_are_identical src dp in
     if same : bool then ret tt
     else
       let* policy := setting h "modified_files" in
       if py.eq_str policy "keep_both" then
         let* new_dest_path := get_duplicate_path h now dp in
         if dry_run h then
           utils.log_sync_action "Would create new version" src
             (Some new_dest_path) None
         else
           let* _ := os.makedirs (dirname new_dest_path) in
           let* _ := shutil.copy2 src new_dest_path in
           utils.log_sync_action "Created new version" src
             (Some new_dest_path) None
       else
         let* policy := setting h "modified_files" in
         if py.eq_str policy "keep_newest" then
           let* ts := os.path_getmtime src in
           let* td := os.path_getmtime dp in
           if (ts >? td)%Z then
             if negb (dry_run h) then
               let* _ := shutil.copy2 src dp in
               utils.log_sync_action "Updated (newer)" src (Some dp) None
             else ret tt
           else ret tt
         else
           if negb (dry_run h) then
             let* _ := shutil.copy2 src dp in
             utils.log_sync_action "Updated" src (Some dp) None
           else
             utils.log_sync_action "Would sync" src (Some dp) None) st1
    = (Ok tt, st2) ∧ quiet st st2).
  { erewrite bind_ok by apply files_are_identical_run.
    change (identical st1) with (identical st).
    destruct (identical st src dp) eqn:Hid; [exists st1; split; [reflexivity|by unfold quiet]|].
    destruct Hs as [?|[(Hkb & Hdry & template & Hfmt & Hren)|(Hkb & Hs)]];
      [congruence| |]; cbv iota.
    { erewrite bind_ok by (by apply setting_run). rewrite Hkb. cbv iota.
      destruct (get_duplicate_path_renders h now dp st1 template Hfmt Hren)
        as [p Hp].
      erewrite bind_ok by exact Hp. rewrite Hdry.
      destruct (log_sync_action_run "Would create new version" src (Some p)
                  None st1) as [msg ->].
      eexists; split; [reflexivity|by unfold quiet]. }
    erewrite bind_ok by (by apply setting_run). rewrite Hkb. cbv iota.
    erewrite bind_ok by (by apply setting_run).
    destruct Hs as [(Hkn & sc & ts & dc & td & Hsrc & Hd & Hcmp)|(Hkn & Hdry)];
      rewrite Hkn; cbv iota.
    - injection Hd as ->.
      erewrite bind_ok by (apply (getmtime_file st1 src sc ts); exact Hsrc).
      erewrite bind_ok by (apply (getmtime_file st1 dp dc td); exact Hdst).
      destruct Hcmp as [->| ->]; [exists st1; split; [reflexivity|by unfold quiet]|].
      destruct (ts >? td)%Z; exists st1; (split; [reflexivity|by unfold quiet]).
    - rewrite Hdry. cbn [negb].
      destruct (log_sync_action_run "Would sync" src (Some dp) None st1)
        as [msg ->].
      eexists; split; [reflexivity|by unfold quiet]. }
  destruct Hgo as (st2 & Hgo & Hq).
  exists (set_is_syncing false st2). split; [|exact Hq].
  eapply sync_file_start; [exact Hrel|exact Hex|]. cbv zeta. fold dp.
  erewrite bind_ok by (by eapply (path_exists_some st1), Hdst). exact Hgo.
Qed.

(** After a call that returned, the source and the destination are
    settled, unless the call added a duplicate. *)
Lemma sync_file_settles h now src st rel v st1 :
  relpath (cwd st) src (source_dir h) = Some rel →
  conflict_settings h !! "modified_files" = Some v →
  isabs (destination_dir h) = true →
  plain (basename (join (destination_dir h) rel)) →
  os.stat st (join (destination_dir h) rel) ≠ Some Dir →
  excluded h rel = true
  ∨ py.eq_str v "keep_both" = false
  ∨ dry_run h = true
  ∨ os.stat st (join (destination_dir h) rel) = None
  ∨ identical st src (join (destination_dir h) rel) = true →
  sync_file h now src st = (Ok tt, st1) →
  cwd st1 = cwd st ∧ settled h st1 src rel v.
Proof.
  intros Hrel Hpol Habs Hplain Hnd Hcase H.
  set (dp := join (destination_dir h) rel) in *.
  set (st0 := set_is_syncing true st).
  unfold sync_file in H. apply try_finally_inv in H as (stb & H & ->).
  erewrite bind_ok in H by reflexivity.
  erewrite bind_ok in H by (unfold os.path_relpath; cbn [cwd set_is_syncing];
                            by rewrite Hrel).
  erewrite bind_ok in H by (by apply should_exclude_run).
  fold st0 dp in H.
  destruct (excluded h rel) eqn:Hex.
  { injection H as <-. split; [done|]. by left. }
  destruct Hcase as [?|Hcase]; [done|].
  (* what a copy to the destination leaves *)
  assert (Hcopy : ∀ (sta stx : state) action,
    cwd sta = cwd st →
    (∃ k, os.resolve (cwd st) dp = Some k ∧ k ≠ []
          ∧ os.stat_key (files sta) k ≠ Some Dir) →
    (let* _ := shutil.copy2 src dp in
     utils.log_sync_action action src (Some dp) None) sta = (Ok tt, stx) →
    cwd stx = cwd st ∧ settled h (set_is_syncing false stx) src rel v).
  { clear H. intros sta stx action Hc (k & Hk & Hkne & Hkd) Hrun.
    destruct (shutil.copy2 src dp sta) as [r stc] eqn:Ecp.
    destruct (copy2_cases _ _ _ _ _ Ecp)
      as [(e & -> & ->)|(c & t & k' & tg & Htg & Hs & Hk' & Hne & _ & -> & ->)].
    { by rewrite (bind_raise _ _ _ _ _ Ecp) in Hrun. }
    rewrite (bind_ok _ _ _ _ _ Ecp) in Hrun.
    assert (tg = dp) as ->.
    { rewrite Htg. unfold os.stat. rewrite Hc, Hk.
      by destruct (os.stat_key (files sta) k) as [[]|]. }
    rewrite Hc, Hk in Hk'. injection Hk' as <-.
    destruct (log_sync_action_run action src (Some dp) None
                (written k c t sta)) as [msg Hlog].
    rewrite Hlog in Hrun. injection Hrun as <-.
    split; [done|]. right. fold dp.
    destruct (written_identical sta
                (set_is_syncing false
                   (add_log (LogInfo msg) (written k c t sta)))
                src dp c t k) as [Hd Hi];
      [exact Hs|by rewrite Hc|done|exact Hne|reflexivity|reflexivity|].
    split; [exact Hd|by left]. }
  destruct (os.stat st dp) as [x|] eqn:Hdst.
  - (* the destination is there *)
    destruct (stat_inv _ _ _ Hdst) as (kd & Hkd & Hskd).
    assert (Hto : ∃ k, os.resolve (cwd st) dp = Some k ∧ k ≠ []
                       ∧ os.stat_key (files st0) k ≠ Some Dir).
    { exists kd. split; [done|]. split.
      - intros ->. simpl in Hskd. congruence.
      - change (files st0) with (files st). congruence. }
    erewrite bind_ok in H by (by eapply (path_exists_some st0), Hdst).
    cbv iota in H.
    erewrite bind_ok in H by apply files_are_identical_run.
    change (identical st0) with (identical st) in H.
    destruct (identical st src dp) eqn:Hid.
    { injection H as <-. split; [done|]. right. fold dp.
      change (os.stat (set_is_syncing false st0)) with (os.stat st).
      change (identical (set_is_syncing false st0)) with (identical st).
      rewrite Hdst. split; [done|by left]. }
    erewrite bind_ok in H by (by apply setting_run). cbv iota in H.
    destruct (py.eq_str v "keep_both") eqn:Hkb.
    { (* keep_both on a dry run: the duplicate is named and logged *)
      destruct Hcase as [?|[Hdry|[?|?]]]; [done| |done..].
      rewrite Hdry in H.
      destruct (get_duplicate_path h now dp st0) as [[p|e] stp] eqn:Hp;
        [|by rewrite (bind_raise _ _ _ _ _ Hp) in H].
      rewrite (bind_ok _ _ _ _ _ Hp) in H.
      apply get_duplicate_path_inv in Hp
        as (-> & template & name & Hfmt & Hname & _).
      destruct (log_sync_action_run "Would create new version" src (Some p)
                  None st0) as [msg Hlog].
      rewrite Hlog in H. injection H as <-. split; [done|]. right. fold dp.
      change (os.stat (set_is_syncing false (add_log (LogInfo msg) st0)))
        with (os.stat st).
      rewrite Hdst. split; [done|]. right. left. split; [done|].
      split; [done|]. exists template. split; [done|].
      by eapply format_names, Hname. }
    erewrite bind_ok in H by (by apply setting_run).
    destruct (py.eq_str v "keep_newest") eqn:Hkn.
    + destruct (os.stat st src) as [[sc ts|]|] eqn:Hsrc.
      2,3: by unfold bind, os.path_getmtime in H;
           change (os.stat st0) with (os.stat st) in H; rewrite Hsrc in H.
      erewrite bind_ok in H by (apply (getmtime_file st0 src sc ts); exact Hsrc).
      destruct x as [dc td|]; [|done].
      erewrite bind_ok in H by (apply (getmtime_file st0 dp dc td); exact Hdst).
      assert (Hs : (ts >? td)%Z = false ∨ dry_run h = true →
                   settled h (set_is_syncing false st0) src rel v).
      { intros Hor. right. fold dp.
        change (os.stat (set_is_syncing false st0)) with (os.stat st).
        change (identical (set_is_syncing false st0)) with (identical st).
        split; [by rewrite Hdst|]. right. right. split; [done|]. left.
        split; [done|]. by exists sc, ts, dc, td. }
      destruct (ts >? td)%Z eqn:Hcmp; [destruct (dry_run h) eqn:Hdry|];
        cbn [negb] in H.
      * injection H as <-. split; [done|]. apply Hs. by right.
      * destruct (Hcopy st0 stb _ eq_refl Hto H) as [? ?]. by split.
      * injection H as <-. split; [done|]. apply Hs. by left.
    + destruct (dry_run h) eqn:Hdry; cbn [negb] in H.
      * destruct (log_sync_action_run "Would sync" src (Some dp) None st0)
          as [msg Hlog].
        rewrite Hlog in H. injection H as <-. split; [done|]. right. fold dp.
        change (os.stat (set_is_syncing false (add_log (LogInfo msg) st0)))
          with (os.stat st).
        rewrite Hdst. split; [done|]. right. right. split; [done|]. by right.
      * destruct (Hcopy st0 stb _ eq_refl Hto H) as [? ?]. by split.
  - (* the destination is not there *)
    erewrite bind_ok in H by (by eapply (path_exists_none st0), Hdst).
    cbv iota in H.
    assert (Hdabs : isabs dp = true) by by apply isabs_join.
    destruct (resolve_plain (cwd st) dp Hdabs Hplain) as (P & HP & Hkd).
    destruct (os.makedirs (dirname dp) st0) as [r sta] eqn:Emk.
    destruct (makedirs_spec _ _ _ _ Emk) as (Hc & _ & _ & o & _ & Hg).
    change (cwd st0) with (cwd st) in *. rewrite HP in Hg.
    destruct Hg as [Hg _].
    destruct r as [[]|e]; [|by rewrite (bind_raise _ _ _ _ _ Emk) in H].
    rewrite (bind_ok _ _ _ _ _ Emk) in H.
    destruct (Hcopy sta stb "Synced" Hc) as [? ?]; [|exact H|by split].
    exists (P ++ [basename dp]). split; [done|]. split; [by destruct P|].
    rewrite (grown_stat_off _ _ _ _ Hg) by apply snoc_not_prefix.
    change (files st0) with (files st).
    rewrite <- (stat_resolved st _ _ Hkd), Hdst. done.
Qed.

(** Under keep_both with dry-run off, a call that finds a destination
    that is not identical and returns has written a file. *)
Lemma keep_both_writes h now src st rel v st1 :
  relpath (cwd st) src (source_dir h) = Some rel →
  conflict_settings h !! "modified_files" = Some v →
  py.eq_str v "keep_both" = true →
  dry_run h = false →
  excluded h rel = false →
  os.stat st (join (destination_dir h) rel) ≠ None →
  identical st src (join (destination_dir h) rel) = false →
  sync_file h now src st = (Ok tt, st1) →
  ∃ o k, ops st1 = ops st ++ o ++ [OpWrite k].
Proof.
  intros Hrel Hpol Hkb Hdry Hex Hthere Hid H.
  set (dp := join (destination_dir h) rel) in *.
  set (st0 := set_is_syncing true st).
  destruct (os.stat st dp) as [x|] eqn:Hdst; [clear Hthere|done].
  unfold sync_file in H. apply try_finally_inv in H as (stb & H & ->).
  erewrite bind_ok in H by reflexivity.
  erewrite bind_ok in H by (unfold os.path_relpath; cbn [cwd set_is_syncing];
                            by rewrite Hrel).
  erewrite bind_ok in H by (by apply should_exclude_run).
  rewrite Hex in H. fold st0 dp in H.
  erewrite bind_ok in H by (by eapply (path_exists_some st0), Hdst).
  cbv iota in H.
  erewrite bind_ok in H by apply files_are_identical_run.
  change (identical st0) with (identical st) in H. rewrite Hid in H.
  erewrite bind_ok in H by (by apply setting_run).
  rewrite Hkb, Hdry in H. cbv iota in H.
  destruct (get_duplicate_path h now dp st0) as [[p|e] stp] eqn:Hp;
    [|by rewrite (bind_raise _ _ _ _ _ Hp) in H].
  rewrite (bind_ok _ _ _ _ _ Hp) in H.
  apply get_duplicate_path_inv in Hp as (-> & _).
  destruct (os.makedirs (dirname p) st0) as [r sta] eqn:Emk.
  destruct (makedirs_spec _ _ _ _ Emk) as (_ & _ & _ & o & Ho & _).
  destruct r as [[]|e]; [|by rewrite (bind_raise _ _ _ _ _ Emk) in H].
  rewrite (bind_ok _ _ _ _ _ Emk) in H.
  destruct (shutil.copy2 src p sta) as [r stc] eqn:Ecp.
  destruct (copy2_cases _ _ _ _ _ Ecp)
    as [(e & -> & ->)|(c & t & k & tg & _ & _ & _ & _ & _ & -> & ->)].
  { by rewrite (bind_raise _ _ _ _ _ Ecp) in H. }
  rewrite (bind_ok _ _ _ _ _ Ecp) in H.
  destruct (log_sync_action_run "Created new version" src (Some p) None
              (written k c t sta)) as [msg Hlog].
  rewrite Hlog in H. injection H as <-.
  exists o, k. cbn [ops set_is_syncing add_log written add_op set_files].
  by rewrite Ho, app_assoc.
Qed.

(** C3 (amended). When a call of [sync_file] has returned, a second
    call on the state it left returns and performs no write, provided
    that the path is excluded, or the [modified_files] policy is not
    keep_both, or the run is dry, or the destination was absent or
    identical at the first call, and that the destination counterpart
    is a file name, under an absolute destination root, that no
    directory occupies. In the case that is left, keep_both with
    dry-run off on a destination that is there and not identical, the
    call that returned has written a file. *)
Theorem second_sync_performs_no_write h now now' src st rel v st1 :
  relpath (cwd st) src (source_dir h) = Some rel →
  conflict_settings h !! "modified_files" = Some v →
  sync_file h now src st = (Ok tt, st1) →
  (isabs (destination_dir h) = true →
   plain (basename (join (destination_dir h) rel)) →
   os.stat st (join (destination_dir h) rel) ≠ Some Dir →
   excluded h rel = true
   ∨ py.eq_str v "keep_both" = false
   ∨ dry_run h = true
   ∨ os.stat st (join (destination_dir h) rel) = None
   ∨ identical st src (join (destination_dir h) rel) = true →
   ∃ st2, sync_file h now' src st1 = (Ok tt, st2)
          ∧ files st2 = files st1 ∧ ops st2 = ops st1)
  ∧ (excluded h rel = false →
     py.eq_str v "keep_both" = true →
     dry_run h = false →
     os.stat st (join (destination_dir h) rel) ≠ None →
     identical st src (join (destination_dir h) rel) = false →
     ∃ o k, ops st1 = ops st ++ o ++ [OpWrite k]).
Proof.
  intros Hrel Hpol H. split.
  - intros Habs Hplain Hnd Hcase.
    destruct (sync_file_settles _ _ _ _ _ _ _ Hrel Hpol Habs Hplain Hnd Hcase H)
      as [Hc Hs].
    destruct (sync_file_settled h now' src st1 rel v) as (st2 & H2 & Hq);
      [by rewrite Hc|done|done|].
    exists st2. split; [done|]. by destruct Hq as (? & ? & _).
  - intros Hex Hkb Hdry Hthere Hid. by eapply keep_both_writes.
Qed.


(** ** KeepBoth *)

(** C2 (amended). Under keep_both with dry-run off, on a source and a
    destination that are regular files with different digests, when the
    duplicate format renders to a file name other than the
    destination's own, which no directory occupies, then after
    [sync_file] returns the destination is there with its bytes and
    time unchanged, and the file of that name next to it holds the
    bytes of the source. *)
Theorem keep_both_keeps_the_original h now src st rel template name
    sc sm dc dm st' :
  dry_run h = false →
  conflict_settings h !! "modified_files" = Some (VStr "keep_both") →
  conflict_settings h !! "duplicate_format" = Some (VStr template) →
  isabs (destination_dir h) = true →
  relpath (cwd st) src (source_dir h) = Some rel →
  excluded h rel = false →
  os.stat st src = Some (File sc sm) →
  os.stat st (join (destination_dir h) rel) = Some (File dc dm) →
  hashlib.md5_hexdigest sc ≠ hashlib.md5_hexdigest dc →
  pyformat.format template
    [("original_name",
      basename (fst (splitext (join (destination_dir h) rel))));
     ("timestamp", datetime.strftime now);
     ("ext", snd (splitext (join (destination_dir h) rel)))] = Ok name →
  plain name →
  name ≠ basename (join (destination_dir h) rel) →
  os.stat st (join (dirname (join (destination_dir h) rel)) name) ≠ Some Dir →
  sync_file h now src st = (Ok tt, st') →
  os.stat st' (join (destination_dir h) rel) = Some (File dc dm)
  ∧ os.stat st' (join (dirname (join (destination_dir h) rel)) name)
    = Some (File sc sm).
Proof.
  intros Hdry Hpol Hfmt Habs Hrel Hex Hsrc Hdst Hne Hname Hplain Hnb Hnd H.
  set (dp := join (destination_dir h) rel) in *.
  set (new := join (dirname dp) name) in *.
  set (st0 := set_is_syncing true st).
  (* where the paths lead *)
  assert (Hdabs : isabs dp = true) by by apply isabs_join.
  destruct (resolve_split (cwd st) dp Hdabs) as (P & Hdir & HP & Hkd & Hsib).
  destruct (Hsib name Hplain) as [Hbn Hknew]. fold new in Hbn, Hknew.
  assert (Hnabs : isabs new = true) by by apply isabs_join.
  assert (HPnew : os.resolve (cwd st) (dirname new) = Some P).
  { destruct (resolve_plain (cwd st) new Hnabs) as (P' & HP' & Hk');
      [by rewrite Hbn|].
    rewrite Hbn, Hknew in Hk'. injection Hk' as Hk'.
    apply app_inj_tail in Hk' as [-> _]. done. }
  assert (Hkne : norm_comps true (rev P) [basename dp] ≠ P ++ [name]).
  { by apply norm_comps_last_ne. }
  (* the run *)
  unfold sync_file in H. apply try_finally_inv in H as (stb & H & ->).
  erewrite bind_ok in H by reflexivity.
  erewrite bind_ok in H by (unfold os.path_relpath; cbn [cwd set_is_syncing];
                            by rewrite Hrel).
  erewrite bind_ok in H by (by apply should_exclude_run).
  rewrite Hex in H. fold st0 dp in H.
  erewrite bind_ok in H by (by eapply (path_exists_some st0), Hdst).
  cbv iota in H.
  erewrite bind_ok in H by apply files_are_identical_run.
  change (identical st0) with (identical st) in H.
  rewrite (identical_divergent _ _ _ _ _ _ _ Hsrc Hdst Hne) in H.
  erewrite bind_ok in H by (by apply setting_run).
  change (py.eq_str (VStr "keep_both") "keep_both") with true in H.
  cbv iota in H.
  erewrite bind_ok in H by (by eapply get_duplicate_path_run).
  fold new in H. rewrite Hdry in H.
  destruct (os.makedirs (dirname new) st0) as [r sta] eqn:Emk.
  destruct (makedirs_spec _ _ _ _ Emk) as (Hc & _ & _ & o & _ & Hg).
  change (cwd st0) with (cwd st) in *. change (files st0) with (files st) in *.
  rewrite HPnew in Hg. destruct Hg as [Hg _].
  destruct r as [[]|e]; [|by rewrite (bind_raise _ _ _ _ _ Emk) in H].
  rewrite (bind_ok _ _ _ _ _ Emk) in H.
  destruct (shutil.copy2 src new sta) as [r stc] eqn:Ecp.
  destruct (copy2_cases _ _ _ _ _ Ecp)
    as [(e & -> & ->)|(c & t & k' & tg & Htg & Hs & Hk' & _ & _ & -> & ->)].
  { by rewrite (bind_raise _ _ _ _ _ Ecp) in H. }
  rewrite (bind_ok _ _ _ _ _ Ecp) in H.
  assert (Hnew_off : os.stat_key (files sta) (P ++ [name])
                     = os.stat_key (files st) (P ++ [name])).
  { apply (grown_stat_off _ _ _ _ Hg), snoc_not_prefix. }
  assert (tg = new) as ->.
  { rewrite Htg. unfold os.stat. rewrite Hc, Hknew, Hnew_off.
    rewrite (stat_resolved _ _ _ Hknew) in Hnd.
    by destruct (os.stat_key (files st) (P ++ [name])) as [[]|]. }
  rewrite Hc, Hknew in Hk'. injection Hk' as <-.
  assert (c = sc ∧ t = sm) as [-> ->].
  { destruct (stat_inv _ _ _ Hsrc) as (ks & Hks & Hsk).
    rewrite (stat_resolved sta _ ks) in Hs by by rewrite Hc.
    rewrite (grown_stat _ _ _ _ _ Hg Hsk) in Hs. by injection Hs. }
  destruct (log_sync_action_run "Created new version" src (Some new) None
              (written (P ++ [name]) sc sm sta)) as [msg Hlog].
  rewrite Hlog in H. injection H as <-.
  unfold os.stat. cbn [cwd files set_is_syncing add_log written add_op set_files].
  rewrite Hc, Hkd, Hknew, !stat_key_insert by by destruct P.
  rewrite decide_False by done. rewrite decide_True by done.
  split; [|done].
  rewrite (stat_resolved _ _ _ Hkd) in Hdst.
  by apply (grown_stat _ _ _ _ _ Hg).
Qed.


(** ** Names with a timestamp *)

Lemma basename_nosep p : has_sep (basename p) = false.
Proof.
  unfold basename. induction p as [|c p IH]; [done|]. simpl.
  destruct (rsplit_sep p) as [hd tl]. simpl in IH.
  destruct (is_sep c) eqn:Hc; [done|]. destruct hd; [|done].
  simpl. by rewrite Hc, IH.
Qed.

Lemma rsplit_dot_app s a e : rsplit_dot s = Some (a, e) → a +:+ e = s.
Proof.
  revert a e. induction s as [|c s IH]; intros a e; [done|]. simpl.
  destruct (rsplit_dot s) as [[a' e']|].
  - intros [= <- <-]. rewrite app_cons. f_equal. by apply IH.
  - destruct (is_dot c); [|done]. by intros [= <- <-].
Qed.

Lemma splitext_name_app n : (splitext_name n).1 +:+ (splitext_name n).2 = n.
Proof.
  unfold splitext_name. destruct (rsplit_dot n) as [[a e]|] eqn:H.
  - destruct (all_dots a); simpl.
    + clear. induction n as [|c n IH]; [done|]. rewrite app_cons. by f_equal.
    + by apply rsplit_dot_app.
  - simpl. clear. induction n as [|c n IH]; [done|]. rewrite app_cons.
    by f_equal.
Qed.

Lemma splitext_nosep n :
  has_sep n = false → splitext n = splitext_name n.
Proof.
  intros H. unfold splitext. rewrite (rsplit_sep_nosep _ H).
  by destruct (splitext_name n).
Qed.

Lemma digit_not_sep n : is_sep (datetime.digit n) = false.
Proof.
  unfold datetime.digit.
  assert (H : n mod 10 < 10) by (apply Nat.mod_upper_bound; lia).
  generalize dependent (n mod 10). intros k H.
  do 10 (destruct k as [|k]; [reflexivity|]). lia.
Qed.

Lemma has_sep_cons c s : has_sep (String c s) = is_sep c || has_sep s.
Proof. reflexivity. Qed.

Lemma strftime_nosep d : has_sep (datetime.strftime d) = false.
Proof.
  unfold datetime.strftime, datetime.pad4, datetime.pad2.
  rewrite !has_sep_app, !has_sep_cons, !digit_not_sep. reflexivity.
Qed.

Lemma all_dots_app a b : all_dots (a +:+ b) = all_dots a && all_dots b.
Proof.
  induction a as [|c a IH]; [done|]. rewrite app_cons. simpl.
  by rewrite IH, andb_assoc.
Qed.

(** A name with an underscore and a timestamp put before its extension
    is a file name, and another one. *)
Lemma stamped_plain n ts :
  has_sep n = false → has_sep ts = false →
  plain ((splitext n).1 +:+ "_" +:+ ts +:+ (splitext n).2)
  ∧ (splitext n).1 +:+ "_" +:+ ts +:+ (splitext n).2 ≠ n.
Proof.
  intros Hn Hts. rewrite (splitext_nosep _ Hn).
  pose proof (splitext_name_app n) as Happ.
  destruct (splitext_name n) as [a e]. cbn [fst snd] in *.
  set (name := a +:+ "_" +:+ ts +:+ e).
  assert (Hd : all_dots name = false).
  { unfold name. rewrite !all_dots_app. simpl. apply andb_false_r. }
  assert (Hs : has_sep name = false).
  { unfold name. rewrite !has_sep_app. rewrite <- Happ, has_sep_app in Hn.
    apply orb_false_elim in Hn as [-> ->]. by rewrite Hts. }
  split.
  - repeat split; try done; intros E; by rewrite E in Hd.
  - intros E. apply (f_equal String.length) in E. unfold name in E.
    rewrite <- Happ in E. rewrite !app_length_s in E. simpl in E. lia.
Qed.


(** ** Deletions *)

Lemma relpath_some wd d start :
  d ≠ "" → ∃ r, relpath wd d start = Some r.
Proof.
  intros H. unfold relpath. destruct d; [done|].
  match goal with |- context [match ?l with [] => _ | _ => _ end] =>
    destruct l end; eauto.
Qed.

Lemma stat_some_nonempty st p x : os.stat st p = Some x → p ≠ "".
Proof. by intros H ->. Qed.

Lemma entries_empty m k x : os.entries m k = [] → m !! (k ++ [x]) = None.
Proof.
  intros He. destruct (m !! (k ++ [x])) as [v|] eqn:Hv; [|done].
  apply elem_of_map_to_list in Hv.
  assert (Hin : x ∈ os.entries m k).
  { unfold os.entries. apply list_elem_of_omap. exists (k ++ [x], v).
    split; [done|]. unfold os.child_name. cbn [fst].
    rewrite take_app_length, decide_True by done.
    by rewrite drop_app_length. }
  rewrite He in Hin. by apply elem_of_nil in Hin.
Qed.

(** [cleanup_empty_dirs] returns, and all it does to the tree is to
    remove directories that hold no file. *)
Lemma cleanup_spec fuel h d st :
  ∃ st', cleanup_empty_dirs_fuel fuel h d st = (Ok tt, st')
    ∧ cwd st' = cwd st
    ∧ ∀ k, files st' !! k = files st !! k
           ∨ (files st !! k = Some Dir ∧ files st' !! k = None
              ∧ ∀ x c t, files st !! (k ++ [x]) ≠ Some (File c t)).
Proof.
  revert d st. induction fuel as [|n IH]; intros d st.
  { exists st. split; [done|]. split; [done|]. by left. }
  assert (Hsame : ∃ st', (Ok tt, st) = (Ok tt, st')
    ∧ cwd st' = cwd st
    ∧ ∀ k, files st' !! k = files st !! k
           ∨ (files st !! k = Some Dir ∧ files st' !! k = None
              ∧ ∀ x c t, files st !! (k ++ [x]) ≠ Some (File c t))).
  { exists st. split; [done|]. split; [done|]. by left. }
  cbn [cleanup_empty_dirs_fuel]. unfold bind at 1, os.path_exists at 1.
  destruct (os.stat st d) as [x|] eqn:Hd; [|exact Hsame]. cbn [negb].
  destruct (String.eqb d (destination_dir h)); [exact Hsame|].
  unfold try_except, bind at 1, os.listdir.
  destruct (os.resolve (cwd st) d) as [k0|] eqn:Hk0; [|exact Hsame].
  destruct (os.stat_key (files st) k0) as [[c t|]|] eqn:Hs0;
    [exact Hsame| |rewrite is_OSError_lookup_error; exact Hsame].
  destruct (os.entries (files st) k0) as [|y ys] eqn:He; [|exact Hsame].
  unfold bind at 1, os.rmdir. rewrite Hk0.
  destruct k0 as [|z k0]; [exact Hsame|]. rewrite Hs0, He.
  set (k1 := z :: k0) in *.
  set (st1 := add_op (OpRmdir k1) (set_files (delete k1 (files st)) st)).
  destruct (relpath_some (cwd st) d (destination_dir h)) as [r Hr].
  { by eapply stat_some_nonempty. }
  erewrite bind_ok by (unfold os.path_relpath; cbn [cwd st1 add_op set_files];
                       by rewrite Hr).
  erewrite bind_ok by reflexivity.
  destruct (IH (dirname d)
              (add_log (LogInfo ("Removed empty directory: " +:+ r)) st1))
    as (st' & -> & Hc & Hf).
  exists st'. split; [done|]. split; [done|].
  intros k. cbn [files add_log st1 add_op set_files] in Hf.
  destruct (decide (k = k1)) as [->|Hne].
  - right. split; [exact Hs0|]. split.
    + destruct (Hf k1) as [->|(E & _)]; [apply lookup_delete_eq|].
      by rewrite lookup_delete_eq in E.
    + intros x' c t. by rewrite (entries_empty _ _ x' He).
  - destruct (Hf k) as [E|(E1 & E2 & E3)];
      rewrite lookup_delete_ne in * by done; [by left|].
    right. split; [done|]. split; [done|].
    intros x' c t. specialize (E3 x' c t).
    destruct (decide (k1 = k ++ [x'])) as [Heq|Hne'].
    + rewrite <- Heq. simpl in Hs0. by rewrite Hs0.
    + by rewrite lookup_delete_ne in E3.
Qed.

Lemma get_trash_path_run h now filename st td :
  conflict_settings h !! "trash_dir" = Some (VStr td) →
  ∃ msg,
    get_trash_path h now filename st
    = (Ok (join (join (destination_dir h) td)
             ((splitext filename).1 +:+ "_" +:+ datetime.strftime now
              +:+ (splitext filename).2)),
       add_log (LogInfo msg) st).
Proof.
  intros Htd. unfold get_trash_path.
  erewrite bind_ok by (by apply setting_run).
  erewrite bind_ok by reflexivity.
  destruct (splitext filename) as [base_name ext]. cbn [fst snd].
  eexists. reflexivity.
Qed.

Lemma move_file st src dst k k' c t :
  os.resolve (cwd st) src = Some k →
  os.resolve (cwd st) dst = Some k' →
  os.stat_key (files st) k = Some (File c t) →
  k ≠ k' →
  os.stat_key (files st) k' ≠ Some Dir →
  os.stat_key (files st) (os.parent k') = Some Dir →
  os.name_ok (List.last k' "") = true →
  shutil.move src dst st = (Ok dst, renamed k k' c t st).
Proof.
  intros Hk Hk' Hs Hne Hnd Hp Hshort.
  assert (Hd : os.path_isdir dst st = (Ok false, st)).
  { unfold os.path_isdir. rewrite (stat_resolved _ _ _ Hk').
    by destruct (os.stat_key (files st) k') as [[]|]. }
  unfold shutil.move. erewrite bind_ok by exact Hd.
  erewrite bind_ok by reflexivity. cbn [andb].
  erewrite bind_ok by reflexivity. cbv iota.
  assert (Hr : os.rename src dst st = (Ok tt, renamed k k' c t st)).
  { unfold os.rename. rewrite Hk, Hk', Hs.
    destruct (os.stat_key (files st) k') as [[c' t'|]|]; [|done|].
    - by rewrite decide_False.
    - by rewrite Hp, Hshort. }
  unfold bind, try_except. by rewrite Hr.
Qed.

(** C8. Under the trash policy with dry-run off, when the destination
    counterpart is a regular file, no regular file lies on the way to
    the trash directory, no directory occupies the trash name, and
    neither a name on the way to the trash directory nor the trash name
    is longer than 255 bytes, [handle_delete] returns, having moved the
    file to [<destination_dir>/<trash_dir>/<stem>_<timestamp><extension>]
    of its base name: nothing is left at the destination path, the file
    is at the trash path with its bytes and time, and the trash
    directory is there. The trash path is one in normal form, without
    NUL byte and shorter than PATH_MAX. *)
Theorem trash_moves_the_destination_file h now src st rel td c m KT :
  dry_run h = false →
  conflict_settings h !! "deleted_files" = Some (VStr "trash") →
  conflict_settings h !! "trash_dir" = Some (VStr td) →
  isabs (destination_dir h) = true →
  relpath (cwd st) src (source_dir h) = Some rel →
  os.stat st (join (destination_dir h) rel) = Some (File c m) →
  plain (basename (join (destination_dir h) rel)) →
  os.resolve (cwd st) (join (destination_dir h) td) = Some KT →
  no_file_on_path (files st) KT →
  os.stat st
    (join (join (destination_dir h) td)
       ((splitext (basename (join (destination_dir h) rel))).1 +:+ "_"
        +:+ datetime.strftime now
        +:+ (splitext (basename (join (destination_dir h) rel))).2))
  ≠ Some Dir →
  forallb os.name_ok KT = true →
  os.name_ok
    ((splitext (basename (join (destination_dir h) rel))).1 +:+ "_"
     +:+ datetime.strftime now
     +:+ (splitext (basename (join (destination_dir h) rel))).2) = true →
  os.is_path
    (join (join (destination_dir h) td)
       ((splitext (basename (join (destination_dir h) rel))).1 +:+ "_"
        +:+ datetime.strftime now
        +:+ (splitext (basename (join (destination_dir h) rel))).2)) = true →
  ∃ st',
    handle_delete h now src st = (Ok tt, st')
    ∧ os.stat st' (join (destination_dir h) rel) = None
    ∧ os.stat st'
        (join (join (destination_dir h) td)
           ((splitext (basename (join (destination_dir h) rel))).1 +:+ "_"
            +:+ datetime.strftime now
            +:+ (splitext (basename (join (destination_dir h) rel))).2))
      = Some (File c m)
    ∧ os.stat st' (join (destination_dir h) td) = Some Dir.
Proof.
  intros Hdry Hpol Htd Habs Hrel Hdst Hplain HKT Hnf Hnd Hshort Hshort' _.
  set (dp := join (destination_dir h) rel) in *.
  set (T := join (destination_dir h) td) in *.
  set (tn := (splitext (basename dp)).1 +:+ "_" +:+ datetime.strftime now
             +:+ (splitext (basename dp)).2) in *.
  set (tp := join T tn) in *.
  set (st0 := set_is_syncing true st).
  (* where the paths lead *)
  destruct (stamped_plain (basename dp) (datetime.strftime now))
    as [Htn Htnb]; [apply basename_nosep|apply strftime_nosep|].
  fold tn in Htn, Htnb.
  assert (Hdabs : isabs dp = true) by by apply isabs_join.
  destruct (resolve_plain (cwd st) dp Hdabs Hplain) as (P & _ & Hkd).
  set (kd := P ++ [basename dp]) in *.
  assert (HTabs : isabs T = true) by by apply isabs_join.
  destruct (resolve_join_plain (cwd st) T tn HTabs Htn)
    as (K & HK & _ & _ & Hkt & Hkdir).
  rewrite HKT in HK. injection HK as <-. fold tp in Hkt, Hkdir.
  set (kt := KT ++ [tn]) in *.
  assert (Hkne : kd ≠ kt).
  { unfold kd, kt. intros E. apply app_inj_tail in E as [_ E]. done. }
  assert (Hskd : os.stat_key (files st) kd = Some (File c m)).
  { by rewrite <- (stat_resolved st _ _ Hkd). }
  rewrite (stat_resolved st _ _ Hkt) in Hnd.
  (* the trash path and its directory *)
  destruct (get_trash_path_run h now (basename dp) st0 td Htd) as [msg Hgt].
  fold T tn tp in Hgt.
  set (st1 := add_log (LogInfo msg) st0) in *.
  destruct (makedirs_ok (dirname tp) st1 KT) as (sta & Hmk & Hc & _ & _ & Hg & HKd);
    [exact Hkdir|exact Hnf|exact Hshort|].
  change (cwd st1) with (cwd st) in Hc. change (files st1) with (files st) in Hg.
  (* the move *)
  assert (Hmv : shutil.move dp tp sta = (Ok tp, renamed kd kt c m sta)).
  { apply move_file; rewrite ?Hc; try done.
    - by apply (grown_stat _ _ _ _ _ Hg).
    - unfold kt. rewrite (grown_stat_off _ _ _ _ Hg) by apply snoc_not_prefix.
      done.
    - unfold kt. by rewrite parent_snoc.
    - unfold kt. by rewrite last_last. }
  destruct (log_sync_action_run "Moved to trash" dp (Some tp) None
              (renamed kd kt c m sta)) as [msg' Hlog].
  set (st2 := add_log (LogInfo msg') (renamed kd kt c m sta)) in *.
  assert (Hf2 : files st2 = <[kt := File c m]> (delete kd (files sta)))
    by reflexivity.
  (* the clean-up *)
  assert (Hcl : ∃ st3,
    (if py.truthy (py.get (config h) "cleanup_empty_dirs" (VBool true))
     then cleanup_empty_dirs h (dirname dp) else ret tt) st2 = (Ok tt, st3)
    ∧ cwd st3 = cwd st
    ∧ ∀ k, files st3 !! k = files st2 !! k
           ∨ (files st2 !! k = Some Dir ∧ files st3 !! k = None
              ∧ ∀ x c t, files st2 !! (k ++ [x]) ≠ Some (File c t))).
  { destruct (py.truthy _).
    - destruct (cleanup_spec (S (String.length (dirname dp))) h (dirname dp) st2)
        as (st3 & H3 & Hc3 & Hf3).
      exists st3. split; [exact H3|]. split; [by rewrite Hc3|done].
    - exists st2. split; [done|]. split; [done|]. by left. }
  destruct Hcl as (st3 & Hcl & Hc3 & Hf3).
  exists (set_is_syncing false st3). split; [|split; [|split]].
  - unfold handle_delete. eapply try_finally_run.
    erewrite bind_ok by reflexivity.
    erewrite bind_ok by (unfold os.path_relpath; cbn [cwd set_is_syncing];
                         by rewrite Hrel).
    fold dp st0.
    erewrite bind_ok by (by eapply (path_exists_some st0), Hdst).
    cbn [negb]. rewrite Hdry.
    erewrite bind_ok by (by apply setting_run).
    change (py.eq_str (VStr "trash") "trash") with true. cbv iota.
    erewrite bind_ok; [exact Hcl|].
    erewrite bind_ok by exact Hgt.
    erewrite bind_ok by exact Hmk.
    erewrite bind_ok by exact Hmv.
    exact Hlog.
  - unfold os.stat. cbn [cwd files set_is_syncing]. rewrite Hc3, Hkd.
    assert (os.stat_key (files st3) kd = files st3 !! kd) as ->
      by apply stat_key_snoc.
    destruct (Hf3 kd) as [->|(_ & -> & _)]; [|done].
    rewrite Hf2, lookup_insert_ne, lookup_delete_eq by done. done.
  - unfold os.stat. cbn [cwd files set_is_syncing]. rewrite Hc3, Hkt.
    assert (os.stat_key (files st3) kt = files st3 !! kt) as ->
      by apply stat_key_snoc.
    destruct (Hf3 kt) as [->|(E & _)].
    + by rewrite Hf2, lookup_insert_eq.
    + by rewrite Hf2, lookup_insert_eq in E.
  - unfold os.stat. cbn [cwd files set_is_syncing]. rewrite Hc3, HKT.
    destruct (decide (KT = [])) as [->|HKne]; [done|].
    assert (os.stat_key (files st3) KT = files st3 !! KT) as ->
      by by destruct KT.
    assert (HK2 : files st2 !! KT = Some Dir).
    { rewrite Hf2, lookup_insert_ne.
      - rewrite lookup_delete_ne.
        + destruct KT; [done|exact HKd].
        + intros <-. by destruct (Hnf kd c m).
      - unfold kt. intros E. apply (f_equal length) in E.
        rewrite length_app in E. simpl in E. lia. }
    destruct (Hf3 KT) as [->|(_ & _ & E)]; [done|].
    destruct (E tn c m). fold kt. by rewrite Hf2, lookup_insert_eq.
Qed.


(** ** Failures in the initial pass *)

Lemma sync_worker_run h now src st :
  match sync_file h now src st with
  | (Ok _, st') => main.sync_worker h now src st = (Ok true, st')
  | (Raise e, st') =>
      main.sync_worker h now src st
      = (Ok false,
         add_log (LogError ("Error syncing " +:+ src +:+ ": "
                            +:+ main.exn_text e)) st')
  end.
Proof.
  unfold main.sync_worker, try_except, bind.
  by destruct (sync_file h now src st) as [[[]|e] st'].
Qed.

Lemma sync_all_cons h clock src rest st :
  main.sync_all h clock (src :: rest) st
  = main.sync_all h clock rest
      (snd (main.sync_worker h (clock src) src st)).
Proof.
  unfold main.sync_all. cbn [main.for_each].
  unfold bind at 1, try_except, bind at 1.
  pose proof (sync_worker_run h (clock src) src st) as H.
  by destruct (sync_file h (clock src) src st) as [[[]|e] st']; rewrite H.
Qed.

Lemma sync_all_returns h clock l st :
  fst (main.sync_all h clock l st) = Ok tt.
Proof.
  revert st. induction l as [|src rest IH]; intros st; [done|].
  by rewrite sync_all_cons.
Qed.

Lemma sync_all_app h clock l1 l2 st :
  main.sync_all h clock (l1 ++ l2) st
  = main.sync_all h clock l2 (snd (main.sync_all h clock l1 st)).
Proof.
  revert st. induction l1 as [|src rest IH]; intros st; [done|].
  simpl app. by rewrite !sync_all_cons, IH.
Qed.

(** C5 (amended). In the initial pass every call of [sync_file] runs
    inside [sync_worker], which returns whatever the call does: when
    the call raises, the worker logs the error and returns False. So
    the pass over the files returns, and a file is handled from the
    state its predecessors left, whether they failed or not. *)
Theorem a_failed_file_does_not_stop_the_pass h clock :
  (∀ now src st,
     ∃ b st', main.sync_worker h now src st = (Ok b, st')
       ∧ (b = false ↔ ∃ e, fst (sync_file h now src st) = Raise e)
       ∧ (∀ e, fst (sync_file h now src st) = Raise e →
            log st' = log (snd (sync_file h now src st))
                      ++ [LogError ("Error syncing " +:+ src +:+ ": "
                                    +:+ main.exn_text e)]))
  ∧ (∀ l st, fst (main.sync_all h clock l st) = Ok tt)
  ∧ (∀ l1 src l2 st,
       main.sync_all h clock (l1 ++ src :: l2) st
       = main.sync_all h clock l2
           (snd (main.sync_worker h (clock src) src
              (snd (main.sync_all h clock l1 st))))).
Proof.
  split; [|split].
  - intros now src st. pose proof (sync_worker_run h now src st) as H.
    destruct (sync_file h now src st) as [[[]|e] st']; rewrite H.
    + exists true, st'. split; [done|]. split.
      * split; [done|]. by intros [e ?].
      * by intros e.
    + eexists false, _. split; [done|]. split.
      * split; [by eauto|done].
      * intros e' [= ->]. done.
  - apply sync_all_returns.
  - intros l1 src l2 st. by rewrite sync_all_app, sync_all_cons.
Qed.

(** ** Dry runs *)

Lemma quiet_refl st : quiet st st.
Proof. by unfold quiet. Qed.

Lemma quiet_trans st1 st2 st3 : quiet st1 st2 → quiet st2 st3 → quiet st1 st3.
Proof. unfold quiet. intros (-> & -> & ->) (-> & -> & ->). done. Qed.

Lemma reads_ret {A} (a : A) : reads (ret a).
Proof. intros st. apply quiet_refl. Qed.

Lemma reads_raise {A} e : reads (@raise A e).
Proof. intros st. apply quiet_refl. Qed.

Lemma reads_lift {A} (r : result A) : reads (lift r).
Proof. intros st. apply quiet_refl. Qed.

Lemma reads_bind {A B} (m : M A) (f : A → M B) :
  reads m → (∀ a, reads (f a)) → reads (bind m f).
Proof.
  intros Hm Hf st. unfold bind. specialize (Hm st).
  destruct (m st) as [[a|e] st1]; [|exact Hm].
  eapply quiet_trans; [exact Hm|apply Hf].
Qed.

Lemma reads_try_except {A} (body : M A) catches handler :
  reads body → (∀ e, reads (handler e)) → reads (try_except body catches handler).
Proof.
  intros Hm Hf st. unfold try_except. specialize (Hm st).
  destruct (body st) as [[a|e] st1]; [exact Hm|].
  destruct (catches e); [|exact Hm].
  eapply quiet_trans; [exact Hm|apply Hf].
Qed.

Lemma reads_try_finally {A} (body : M A) final :
  reads body → reads final → reads (try_finally body final).
Proof.
  intros Hm Hf st. unfold try_finally. specialize (Hm st).
  destruct (body st) as [r st1]. specialize (Hf st1).
  destruct (final st1) as [[u|e] st2]; eapply quiet_trans; eauto.
Qed.

Lemma reads_modify f : (∀ st, quiet st (f st)) → reads (modify f).
Proof. intros H st. apply H. Qed.

Lemma reads_flag b : reads (modify (set_is_syncing b)).
Proof. by apply reads_modify. Qed.

Lemma reads_logging_info msg : reads (utils.logging_info msg).
Proof. by apply reads_modify. Qed.

Lemma reads_path_relpath p start : reads (os.path_relpath p start).
Proof.
  intros st. unfold os.path_relpath.
  destruct (relpath (cwd st) p start); apply quiet_refl.
Qed.

Lemma reads_path_exists p : reads (os.path_exists p).
Proof. intros st. apply quiet_refl. Qed.

Lemma reads_path_abspath p : reads (os.path_abspath p).
Proof. intros st. apply quiet_refl. Qed.

Lemma reads_path_getmtime p : reads (os.path_getmtime p).
Proof.
  intros st. unfold os.path_getmtime.
  destruct (os.stat st p) as [[c t|]|]; apply quiet_refl.
Qed.

Lemma reads_open_rb p : reads (os.open_rb p).
Proof.
  intros st. unfold os.open_rb.
  destruct (os.stat st p) as [[c t|]|]; apply quiet_refl.
Qed.

Lemma reads_calculate_file_hash p : reads (utils.calculate_file_hash p).
Proof.
  apply reads_bind; [apply reads_open_rb|intros data; apply reads_ret].
Qed.

Lemma reads_files_are_identical p q : reads (files_are_identical p q).
Proof.
  apply reads_try_except; [|intros e; apply reads_ret].
  apply reads_bind; [apply reads_calculate_file_hash|intros h1].
  apply reads_bind; [apply reads_calculate_file_hash|intros h2].
  apply reads_ret.
Qed.

Lemma reads_log_sync_action action src dst details :
  reads (utils.log_sync_action action src dst details).
Proof.
  apply reads_bind; [apply reads_path_abspath|intros a].
  apply reads_bind; [|intros msg; apply reads_logging_info].
  destruct (utils.truthy_str dst); [|apply reads_ret].
  apply reads_bind; [apply reads_path_abspath|intros b; apply reads_ret].
Qed.

Lemma reads_setting h key : reads (setting h key).
Proof.
  unfold setting. destruct (conflict_settings h !! key);
    [apply reads_ret|apply reads_raise].
Qed.

Lemma reads_should_exclude h p : reads (should_exclude h p).
Proof.
  apply reads_bind; [apply reads_path_relpath|intros rel].
  destruct (_ && _); apply reads_ret.
Qed.

Lemma reads_get_duplicate_path h now p : reads (get_duplicate_path h now p).
Proof.
  unfold get_duplicate_path. destruct (splitext p) as [base_path ext].
  apply reads_bind; [apply reads_setting|intros fmt].
  apply reads_bind; [|intros n; apply reads_ret].
  destruct fmt; try apply reads_raise. apply reads_lift.
Qed.

(** With dry-run on, [handle_delete] changes nothing in the tree,
    whatever it ends with. *)
Lemma handle_delete_dry_run h now src :
  dry_run h = true → reads (handle_delete h now src).
Proof.
  intros Hdry. unfold handle_delete.
  apply reads_try_finally; [|apply reads_flag].
  apply reads_bind; [apply reads_flag|intros _].
  apply reads_bind; [apply reads_path_relpath|intros rel].
  apply reads_bind; [apply reads_path_exists|intros there].
  destruct there; cbn [negb]; [|apply reads_ret].
  rewrite Hdry. apply reads_log_sync_action.
Qed.

(** With dry-run on, [sync_file] changes nothing in the tree unless
    the path is not excluded and has no destination counterpart; this
    is the one branch that does not look at [dry_run]. *)
Lemma sync_file_dry_run h now src st :
  dry_run h = true →
  quiet st (snd (sync_file h now src st))
  ∨ ∃ rel, relpath (cwd st) src (source_dir h) = Some rel
      ∧ excluded h rel = false
      ∧ os.stat st (join (destination_dir h) rel) = None.
Proof.
  intros Hdry.
  destruct (relpath (cwd st) src (source_dir h)) as [rel|] eqn:Hrel.
  2:{ left. unfold sync_file.
      erewrite try_finally_run; cycle 1.
      { erewrite bind_ok by reflexivity. apply bind_raise.
        unfold os.path_relpath. cbn [cwd set_is_syncing]. by rewrite Hrel. }
      by unfold quiet. }
  destruct (excluded h rel) eqn:Hex.
  { left. unfold sync_file.
    erewrite try_finally_run; cycle 1.
    { erewrite bind_ok by reflexivity.
      erewrite bind_ok by (unfold os.path_relpath; cbn [cwd set_is_syncing];
                           by rewrite Hrel).
      erewrite bind_ok by (by apply should_exclude_run).
      by rewrite Hex. }
    by unfold quiet. }
  destruct (os.stat st (join (destination_dir h) rel)) as [x|] eqn:Hdst;
    [left|right; eauto].
  set (st1 := set_is_syncing true st).
  assert (quiet st st1) as Hq by by unfold quiet.
  unfold sync_file.
  match goal with
  | |- quiet _ (snd (try_finally ?b ?f st)) =>
      destruct (try_finally b f st) as [r st'] eqn:Hrun
  end.
  apply try_finally_inv in Hrun as (st2 & Hrun & ->).
  erewrite bind_ok in Hrun by reflexivity.
  erewrite bind_ok in Hrun
    by (unfold os.path_relpath; cbn [cwd set_is_syncing]; by rewrite Hrel).
  erewrite bind_ok in Hrun by (by apply should_exclude_run).
  rewrite Hex in Hrun. cbv iota in Hrun.
  erewrite bind_ok in Hrun by (by apply (path_exists_some _ _ x)).
  cbv iota in Hrun. fold st1 in Hrun.
  cbn [snd]. apply (quiet_trans _ st2); [|by unfold quiet].
  apply (quiet_trans _ st1); [exact Hq|].
  replace st2 with (snd (r, st2)) by reflexivity. rewrite <- Hrun.
  generalize st1. clear - Hdry.
  apply reads_bind; [apply reads_files_are_identical|intros same].
  destruct same; [apply reads_ret|].
  apply reads_bind; [apply reads_setting|intros policy].
  destruct (py.eq_str policy "keep_both").
  - apply reads_bind; [apply reads_get_duplicate_path|intros new_dest_path].
    rewrite Hdry. apply reads_log_sync_action.
  - apply reads_bind; [apply reads_setting|intros policy'].
    destruct (py.eq_str policy' "keep_newest").
    + apply reads_bind; [apply reads_path_getmtime|intros ts].
      apply reads_bind; [apply reads_path_getmtime|intros td].
      rewrite Hdry. cbn [negb]. destruct (ts >? td)%Z; apply reads_ret.
    + rewrite Hdry. cbn [negb]. apply reads_log_sync_action.
Qed.

(** ** The recursion of [cleanup_empty_dirs] *)

Lemma rstrip_sep_length s : String.length (rstrip_sep s) ≤ String.length s.
Proof.
  induction s as [|c s IH]; [done|]. cbn [rstrip_sep].
  destruct (rstrip_sep s) as [|c' r].
  - destruct (is_sep c); cbn [String.length]; lia.
  - cbn [String.length] in *. lia.
Qed.

Lemma split_sep_all_sep s :
  all_sep s = true → split_sep s = repeat "" (S (String.length s)).
Proof.
  induction s as [|c s IH]; [done|]. cbn [all_sep split_sep String.length].
  intros [Hc Hs]%andb_prop. rewrite Hc, (IH Hs). reflexivity.
Qed.

(** A path of slashes only leads to the root. *)
Lemma resolve_all_sep wd d :
  all_sep d = true → os.resolve wd d = None ∨ os.resolve wd d = Some [].
Proof.
  intros Hall. destruct d as [|c d]; [by left|right].
  assert (isabs (String c d) = true) as Habs.
  { rewrite isabs_cons. cbn [all_sep] in Hall. by apply andb_prop in Hall as [? _]. }
  rewrite (resolve_abs _ _ Habs), (split_sep_all_sep _ Hall).
  by rewrite norm_comps_empties.
Qed.

(** [os.path.dirname] is shorter than its argument, unless that is
    made of slashes only. *)
Lemma dirname_shorter s :
  all_sep s = false → String.length (dirname s) < String.length s.
Proof.
  intros Hall. unfold dirname.
  destruct (has_sep s) eqn:Hsep.
  - destruct (has_sep_split s Hsep) as (a & b & -> & Hb).
    rewrite (rsplit_sep_app a b Hb). cbn [fst].
    rewrite !app_length_s. cbn [String.length].
    destruct (negb (String.eqb (a +:+ "/") "") && negb (all_sep (a +:+ "/")))
      eqn:Hh.
    + rewrite rstrip_sep_snoc. pose proof (rstrip_sep_length a). lia.
    + rewrite app_length_s. cbn [String.length].
      destruct b as [|c b]; [|cbn [String.length]; lia].
      exfalso. apply andb_false_iff in Hh as [Hh|Hh].
      * apply negb_false_iff, String.eqb_eq in Hh.
        by apply snoc_nonempty in Hh.
      * apply negb_false_iff in Hh. congruence.
  - rewrite (rsplit_sep_nosep s Hsep). cbn.
    destruct s; [done|]. cbn [String.length]. lia.
Qed.

Lemma rmdir_ok_not_all_sep d st u st' :
  os.rmdir d st = (Ok u, st') → all_sep d = false.
Proof.
  intros Hrm. destruct (all_sep d) eqn:Hall; [|done].
  unfold os.rmdir in Hrm.
  by destruct (resolve_all_sep (cwd st) d Hall) as [E|E]; rewrite E in Hrm.
Qed.

(** The fuel that [cleanup_empty_dirs] starts with is never used up:
    with more of it the result is the same. *)
Lemma cleanup_fuel_enough n m h d st :
  String.length d < n → String.length d < m →
  cleanup_empty_dirs_fuel n h d st = cleanup_empty_dirs_fuel m h d st.
Proof.
  revert m d st. induction n as [|n IH]; intros m d st Hn Hm; [lia|].
  destruct m as [|m]; [lia|].
  cbn [cleanup_empty_dirs_fuel].
  apply bind_ext_at; intros there st1 _.
  destruct (negb there); [done|].
  destruct (String.eqb d (destination_dir h)); [done|].
  apply try_except_ext_at.
  apply bind_ext_at; intros names st2 _. destruct names; [|done].
  apply bind_ext_at; intros u st3 Hrm%rmdir_ok_not_all_sep%dirname_shorter.
  apply bind_ext_at; intros rel st4 _.
  apply bind_ext_at; intros _ st5 _.
  apply IH; lia.
Qed.

Lemma cleanup_fuel_more n h d st :
  String.length d < n →
  cleanup_empty_dirs_fuel n h d st = cleanup_empty_dirs h d st.
Proof. intros Hn. apply cleanup_fuel_enough; [done|lia]. Qed.


Import examples.


(** ** The engine on the example tree *)

Lemma init_gives_handler dry settings :
  fst (init "/src" "/dst" None
         (Some (<["conflict_resolution" := VDict settings]> ∅)) dry st0)
  = Ok (handler_of dry settings).
Proof.
  unfold init, bind, os.path_abspath, modify, ret. cbn [cwd st0 set_is_syncing].
  unfold py.get. rewrite lookup_insert_eq, lookup_insert_ne, lookup_empty by done.
  cbn. rewrite lookup_empty. cbn. rewrite (left_id_L ∅ (∪)).
  reflexivity.
Qed.

Lemma no_file_on_path_check m k :
  forallb (λ n, match os.stat_key m (take n k) with
                | Some (File _ _) => false
                | _ => true
                end) (seq 0 (S (length k))) = true →
  no_file_on_path m k.
Proof.
  intros H j c t [l ->] Hs. rewrite forallb_forall in H.
  specialize (H (length j)). rewrite take_app_length, Hs in H.
  assert (false = true); [|done]. apply H, in_seq.
  rewrite length_app. lia.
Qed.

Lemma dirs_to_check m j :
  forallb (λ n, match os.stat_key m (take n j) with
                | Some Dir => true
                | _ => false
                end) (seq 0 (S (length j))) = true →
  dirs_to m j.
Proof.
  intros H i [l ->]. rewrite forallb_forall in H.
  specialize (H (length i)). rewrite take_app_length in H.
  destruct (os.stat_key m i) as [[]|]; [|done|];
    (assert (false = true); [|done]); apply H, in_seq; rewrite length_app; lia.
Qed.

(** C1. With dry-run on and no destination counterpart, [sync_file]
    makes the directory and copies the file all the same. It is the
    one branch that does: see [sync_file_dry_run] and
    [handle_delete_dry_run]. *)
Theorem dry_run_still_copies_a_new_file :
  dry_run (handler_of true ∅) = true
  ∧ os.stat st0 "/dst/sub/n.txt" = None
  ∧ fst (sync_file (handler_of true ∅) now0 "/src/sub/n.txt" st0) = Ok tt
  ∧ ops (snd (sync_file (handler_of true ∅) now0 "/src/sub/n.txt" st0))
    = [OpMkdir ["dst"; "sub"]; OpWrite ["dst"; "sub"; "n.txt"]]
  ∧ os.stat (snd (sync_file (handler_of true ∅) now0 "/src/sub/n.txt" st0))
      "/dst/sub/n.txt"
    = Some (File (bytes "N") 50).
Proof. vm_compute. repeat split. Qed.

(** C4. A destination file is relativized against the source root: the
    orphan [/dst/b.txt], which is [b.txt] in its own tree and not
    excluded as such, is [../dst/b.txt] for [should_exclude], hence
    hidden, and the initial sync leaves it where it is. *)
Theorem destination_scan_relativizes_against_source :
  relpath (cwd st0) "/dst/b.txt" "/dst" = Some "b.txt"
  ∧ excluded (handler_of false ∅) "b.txt" = false
  ∧ relpath (cwd st0) "/dst/b.txt" (source_dir (handler_of false ∅))
    = Some "../dst/b.txt"
  ∧ should_exclude (handler_of false ∅) "/dst/b.txt" st0 = (Ok true, st0)
  ∧ os.stat st0 "/src/b.txt" = None
  ∧ os.stat
      (snd (main.perform_initial_sync "/src" "/dst" None ∅ false
              (λ _, now0) st0))
      "/dst/b.txt"
    = Some (File (bytes "B") 10).
Proof. vm_compute. repeat split. Qed.

(** C2, as stated, fails: with a duplicate format that renders the
    destination's own name, keep_both writes the source over the
    destination. *)
Lemma keep_both_same_name_overwrites :
  divergent st0 "/src/a.txt" "/dst/a.txt"
  ∧ conflict_settings (handler_of false same_name) !! "modified_files"
    = Some (VStr "keep_both")
  ∧ dry_run (handler_of false same_name) = false
  ∧ fst (sync_file (handler_of false same_name) now0 "/src/a.txt" st0) = Ok tt
  ∧ os.stat st0 "/dst/a.txt" = Some (File (bytes "Y") 100)
  ∧ os.stat (snd (sync_file (handler_of false same_name) now0 "/src/a.txt" st0))
      "/dst/a.txt"
    = Some (File (bytes "X") 200).
Proof.
  split.
  - exists (bytes "X"), 200%Z, (bytes "Y"), 100%Z.
    split; [reflexivity|]. split; [reflexivity|]. vm_compute. discriminate.
  - vm_compute. repeat split.
Qed.

(** C3, as stated, fails: under keep_both with dry-run off, on a
    divergent pair, the second call writes a duplicate as the first
    did, a new one a second later and the same one again within the
    second. *)
Lemma keep_both_writes_at_every_call :
  conflict_settings (handler_of false ∅) !! "modified_files"
  = Some (VStr "keep_both")
  ∧ dry_run (handler_of false ∅) = false
  ∧ fst (sync_file (handler_of false ∅) now0 "/src/a.txt" st0) = Ok tt
  ∧ ops (snd (sync_file (handler_of false ∅) now1 "/src/a.txt"
                (snd (sync_file (handler_of false ∅) now0 "/src/a.txt" st0))))
    = ops (snd (sync_file (handler_of false ∅) now0 "/src/a.txt" st0))
      ++ [OpWrite ["dst"; "a_20250107_093006.txt"]]
  ∧ ops (snd (sync_file (handler_of false ∅) now0 "/src/a.txt"
                (snd (sync_file (handler_of false ∅) now0 "/src/a.txt" st0))))
    = ops (snd (sync_file (handler_of false ∅) now0 "/src/a.txt" st0))
      ++ [OpWrite ["dst"; "a_20250107_093005.txt"]].
Proof. vm_compute. repeat split. Qed.

(** C5, as stated, fails: when the source has gone by the time of the
    copy, the error leaves [sync_file], and the handler of the event
    with it, and nothing is logged. *)
Lemma sync_file_lets_the_error_out :
  os.stat st0 "/src/gone.txt" = None
  ∧ sync_file (handler_of false ∅) now0 "/src/gone.txt" st0
    = (Raise FileNotFoundError, st0)
  ∧ on_created (handler_of false ∅) now0
      {| is_directory := false; src_path := "/src/gone.txt"; dest_path := "" |}
      st0
    = (Raise FileNotFoundError, st0).
Proof. vm_compute. repeat split. Qed.

(** C8, as stated, fails. When a regular file has the name of the
    trash directory, [os.makedirs] raises and the file stays where it
    was. When the base name is so long that the trash name is longer
    than 255 bytes, [shutil.move] raises and the file stays as well.
    When a directory has the trash name, the file is moved into that
    directory, under its own name. *)
Lemma trash_move_can_fail :
  conflict_settings (handler_of false ∅) !! "deleted_files"
  = Some (VStr "trash")
  ∧ dry_run (handler_of false ∅) = false
  ∧ os.stat st_trash_is_file "/dst/b.txt" = Some (File (bytes "B") 10)
  ∧ fst (handle_delete (handler_of false ∅) now0 "/src/b.txt" st_trash_is_file)
    = Raise FileExistsError
  ∧ os.stat
      (snd (handle_delete (handler_of false ∅) now0 "/src/b.txt"
              st_trash_is_file))
      "/dst/b.txt"
    = Some (File (bytes "B") 10)
  ∧ String.length long_name = 250
  ∧ os.stat st_long_name ("/dst/" +:+ long_name) = Some (File (bytes "L") 3)
  ∧ fst (handle_delete (handler_of false ∅) now0 ("/src/" +:+ long_name)
           st_long_name)
    = Raise OSError
  ∧ os.stat
      (snd (handle_delete (handler_of false ∅) now0 ("/src/" +:+ long_name)
              st_long_name))
      ("/dst/" +:+ long_name)
    = Some (File (bytes "L") 3)
  ∧ os.stat st_trash_name_taken "/dst/.trash/b_20250107_093005.txt" = Some Dir
  ∧ fst (handle_delete (handler_of false ∅) now0 "/src/b.txt"
           st_trash_name_taken)
    = Ok tt
  ∧ os.stat
      (snd (handle_delete (handler_of false ∅) now0 "/src/b.txt"
              st_trash_name_taken))
      "/dst/.trash/b_20250107_093005.txt"
    = Some Dir
  ∧ os.stat
      (snd (handle_delete (handler_of false ∅) now0 "/src/b.txt"
              st_trash_name_taken))
      "/dst/.trash/b_20250107_093005.txt/b.txt"
    = Some (File (bytes "B") 10).
Proof. vm_compute. repeat split. Qed.


(** ** The theorems at the example tree *)

(** C2 at the default duplicate format. *)
Lemma keep_both_keeps_the_original_witness :
  os.stat (snd (sync_file (handler_of false ∅) now0 "/src/a.txt" st0))
    "/dst/a.txt"
  = Some (File (bytes "Y") 100)
  ∧ os.stat (snd (sync_file (handler_of false ∅) now0 "/src/a.txt" st0))
      "/dst/a_20250107_093005.txt"
    = Some (File (bytes "X") 200).
Proof.
  apply (keep_both_keeps_the_original (handler_of false ∅) now0 "/src/a.txt"
           st0 "a.txt" "{original_name}_{timestamp}{ext}"
           "a_20250107_093005.txt" (bytes "X") 200 (bytes "Y") 100).
  - reflexivity.
  - reflexivity.
  - reflexivity.
  - reflexivity.
  - vm_compute. reflexivity.
  - vm_compute. reflexivity.
  - reflexivity.
  - reflexivity.
  - vm_compute. discriminate.
  - vm_compute. reflexivity.
  - repeat split; vm_compute; discriminate.
  - vm_compute. discriminate.
  - vm_compute. discriminate.
  - vm_compute. reflexivity.
Defined.

(** C3 under keep_both on a dry run. *)
Lemma second_sync_performs_no_write_witness :
  ∃ st2,
    sync_file (handler_of true ∅) now1 "/src/a.txt"
      (snd (sync_file (handler_of true ∅) now0 "/src/a.txt" st0))
    = (Ok tt, st2)
    ∧ files st2
      = files (snd (sync_file (handler_of true ∅) now0 "/src/a.txt" st0))
    ∧ ops st2
      = ops (snd (sync_file (handler_of true ∅) now0 "/src/a.txt" st0)).
Proof.
  destruct (second_sync_performs_no_write (handler_of true ∅) now0 now1
              "/src/a.txt" st0 "a.txt" (VStr "keep_both")
              (snd (sync_file (handler_of true ∅) now0 "/src/a.txt" st0)))
    as [Hno _].
  - vm_compute. reflexivity.
  - reflexivity.
  - vm_compute. reflexivity.
  - apply Hno.
    + reflexivity.
    + repeat split; vm_compute; discriminate.
    + vm_compute. discriminate.
    + right. right. left. reflexivity.
Defined.

(** C5 on a pass whose first file has gone: the worker returns False
    and the pass goes on to the second file and returns. *)
Lemma a_failed_file_does_not_stop_the_pass_witness :
  (∃ st', main.sync_worker (handler_of false ∅) now0 "/src/gone.txt" st0
          = (Ok false, st'))
  ∧ fst (main.sync_all (handler_of false ∅) (λ _, now0)
           ["/src/gone.txt"; "/src/sub/n.txt"] st0) = Ok tt.
Proof.
  destruct (a_failed_file_does_not_stop_the_pass (handler_of false ∅)
              (λ _, now0)) as (Hw & Hall & _).
  split; [|exact (Hall ["/src/gone.txt"; "/src/sub/n.txt"] st0)].
  destruct (Hw now0 "/src/gone.txt" st0) as (b & st' & Hrun & Hb & _).
  exists st'. rewrite Hrun. f_equal. f_equal. apply Hb.
  exists FileNotFoundError. vm_compute. reflexivity.
Defined.

(** C6 with overwrite set globally and delete set for the pair. *)
Lemma conflict_policy_is_layered_witness :
  ∃ h st',
    init "/src" "/dst" None
      (Some (main.sync_pair_settings
               (<["conflict_resolution" := VDict overwrite]> ∅)
               (<["conflict_resolution" :=
                    VDict (<["deleted_files" := VStr "delete"]> ∅)]> ∅)))
      false st0
    = (Ok h, st')
    ∧ conflict_settings h !! "deleted_files" = Some (VStr "delete")
    ∧ conflict_settings h !! "modified_files" = Some (VStr "overwrite")
    ∧ conflict_settings h !! "trash_dir" = Some (VStr ".trash").
Proof.
  destruct (conflict_policy_is_layered "/src" "/dst" None
              (<["conflict_resolution" := VDict overwrite]> ∅)
              (<["conflict_resolution" :=
                   VDict (<["deleted_files" := VStr "delete"]> ∅)]> ∅)
              false overwrite (<["deleted_files" := VStr "delete"]> ∅) st0)
    as (h & st' & Hinit & Hget & _).
  - left. reflexivity.
  - left. reflexivity.
  - exists h, st'. split; [exact Hinit|]. rewrite !Hget.
    repeat split; reflexivity.
Defined.


(** C8 for the orphan of the example. *)
Lemma trash_moves_the_destination_file_witness :
  ∃ st',
    handle_delete (handler_of false ∅) now0 "/src/b.txt" st0 = (Ok tt, st')
    ∧ os.stat st' "/dst/b.txt" = None
    ∧ os.stat st' "/dst/.trash/b_20250107_093005.txt"
      = Some (File (bytes "B") 10)
    ∧ os.stat st' "/dst/.trash" = Some Dir.
Proof.
  apply (trash_moves_the_destination_file (handler_of false ∅) now0
           "/src/b.txt" st0 "b.txt" ".trash" (bytes "B") 10 ["dst"; ".trash"]).
  - reflexivity.
  - reflexivity.
  - reflexivity.
  - reflexivity.
  - vm_compute. reflexivity.
  - reflexivity.
  - repeat split; vm_compute; discriminate.
  - vm_compute. reflexivity.
  - apply no_file_on_path_check. vm_compute. reflexivity.
  - vm_compute. discriminate.
  - reflexivity.
  - reflexivity.
  - vm_compute. reflexivity.
Defined.

(** C10 on the example tree with a hidden directory in the source. *)
Lemma skip_hidden_is_the_default_witness :
  should_exclude (handler_of false ∅) "/src/.git/config" st_hidden
  = (Ok true, st_hidden)
  ∧ (".git" ∈ main.prune ∅ ["a"; ".git"; "b"] → False)
  ∧ os.stat st_hidden "/src/.git/config" = Some (File (bytes "C") 5)
  ∧ ("/src/.git/config"
     ∈ main.walked_files
         (main.walk_fuel (S (size (files st_hidden))) (main.prune ∅)
            st_hidden "/src") → False)
  ∧ main.walked_files
      (main.walk_fuel (S (size (files st_hidden))) (main.prune ∅)
         st_hidden "/src")
    = ["/src/a.txt"; "/src/sub/n.txt"]
  ∧ main.walked_files
      (main.walk_fuel (S (size (files st_hidden)))
         (main.prune (<["skip_hidden" := VBool false]> ∅)) st_hidden "/src")
    = ["/src/a.txt"; "/src/.git/config"; "/src/sub/n.txt"].
Proof.
  destruct (skip_hidden_is_the_default (handler_of false ∅) ∅)
    as (Hex & Hprune & _ & Hwalk & _).
  - reflexivity.
  - reflexivity.
  - split; [|split; [|split; [|split; [|split]]]];
      [| | | |vm_compute; reflexivity..].
    + apply (Hex "/src/.git/config" st_hidden ".git/config").
      * vm_compute. reflexivity.
      * vm_compute. reflexivity.
    + intros [_ H]%Hprune. discriminate H.
    + vm_compute. reflexivity.
    + intros Hin.
      destruct (Hwalk (S (size (files st_hidden))) st_hidden "/src" ["src"])
        as [_ Hfiles].
      * reflexivity.
      * apply plain_names_check. vm_compute. reflexivity.
      * vm_compute. reflexivity.
      * destruct (Hfiles _ Hin) as (ds & name & Hr & Hds).
        assert (E : os.resolve (cwd st_hidden) "/src/.git/config"
                    = Some ["src"; ".git"; "config"]) by (vm_compute; reflexivity).
        rewrite E in Hr. injection Hr as Hr.
        destruct ds as [|d [|d' ds]].
        -- discriminate Hr.
        -- injection Hr as <- <-. inversion Hds as [|? ? Hd _]. discriminate Hd.
        -- destruct ds; discriminate Hr.
Defined.

(** * Further properties of the engine *)

(** ** Digests and comparison *)

(** X1. [calculate_file_hash] feeds the hasher every byte of the
    file, once and in order, however many reads of 65536 bytes that
    takes, and returns the digest. On a directory it raises
    [IsADirectoryError]. On a path at which nothing is found it raises
    an [OSError], the one of the walk to the path: where the walk has
    come through directories to a regular file and has to go on below
    it, [NotADirectoryError]; where it has come to a name that is not
    there, [FileNotFoundError], or the plain [OSError] of ENAMETOOLONG
    when the name is longer than 255 bytes. The state is as it was.
    The path is one in normal form, without NUL byte and shorter than
    PATH_MAX. *)
Theorem hash_covers_the_whole_file p st :
  os.is_path p = true →
  utils.calculate_file_hash p st
  = match os.stat st p with
    | Some (File c _) =>
        (Ok (hashlib.hexdigest (hashlib.update hashlib.md5 c)), st)
    | Some Dir => (Raise IsADirectoryError, st)
    | None => (Raise (os.missing st p), st)
    end
  ∧ is_OSError (os.missing st p) = true
  ∧ (∀ j name rest,
       os.resolve (cwd st) p = Some (j ++ name :: rest) →
       dirs_to (files st) j →
       (∀ c t, os.stat_key (files st) (j ++ [name]) = Some (File c t) →
               rest ≠ [] → os.missing st p = NotADirectoryError)
       ∧ (os.stat_key (files st) (j ++ [name]) = None →
          os.missing st p
          = if os.name_ok name then FileNotFoundError else OSError)).
Proof.
  intros _. split; [|split; [apply is_OSError_missing|]].
  - destruct (os.stat st p) as [[c t|]|] eqn:Hp.
    + by apply calculate_file_hash_file with (t := t).
    + unfold utils.calculate_file_hash. apply bind_raise.
      unfold os.open_rb. by rewrite Hp.
    + unfold utils.calculate_file_hash. apply bind_raise.
      unfold os.open_rb. by rewrite Hp.
  - intros j name rest Hk Hdirs. unfold os.missing. rewrite Hk.
    by apply lookup_error_at.
Qed.

Lemma hash_covers_the_whole_file_witness :
  utils.calculate_file_hash "/src/a.txt" st0
  = (Ok (hashlib.md5_hexdigest (bytes "X")), st0)
  ∧ utils.calculate_file_hash "/src/a.txt/x" st0
    = (Raise NotADirectoryError, st0)
  ∧ utils.calculate_file_hash ("/src/" +:+ long_name +:+ long_name) st0
    = (Raise OSError, st0)
  ∧ utils.calculate_file_hash "/src/nothing/x" st0
    = (Raise FileNotFoundError, st0).
Proof.
  split; [|split; [|split]].
  - destruct (hash_covers_the_whole_file "/src/a.txt" st0) as (H & _).
    { vm_compute. reflexivity. }
    rewrite H. vm_compute. reflexivity.
  - destruct (hash_covers_the_whole_file "/src/a.txt/x" st0) as (H & _ & Herr).
    { vm_compute. reflexivity. }
    rewrite H.
    destruct (Herr ["src"] "a.txt" ["x"]) as [Hfile _].
    { vm_compute. reflexivity. }
    { apply dirs_to_check. vm_compute. reflexivity. }
    rewrite (Hfile (bytes "X") 200%Z); [|vm_compute; reflexivity|done].
    vm_compute. reflexivity.
  - destruct (hash_covers_the_whole_file ("/src/" +:+ long_name +:+ long_name)
                st0) as (H & _ & Herr).
    { vm_compute. reflexivity. }
    rewrite H.
    destruct (Herr ["src"] (long_name +:+ long_name) []) as [_ Hnone].
    { vm_compute. reflexivity. }
    { apply dirs_to_check. vm_compute. reflexivity. }
    rewrite Hnone by (vm_compute; reflexivity).
    vm_compute. reflexivity.
  - destruct (hash_covers_the_whole_file "/src/nothing/x" st0) as (H & _ & Herr).
    { vm_compute. reflexivity. }
    rewrite H.
    destruct (Herr ["src"] "nothing" ["x"]) as [_ Hnone].
    { vm_compute. reflexivity. }
    { apply dirs_to_check. vm_compute. reflexivity. }
    rewrite Hnone by (vm_compute; reflexivity).
    vm_compute. reflexivity.
Defined.

(** X2. [files_are_identical] never raises and changes nothing: it
    returns True exactly when both paths are regular files with the
    same MD5 digest, whatever their modification times, and False
    when either is missing or is a directory. *)
Theorem files_are_identical_decides_by_digest f1 f2 st :
  ∃ b, files_are_identical f1 f2 st = (Ok b, st)
    ∧ (b = true ↔
       ∃ c1 t1 c2 t2,
         os.stat st f1 = Some (File c1 t1)
         ∧ os.stat st f2 = Some (File c2 t2)
         ∧ hashlib.md5_hexdigest c1 = hashlib.md5_hexdigest c2).
Proof.
  exists (identical st f1 f2). split; [apply files_are_identical_run|].
  unfold identical.
  destruct (os.stat st f1) as [[c1 t1|]|], (os.stat st f2) as [[c2 t2|]|];
    try (split; [done|by intros (? & ? & ? & ? & ? & ? & ?)]).
  rewrite String.eqb_eq. split.
  - intros E. by exists c1, t1, c2, t2.
  - by intros (? & ? & ? & ? & [= -> ->] & [= -> ->] & E).
Qed.

(** ** What [sync_file] and [handle_delete] leave alone *)

(** X3. [sync_file] on an excluded path returns at once: nothing is
    read from the destination, nothing is written or logged, whatever
    the policy and whether the destination differs or not. *)
Theorem excluded_path_is_not_synced h now src st rel :
  relpath (cwd st) src (source_dir h) = Some rel →
  excluded h rel = true →
  sync_file h now src st = (Ok tt, set_is_syncing false st).
Proof.
  intros Hrel Hex. unfold sync_file.
  erewrite try_finally_run; cycle 1.
  { erewrite bind_ok by reflexivity.
    erewrite bind_ok by (unfold os.path_relpath; cbn [cwd set_is_syncing];
                         by rewrite Hrel).
    erewrite bind_ok by (by apply should_exclude_run).
    by rewrite Hex. }
  reflexivity.
Qed.

Lemma excluded_path_is_not_synced_witness :
  sync_file (handler_of false ∅) now0 "/src/.cache/a.txt" st0
  = (Ok tt, set_is_syncing false st0).
Proof.
  apply (excluded_path_is_not_synced _ _ _ _ ".cache/a.txt"); reflexivity.
Defined.

(** X4. When the destination counterpart is a regular file with the
    digest of the source, [sync_file] returns without writing or
    logging, under every policy and with dry-run on or off; the
    modification times play no part. *)
Theorem identical_destination_is_left_alone h now src st rel c t c' t' :
  relpath (cwd st) src (source_dir h) = Some rel →
  excluded h rel = false →
  os.stat st src = Some (File c t) →
  os.stat st (join (destination_dir h) rel) = Some (File c' t') →
  hashlib.md5_hexdigest c = hashlib.md5_hexdigest c' →
  sync_file h now src st = (Ok tt, set_is_syncing false st).
Proof.
  intros Hrel Hex Hs Hd Hsame. unfold sync_file.
  erewrite try_finally_run; cycle 1.
  { erewrite bind_ok by reflexivity.
    erewrite bind_ok by (unfold os.path_relpath; cbn [cwd set_is_syncing];
                         by rewrite Hrel).
    erewrite bind_ok by (by apply should_exclude_run).
    rewrite Hex. cbv iota.
    erewrite bind_ok by (by eapply path_exists_some).
    cbv iota.
    erewrite bind_ok by apply files_are_identical_run.
    set (st1 := set_is_syncing true st).
    assert (identical st1 src (join (destination_dir h) rel) = true) as ->;
      [|reflexivity].
    unfold identical.
    change (os.stat st1) with (os.stat st). rewrite Hs, Hd.
    by apply String.eqb_eq. }
  reflexivity.
Qed.

Lemma identical_destination_is_left_alone_witness :
  sync_file (handler_of false keep_newest) now0 "/src/a.txt" st_same
  = (Ok tt, set_is_syncing false st_same).
Proof.
  apply (identical_destination_is_left_alone (handler_of false keep_newest)
           now0 "/src/a.txt" st_same "a.txt" (bytes "X") 200 (bytes "X") 7);
    reflexivity.
Defined.

(** X5. [handle_delete] for a path whose destination counterpart does
    not exist does nothing at all, with dry-run on or off. *)
Theorem deleting_what_was_never_synced_is_a_noop h now src st rel :
  relpath (cwd st) src (source_dir h) = Some rel →
  os.stat st (join (destination_dir h) rel) = None →
  handle_delete h now src st = (Ok tt, set_is_syncing false st).
Proof.
  intros Hrel Hd. unfold handle_delete.
  erewrite try_finally_run; cycle 1.
  { erewrite bind_ok by reflexivity.
    erewrite bind_ok by (unfold os.path_relpath; cbn [cwd set_is_syncing];
                         by rewrite Hrel).
    erewrite bind_ok by (by apply path_exists_none).
    reflexivity. }
  reflexivity.
Qed.

Lemma deleting_what_was_never_synced_is_a_noop_witness :
  handle_delete (handler_of false ∅) now0 "/src/sub/n.txt" st0
  = (Ok tt, set_is_syncing false st0).
Proof.
  apply (deleting_what_was_never_synced_is_a_noop _ _ _ _ "sub/n.txt");
    reflexivity.
Defined.

(** X6. With dry-run on, [handle_delete] changes nothing in the tree,
    whatever the policy and whatever the call ends with. *)
Theorem dry_run_delete_changes_nothing h now src st :
  dry_run h = true →
  files (snd (handle_delete h now src st)) = files st
  ∧ ops (snd (handle_delete h now src st)) = ops st.
Proof.
  intros Hdry. destruct (handle_delete_dry_run h now src Hdry st) as (? & ? & _).
  done.
Qed.

Lemma dry_run_delete_changes_nothing_witness :
  files (snd (handle_delete (handler_of true ∅) now0 "/src/b.txt" st0))
  = files st0
  ∧ ops (snd (handle_delete (handler_of true ∅) now0 "/src/b.txt" st0))
    = ops st0.
Proof.
  apply (dry_run_delete_changes_nothing (handler_of true ∅)). reflexivity.
Defined.

(** X7. With dry-run on, [sync_file] changes nothing in the tree
    unless the path is not excluded and its destination counterpart
    does not exist: every branch but that one looks at [dry_run]. *)
Theorem dry_run_sync_changes_nothing_if_destination_exists h now src st :
  dry_run h = true →
  (files (snd (sync_file h now src st)) = files st
   ∧ ops (snd (sync_file h now src st)) = ops st)
  ∨ ∃ rel, relpath (cwd st) src (source_dir h) = Some rel
      ∧ excluded h rel = false
      ∧ os.stat st (join (destination_dir h) rel) = None.
Proof.
  intros Hdry. destruct (sync_file_dry_run h now src st Hdry) as [(? & ? & _)|?];
    [by left|by right].
Qed.

Lemma dry_run_sync_changes_nothing_if_destination_exists_witness :
  (files (snd (sync_file (handler_of true ∅) now0 "/src/a.txt" st0)) = files st0
   ∧ ops (snd (sync_file (handler_of true ∅) now0 "/src/a.txt" st0)) = ops st0)
  ∨ ∃ rel, relpath (cwd st0) "/src/a.txt" (source_dir (handler_of true ∅))
           = Some rel
      ∧ excluded (handler_of true ∅) rel = false
      ∧ os.stat st0 (join (destination_dir (handler_of true ∅)) rel) = None.
Proof.
  apply (dry_run_sync_changes_nothing_if_destination_exists (handler_of true ∅)).
  reflexivity.
Defined.

(** X8. [cleanup_empty_dirs] never raises and never touches a regular
    file: every entry is as it was, except directories that are gone,
    and those held no file. *)
Theorem cleanup_never_removes_a_file h d st :
  ∃ st', cleanup_empty_dirs h d st = (Ok tt, st')
    ∧ cwd st' = cwd st
    ∧ (∀ k c t, files st !! k = Some (File c t) →
                files st' !! k = Some (File c t))
    ∧ (∀ k, files st' !! k = files st !! k
            ∨ (files st !! k = Some Dir ∧ files st' !! k = None
               ∧ ∀ x c t, files st !! (k ++ [x]) ≠ Some (File c t))).
Proof.
  destruct (cleanup_spec (S (String.length d)) h d st) as (st' & Hrun & Hc & Hf).
  exists st'. split; [exact Hrun|]. split; [exact Hc|]. split; [|exact Hf].
  intros k c t Hk. destruct (Hf k) as [->|(E & _)]; [done|congruence].
Qed.

(** ** What [sync_file] writes *)

Lemma reads_run {A} (m : M A) st r st' :
  reads m → m st = (r, st') → files st' = files st ∧ cwd st' = cwd st.
Proof. intros Hm Hrun. destruct (Hm st) as (Hf & _ & Hc). by rewrite Hrun in Hf, Hc. Qed.

Lemma bind_fails {A B} (m : M A) (f : A → M B) st :
  (∀ a st', m st = (Ok a, st') → ∃ e, fst (f a st') = Raise e) →
  ∃ e, fst (bind m f st) = Raise e.
Proof.
  intros H. unfold bind. destruct (m st) as [[a|e] st']; [by apply H|by exists e].
Qed.

Lemma copy2_raises src dst st :
  (∀ c t, os.stat st src ≠ Some (File c t)) →
  ∃ e, shutil.copy2 src dst st = (Raise e, st).
Proof.
  intros Hno. destruct (shutil.copy2 src dst st) as [r st'] eqn:Hrun.
  destruct (copy2_cases _ _ _ _ _ Hrun)
    as [(e & -> & ->)|(c & t & k & tg & _ & Hs & _)]; [by exists e|].
  by destruct (Hno c t).
Qed.

Lemma makedirs_keeps_non_files p st r st' src :
  os.makedirs p st = (r, st') →
  (∀ c t, os.stat st src ≠ Some (File c t)) →
  ∀ c t, os.stat st' src ≠ Some (File c t).
Proof.
  intros Hmk Hno c t Hs.
  destruct (makedirs_spec _ _ _ _ Hmk) as (Hc & _ & _ & o & _ & Hg).
  apply (Hno c t). unfold os.stat in *. rewrite Hc in Hs.
  destruct (os.resolve (cwd st) src) as [ks|]; [|done].
  destruct (os.resolve (cwd st) p) as [k|].
  - destruct Hg as [Hg _]. by eapply grown_no_file.
  - destruct Hg as [_ Hf]. by rewrite Hf in Hs.
Qed.

(** X9. A file that is not excluded and has no destination counterpart
    is copied there, bytes and modification time, after the
    directories on the way were made, provided that the destination
    path ends in a plain name (not empty, [.] or [..]), that no
    regular file lies on the way to its directory, and that no name on
    the path is longer than 255 bytes, the path being one in normal
    form, without NUL byte and shorter than PATH_MAX; nothing that was
    in the tree is lost or changed. This holds with dry-run on as with
    dry-run off. *)
Theorem new_file_is_copied h now src st rel c t P :
  relpath (cwd st) src (source_dir h) = Some rel →
  excluded h rel = false →
  isabs (destination_dir h) = true →
  plain (basename (join (destination_dir h) rel)) →
  os.stat st src = Some (File c t) →
  os.stat st (join (destination_dir h) rel) = None →
  os.resolve (cwd st) (dirname (join (destination_dir h) rel)) = Some P →
  no_file_on_path (files st) P →
  forallb os.name_ok P = true →
  os.name_ok (basename (join (destination_dir h) rel)) = true →
  os.is_path (join (destination_dir h) rel) = true →
  ∃ st', sync_file h now src st = (Ok tt, st')
    ∧ os.stat st' (join (destination_dir h) rel) = Some (File c t)
    ∧ os.stat st' (dirname (join (destination_dir h) rel)) = Some Dir
    ∧ ∀ k x, files st !! k = Some x → files st' !! k = Some x.
Proof.
  intros Hrel Hex Habs Hplain Hsrc Hdst HP Hnf Hshort Hshort' _.
  set (dp := join (destination_dir h) rel) in *.
  set (st1 := set_is_syncing true st).
  assert (Hdabs : isabs dp = true) by by apply isabs_join.
  destruct (resolve_plain (cwd st) dp Hdabs Hplain) as (P' & HP' & Hkd).
  rewrite HP in HP'. injection HP' as <-.
  set (kd := P ++ [basename dp]) in *.
  assert (Hnone : files st !! kd = None).
  { rewrite (stat_resolved st _ _ Hkd) in Hdst.
    unfold kd in *. by rewrite stat_key_snoc in Hdst. }
  destruct (makedirs_ok (dirname dp) st1 P) as (sta & Hmk & Hc & _ & _ & Hg & HPd);
    [exact HP|exact Hnf|exact Hshort|].
  change (cwd st1) with (cwd st) in Hc. change (files st1) with (files st) in Hg.
  destruct (stat_inv _ _ _ Hsrc) as (ks & Hks & Hsk).
  assert (Hcp : shutil.copy2 src dp sta = (Ok dp, written kd c t sta)).
  { apply copy2_file; rewrite ?Hc; try done.
    - unfold os.stat. rewrite Hc, Hks. by apply (grown_stat _ _ _ _ _ Hg).
    - intros E. rewrite Hks in E. injection E as ->.
      apply stat_key_file in Hsk as [_ Hsk]. congruence.
    - right. split; [|split].
      + unfold kd. rewrite (grown_stat_off _ _ _ _ Hg) by apply snoc_not_prefix.
        rewrite stat_key_snoc. exact Hnone.
      + unfold kd. by rewrite parent_snoc.
      + unfold kd. by rewrite last_last. }
  destruct (log_sync_action_run "Synced" src (Some dp) None (written kd c t sta))
    as [msg Hlog].
  exists (set_is_syncing false (add_log (LogInfo msg) (written kd c t sta))).
  split; [|split; [|split]].
  - eapply sync_file_start; [exact Hrel|exact Hex|]. cbv zeta. fold dp.
    erewrite bind_ok by (by apply (path_exists_none st1)). cbv iota.
    erewrite bind_ok by exact Hmk.
    erewrite bind_ok by exact Hcp.
    exact Hlog.
  - unfold os.stat. cbn [cwd files set_is_syncing add_log written add_op set_files].
    rewrite Hc, Hkd. unfold kd. rewrite stat_key_snoc. by rewrite lookup_insert_eq.
  - unfold os.stat. cbn [cwd files set_is_syncing add_log written add_op set_files].
    rewrite Hc, HP. rewrite stat_key_insert by (unfold kd; by destruct P).
    destruct (decide (kd = P)) as [E|_]; [|exact HPd].
    exfalso. by apply (snoc_not_prefix P (basename dp)); fold kd; rewrite E.
  - intros k x Hk.
    cbn [files set_is_syncing add_log written add_op set_files].
    rewrite lookup_insert_ne by congruence.
    destruct (Hg k) as [->|(E & _)]; [done|congruence].
Qed.

Lemma new_file_is_copied_witness :
  ∃ st', sync_file (handler_of false ∅) now0 "/src/sub/n.txt" st0 = (Ok tt, st')
    ∧ os.stat st' (join (destination_dir (handler_of false ∅)) "sub/n.txt")
      = Some (File (bytes "N") 50)
    ∧ os.stat st'
        (dirname (join (destination_dir (handler_of false ∅)) "sub/n.txt"))
      = Some Dir
    ∧ ∀ k x, files st0 !! k = Some x → files st' !! k = Some x.
Proof.
  apply (new_file_is_copied (handler_of false ∅) now0 "/src/sub/n.txt" st0
           "sub/n.txt" (bytes "N") 50 ["dst"; "sub"]);
    try reflexivity.
  - vm_compute. repeat split; discriminate.
  - apply no_file_on_path_check. vm_compute. reflexivity.
Defined.



(** X11. When the source has gone, [sync_file] with dry-run off does
    not return: whatever the policy, the call ends with an
    exception. *)
Theorem vanished_source_makes_sync_file_raise h now src st rel :
  relpath (cwd st) src (source_dir h) = Some rel →
  excluded h rel = false →
  os.stat st src = None →
  dry_run h = false ∨ os.stat st (join (destination_dir h) rel) = None →
  ∃ e, fst (sync_file h now src st) = Raise e.
Proof.
  intros Hrel Hex Hsrc Hdry.
  set (dp := join (destination_dir h) rel) in *.
  set (st1 := set_is_syncing true st).
  assert (Hno : ∀ c t, os.stat st1 src ≠ Some (File c t)).
  { intros c t. change (os.stat st1) with (os.stat st). by rewrite Hsrc. }
  assert (Hcopy : ∀ (k : string → M unit) target stx,
             (∀ c t, os.stat stx src ≠ Some (File c t)) →
             ∃ e, fst ((let* x := shutil.copy2 src target in k x) stx) = Raise e).
  { intros k target stx Hx. destruct (copy2_raises src target stx Hx) as [e He].
    exists e. by erewrite bind_raise by exact He. }
  assert (Hmkcopy : ∀ (k : string → M unit) d target stx,
             (∀ c t, os.stat stx src ≠ Some (File c t)) →
             ∃ e, fst ((let* _ := os.makedirs d in
                        let* x := shutil.copy2 src target in k x) stx) = Raise e).
  { intros k d target stx Hx. apply bind_fails. intros [] sty Hmk.
    apply Hcopy. by eapply makedirs_keeps_non_files. }
  assert (Hbody : ∃ e stb,
    (let* there := os.path_exists dp in
     if there : bool then
       let* same := files_are_identical src dp in
       if same : bool then ret tt
       else
         let* policy := setting h "modified_files" in
         if py.eq_str policy "keep_both" then
           let* new_dest_path := get_duplicate_path h now dp in
           if dry_run h then
             utils.log_sync_action "Would create new version" src
               (Some new_dest_path) None
           else
             let* _ := os.makedirs (dirname new_dest_path) in
             let* _ := shutil.copy2 src new_dest_path in
             utils.log_sync_action "Created new version" src
               (Some new_dest_path) None
         else
           let* policy := setting h "modified_files" in
           if py.eq_str policy "keep_newest" then
             let* ts := os.path_getmtime src in
             let* td := os.path_getmtime dp in
             if (ts >? td)%Z then
               if negb (dry_run h) then
                 let* _ := shutil.copy2 src dp in
                 utils.log_sync_action "Updated (newer)" src (Some dp) None
               else ret tt
             else ret tt
           else
             if negb (dry_run h) then
               let* _ := shutil.copy2 src dp in
               utils.log_sync_action "Updated" src (Some dp) None
             else
               utils.log_sync_action "Would sync" src (Some dp) None
     else
       let* _ := os.makedirs (dirname dp) in
       let* _ := shutil.copy2 src dp in
       utils.log_sync_action "Synced" src (Some dp) None) st1 = (Raise e, stb)).
  { match goal with
    | |- ∃ e stb, ?m st1 = _ =>
        assert (∃ e, fst (m st1) = Raise e) as [e He];
          [|exists e, (snd (m st1)); by destruct (m st1) as [r s]; simpl in *; subst]
    end.
    destruct (os.stat st dp) as [x|] eqn:Hdst.
    2:{ erewrite bind_ok by (by apply (path_exists_none st1)). cbv iota.
        by apply Hmkcopy. }
    destruct Hdry as [Hdry|?]; [|done].
    erewrite bind_ok by (by eapply (path_exists_some st1), Hdst). cbv iota.
    erewrite bind_ok by apply files_are_identical_run.
    assert (identical st1 src dp = false) as ->.
    { unfold identical. change (os.stat st1) with (os.stat st). by rewrite Hsrc. }
    cbv iota. rewrite Hdry. cbn [negb].
    apply bind_fails. intros policy stp [Hfp Hcp]%(reads_run _ _ _ _ (reads_setting h _)).
    assert (Hnop : ∀ c t, os.stat stp src ≠ Some (File c t)).
    { intros c t. by rewrite (stat_ext st1 stp). }
    destruct (py.eq_str policy "keep_both").
    - apply bind_fails.
      intros nd stq [Hfq Hcq]%(reads_run _ _ _ _ (reads_get_duplicate_path h now dp)).
      apply Hmkcopy. intros c t. by rewrite (stat_ext stp stq).
    - apply bind_fails.
      intros policy' stq [Hfq Hcq]%(reads_run _ _ _ _ (reads_setting h _)).
      destruct (py.eq_str policy' "keep_newest").
      + eexists. erewrite bind_raise; [done|].
        unfold os.path_getmtime.
        rewrite (stat_ext stp stq), (stat_ext st1 stp) by done.
        change (os.stat st1) with (os.stat st). by rewrite Hsrc.
      + apply Hcopy. intros c t. by rewrite (stat_ext stp stq). }
  destruct Hbody as (e & stb & Hbody). exists e.
  erewrite (sync_file_start h now src st rel (Raise e) stb); [done|done|done|].
  exact Hbody.
Qed.

Lemma vanished_source_makes_sync_file_raise_witness :
  ∃ e, fst (sync_file (handler_of false keep_newest) now0 "/src/gone.txt" st0)
       = Raise e.
Proof.
  apply (vanished_source_makes_sync_file_raise _ _ _ _ "gone.txt");
    try reflexivity.
  left. reflexivity.
Defined.

(** ** The other policies for deleted files *)

Lemma remove_file st p k c t :
  os.resolve (cwd st) p = Some k →
  os.stat_key (files st) k = Some (File c t) →
  os.remove p st
  = (Ok tt, add_op (OpUnlink k) (set_files (delete k (files st)) st)).
Proof. intros Hk Hs. unfold os.remove. by rewrite Hk, Hs. Qed.



(** X12. Under the delete policy with dry-run off, [handle_delete]
    unlinks the destination file and returns: the path is gone, no
    copy of the file is kept anywhere, and every other regular file is
    as it was. *)
Theorem delete_policy_removes_for_good h now src st rel c m kd :
  dry_run h = false →
  conflict_settings h !! "deleted_files" = Some (VStr "delete") →
  relpath (cwd st) src (source_dir h) = Some rel →
  os.stat st (join (destination_dir h) rel) = Some (File c m) →
  os.resolve (cwd st) (join (destination_dir h) rel) = Some kd →
  ∃ st',
    handle_delete h now src st = (Ok tt, st')
    ∧ os.stat st' (join (destination_dir h) rel) = None
    ∧ ∀ k c' t', files st' !! k = Some (File c' t')
                 ↔ files st !! k = Some (File c' t') ∧ k ≠ kd.
Proof.
  intros Hdry Hpol Hrel Hdst Hkd.
  set (dp := join (destination_dir h) rel) in *.
  set (st0 := set_is_syncing true st).
  assert (Hskd : os.stat_key (files st) kd = Some (File c m)).
  { by rewrite <- (stat_resolved st _ _ Hkd). }
  destruct (stat_key_file _ _ _ _ Hskd) as [Hkne Hlk].
  pose proof (remove_file st0 dp kd c m Hkd Hskd) as Hrm.
  set (st1 := add_op (OpUnlink kd) (set_files (delete kd (files st0)) st0)) in *.
  destruct (log_sync_action_run "Deleted" dp None (Some "permanent deletion") st1)
    as [msg Hlog].
  set (st2 := add_log (LogInfo msg) st1) in *.
  assert (Hf2 : files st2 = delete kd (files st)) by reflexivity.
  assert (Hcl : ∃ st3,
    (if py.truthy (py.get (config h) "cleanup_empty_dirs" (VBool true))
     then cleanup_empty_dirs h (dirname dp) else ret tt) st2 = (Ok tt, st3)
    ∧ cwd st3 = cwd st
    ∧ ∀ k, files st3 !! k = files st2 !! k
           ∨ (files st2 !! k = Some Dir ∧ files st3 !! k = None
              ∧ ∀ x c t, files st2 !! (k ++ [x]) ≠ Some (File c t))).
  { destruct (py.truthy _).
    - destruct (cleanup_spec (S (String.length (dirname dp))) h (dirname dp) st2)
        as (st3 & H3 & Hc3 & Hf3).
      exists st3. split; [exact H3|]. split; [by rewrite Hc3|done].
    - exists st2. split; [done|]. split; [done|]. by left. }
  destruct Hcl as (st3 & Hcl & Hc3 & Hf3).
  exists (set_is_syncing false st3). split; [|split].
  - unfold handle_delete. eapply try_finally_run.
    erewrite bind_ok by reflexivity.
    erewrite bind_ok by (unfold os.path_relpath; cbn [cwd set_is_syncing];
                         by rewrite Hrel).
    fold dp st0.
    erewrite bind_ok by (by eapply (path_exists_some st0), Hdst).
    cbn [negb]. rewrite Hdry.
    erewrite bind_ok by (by apply setting_run).
    change (py.eq_str (VStr "delete") "trash") with false. cbv iota.
    erewrite bind_ok; [exact Hcl|].
    erewrite bind_ok by (by apply setting_run).
    change (py.eq_str (VStr "delete") "delete") with true. cbv iota.
    erewrite bind_ok by exact Hrm.
    exact Hlog.
  - unfold os.stat. cbn [cwd files set_is_syncing]. rewrite Hc3, Hkd.
    assert (os.stat_key (files st3) kd = files st3 !! kd) as ->
      by by destruct kd.
    destruct (Hf3 kd) as [->|(_ & -> & _)]; [|done].
    by rewrite Hf2, lookup_delete_eq.
  - intros k c' t'. cbn [files set_is_syncing]. split.
    + intros Hk. destruct (Hf3 k) as [E|(_ & E & _)]; [|congruence].
      rewrite E, Hf2 in Hk. apply lookup_delete_Some in Hk as [? ?]. done.
    + intros [Hk Hne]. destruct (Hf3 k) as [->|(E & _)].
      * by rewrite Hf2, lookup_delete_ne.
      * rewrite Hf2, lookup_delete_ne in E by done. congruence.
Qed.

Lemma delete_policy_removes_for_good_witness :
  ∃ st',
    handle_delete (handler_of false delete_files) now0 "/src/b.txt" st0
    = (Ok tt, st')
    ∧ os.stat st' (join (destination_dir (handler_of false delete_files)) "b.txt")
      = None
    ∧ ∀ k c' t', files st' !! k = Some (File c' t')
                 ↔ files st0 !! k = Some (File c' t') ∧ k ≠ ["dst"; "b.txt"].
Proof.
  apply (delete_policy_removes_for_good (handler_of false delete_files) now0
           "/src/b.txt" st0 "b.txt" (bytes "B") 10 ["dst"; "b.txt"]);
    reflexivity.
Defined.



(** ** The names of trashed files and of duplicates *)















(** ** Exclude patterns *)

Lemma translate_fuel_literal n s :
  literal s = true → String.length s ≤ n →
  fnmatch.translate_fuel n s = map fnmatch.TLit (list_ascii_of_string s).
Proof.
  revert n. induction s as [|c s IH]; intros n Hl Hn.
  - by destruct n.
  - destruct n as [|n]; [simpl in Hn; lia|].
    cbn [literal] in Hl. apply andb_prop in Hl as [Hc Hl].
    unfold wild in Hc. apply negb_true_iff in Hc.
    apply orb_false_elim in Hc as [Hc H3]. apply orb_false_elim in Hc as [H1 H2].
    cbn [fnmatch.translate_fuel list_ascii_of_string map].
    rewrite H1, H2, H3. f_equal. apply IH; [done|simpl in Hn; lia].
Qed.

Lemma translate_literal s :
  literal s = true →
  fnmatch.translate s = map fnmatch.TLit (list_ascii_of_string s).
Proof. intros H. by apply translate_fuel_literal. Qed.

Lemma translate_star_literal s :
  literal s = true →
  fnmatch.translate (String "*" s)
  = fnmatch.TStar :: map fnmatch.TLit (list_ascii_of_string s).
Proof.
  intros H. unfold fnmatch.translate. cbn [String.length fnmatch.translate_fuel].
  change (Ascii.eqb "*" "*") with true. cbv iota. f_equal.
  by apply translate_fuel_literal.
Qed.

Lemma match_literal s r :
  fnmatch.match_tokens (map fnmatch.TLit (list_ascii_of_string s)) r = true
  ↔ r = s.
Proof.
  revert r. induction s as [|c s IH]; intros r.
  - cbn. by destruct r.
  - cbn [list_ascii_of_string map fnmatch.match_tokens].
    destruct r as [|c' r]; [done|].
    rewrite andb_true_iff, Ascii.eqb_eq, IH. split.
    + by intros [-> ->].
    + by intros [= -> ->].
Qed.

Lemma match_star_cons ts c s :
  fnmatch.match_tokens (fnmatch.TStar :: ts) (String c s)
  = fnmatch.match_tokens ts (String c s)
    || fnmatch.match_tokens (fnmatch.TStar :: ts) s.
Proof. reflexivity. Qed.

Lemma match_star_here ts s :
  fnmatch.match_tokens ts s = true →
  fnmatch.match_tokens (fnmatch.TStar :: ts) s = true.
Proof.
  intros H. destruct s as [|c s].
  - cbn. by rewrite H.
  - by rewrite match_star_cons, H.
Qed.

Lemma match_star_app ts a b :
  fnmatch.match_tokens ts b = true →
  fnmatch.match_tokens (fnmatch.TStar :: ts) (a +:+ b) = true.
Proof.
  intros H. induction a as [|c a IH].
  - rewrite app_empty_l. by apply match_star_here.
  - rewrite app_cons, match_star_cons, IH. apply orb_true_r.
Qed.

(** X16. An exclude pattern made of [*] and a literal suffix excludes
    every path that ends with the suffix, in whatever directory: the
    star also runs over the separators. *)
Theorem star_suffix_excludes_at_any_depth h path st stem suffix :
  literal suffix = true →
  String "*" suffix ∈ exclude_patterns h →
  relpath (cwd st) path (source_dir h) = Some (stem +:+ suffix) →
  should_exclude h path st = (Ok true, st).
Proof.
  intros Hlit Hin Hrel. rewrite (should_exclude_run _ _ _ _ Hrel).
  f_equal. f_equal. unfold excluded. apply orb_true_iff. right.
  apply existsb_exists. exists (String "*" suffix).
  split; [by apply list_elem_of_In|].
  unfold fnmatch.fnmatch. rewrite (translate_star_literal _ Hlit).
  apply match_star_app. by apply match_literal.
Qed.

Lemma star_suffix_excludes_at_any_depth_witness :
  should_exclude (with_patterns ["*.tmp"]) "/src/sub/deep/x.tmp" st0
  = (Ok true, st0).
Proof.
  apply (star_suffix_excludes_at_any_depth (with_patterns ["*.tmp"])
           "/src/sub/deep/x.tmp" st0 "sub/deep/x" ".tmp").
  - reflexivity.
  - apply list_elem_of_In. left. reflexivity.
  - reflexivity.
Defined.

(** X17. An exclude pattern without [*], [?] and [[] matches the
    whole relative path and nothing else: with hidden files not
    skipped and such patterns only, [should_exclude] is True exactly
    for the paths that are in the list, so the name of a directory
    does not exclude what is below it. *)
Theorem literal_pattern_excludes_that_path_only h path st rel :
  config h !! "skip_hidden" = Some (VBool false) →
  (∀ p, p ∈ exclude_patterns h → literal p = true) →
  relpath (cwd st) path (source_dir h) = Some rel →
  should_exclude h path st
  = (Ok (bool_decide (rel ∈ exclude_patterns h)), st).
Proof.
  intros Hcfg Hlit Hrel. rewrite (should_exclude_run _ _ _ _ Hrel).
  f_equal. f_equal. unfold excluded, py.get. rewrite Hcfg. cbn [py.truthy andb orb].
  apply eq_true_iff_eq. rewrite existsb_exists, bool_decide_eq_true. split.
  - intros (p & Hp%list_elem_of_In & Hm).
    unfold fnmatch.fnmatch in Hm. rewrite (translate_literal _ (Hlit p Hp)) in Hm.
    apply match_literal in Hm. by subst.
  - intros Hin. exists rel. split; [by apply list_elem_of_In|].
    unfold fnmatch.fnmatch. rewrite (translate_literal _ (Hlit rel Hin)).
    by apply match_literal.
Qed.

Lemma literal_pattern_excludes_that_path_only_witness :
  should_exclude (show_hidden (with_patterns ["build"])) "/src/build/x.o" st0
  = (Ok (bool_decide ("build/x.o" ∈ exclude_patterns
                        (show_hidden (with_patterns ["build"])))), st0).
Proof.
  apply (literal_pattern_excludes_that_path_only
           (show_hidden (with_patterns ["build"])) "/src/build/x.o" st0
           "build/x.o").
  - reflexivity.
  - intros p Hp. apply list_elem_of_In in Hp as [<-|[]]. reflexivity.
  - reflexivity.
Defined.

(** ** The event methods *)

(** X18. An event method entered with [is_syncing] False leaves it
    False, whatever the event and whatever the method ends with, an
    exception that escapes [handle_delete] in [on_moved] included: no
    event can leave the handler deaf to the ones that follow. *)
Theorem event_methods_release_the_guard h now now' ev st :
  is_syncing st = false →
  is_syncing (snd (on_created h now ev st)) = false
  ∧ is_syncing (snd (on_modified h now ev st)) = false
  ∧ is_syncing (snd (on_deleted h now ev st)) = false
  ∧ is_syncing (snd (on_moved h now now' ev st)) = false.
Proof.
  intros Hidle.
  assert (Hbusy : busy st = (Ok false, st)) by (unfold busy; by rewrite Hidle).
  unfold on_created, on_modified, on_deleted, on_moved.
  rewrite !(bind_ok _ _ _ _ _ Hbusy).
  destruct (is_directory ev); cbn [orb]; [done|].
  split; [apply try_finally_flag|]. split; [apply try_finally_flag|].
  split; [apply try_finally_flag|].
  unfold bind.
  assert (Hfl : is_syncing (snd (handle_delete h now (src_path ev) st)) = false)
    by apply try_finally_flag.
  destruct (handle_delete h now (src_path ev) st) as [[[]|e] st1];
    cbn [snd] in Hfl; [|exact Hfl].
  destruct (startswith _ _); [apply try_finally_flag|exact Hfl].
Qed.

Lemma event_methods_release_the_guard_witness :
  is_syncing (snd (on_created (handler_of false ∅) now0 moved_out st0)) = false
  ∧ is_syncing (snd (on_modified (handler_of false ∅) now0 moved_out st0)) = false
  ∧ is_syncing (snd (on_deleted (handler_of false ∅) now0 moved_out st0)) = false
  ∧ is_syncing (snd (on_moved (handler_of false ∅) now0 now1 moved_out st0))
    = false.
Proof.
  apply (event_methods_release_the_guard (handler_of false ∅) now0 now1
           moved_out st0).
  reflexivity.
Defined.

(** X19. An event for a directory, and any event that arrives while
    [is_syncing] is True, is dropped by the four methods: they return
    and the state is as it was. *)
Theorem directory_and_reentrant_events_are_dropped h now now' ev st :
  is_directory ev = true ∨ is_syncing st = true →
  on_created h now ev st = (Ok tt, st)
  ∧ on_modified h now ev st = (Ok tt, st)
  ∧ on_deleted h now ev st = (Ok tt, st)
  ∧ on_moved h now now' ev st = (Ok tt, st).
Proof.
  intros Hdrop.
  assert (is_directory ev || is_syncing st = true) as Hor.
  { destruct Hdrop as [->| ->]; [done|apply orb_true_r]. }
  unfold on_created, on_modified, on_deleted, on_moved, bind, busy.
  by rewrite Hor.
Qed.

Lemma directory_and_reentrant_events_are_dropped_witness :
  on_created (handler_of false ∅) now0 made_dir st0 = (Ok tt, st0)
  ∧ on_modified (handler_of false ∅) now0 made_dir st0 = (Ok tt, st0)
  ∧ on_deleted (handler_of false ∅) now0 made_dir st0 = (Ok tt, st0)
  ∧ on_moved (handler_of false ∅) now0 now1 made_dir st0 = (Ok tt, st0).
Proof.
  apply (directory_and_reentrant_events_are_dropped (handler_of false ∅)
           now0 now1 made_dir st0).
  left. reflexivity.
Defined.

(** ** The construction of a handler *)

Lemma isabs_initial_slashes q :
  isabs q = true → isabs (initial_slashes q) = true.
Proof.
  intros H. unfold initial_slashes. unfold isabs in H. rewrite H.
  by destruct (_ && _).
Qed.

Lemma normpath_isabs q : isabs q = true → isabs (normpath q) = true.
Proof.
  intros H. unfold normpath. destruct q as [|c q]; [done|].
  pose proof (isabs_initial_slashes _ H) as Hini.
  set (ini := initial_slashes (String c q)) in *.
  set (j := join_sep _).
  assert (isabs (ini +:+ j) = true) as Hr by by apply isabs_app.
  by destruct (ini +:+ j).
Qed.

Lemma abspath_isabs wd p : isabs wd = true → isabs (abspath wd p) = true.
Proof.
  intros H. unfold abspath. apply normpath_isabs.
  destruct (isabs p) eqn:Hp; [done|by apply isabs_join].
Qed.

(** X20. In a process whose working directory is absolute, a handler
    that [__init__] returns has an absolute source directory and an
    absolute destination directory, however the two were given, and
    keeps [dry_run]; the construction touches nothing but the guard,
    which it sets to False. *)
Theorem init_makes_the_roots_absolute source destination exclude cfg dry
    st h st' :
  isabs (cwd st) = true →
  init source destination exclude cfg dry st = (Ok h, st') →
  isabs (source_dir h) = true
  ∧ isabs (destination_dir h) = true
  ∧ source_dir h = abspath (cwd st) source
  ∧ destination_dir h = abspath (cwd st) destination
  ∧ dry_run h = dry
  ∧ st' = set_is_syncing false st.
Proof.
  intros Hwd Hrun. unfold init in Hrun.
  erewrite bind_ok in Hrun by reflexivity.
  erewrite bind_ok in Hrun by reflexivity.
  erewrite bind_ok in Hrun by reflexivity.
  unfold bind in Hrun.
  destruct (dict_update _ _ _) as [[s1|e1] st1] eqn:H1; [|done].
  assert (st1 = set_is_syncing false st) as ->.
  { unfold dict_update in H1. repeat case_match; by injection H1. }
  match type of Hrun with
  | match ?m ?s with _ => _ end = _ => destruct (m s) as [[p|e2] st2] eqn:H2; [|done]
  end.
  assert (st2 = set_is_syncing false st) as ->.
  { repeat case_match; by injection H2. }
  destruct (dict_update s1 p _) as [[s2|e3] st3] eqn:H3; [|done].
  assert (st3 = set_is_syncing false st) as ->.
  { unfold dict_update in H3. repeat case_match; by injection H3. }
  injection Hrun as <- <-. cbn [source_dir destination_dir dry_run].
  repeat split; by apply abspath_isabs.
Qed.

Lemma init_makes_the_roots_absolute_witness :
  ∃ h, init "mirror/../src/" "dst" None None true st0
       = (Ok h, set_is_syncing false st0)
    ∧ isabs (source_dir h) = true
    ∧ isabs (destination_dir h) = true
    ∧ source_dir h = abspath (cwd st0) "mirror/../src/"
    ∧ destination_dir h = abspath (cwd st0) "dst"
    ∧ dry_run h = true.
Proof.
  destruct (init "mirror/../src/" "dst" None None true st0) as [[h|e] st'] eqn:Hrun;
    [|by vm_compute in Hrun].
  destruct (init_makes_the_roots_absolute "mirror/../src/" "dst" None None true
              st0 h st') as (H1 & H2 & H3 & H4 & H5 & ->);
    [reflexivity|exact Hrun|].
  exists h. repeat split; assumption.
Defined.

(** X21. A [conflict_resolution] entry that is there but is None, as
    an empty YAML entry loads, or a Boolean or a number, makes
    [__init__] raise [TypeError], in the global settings as in those
    of the pair: no handler is made. *)
Theorem null_conflict_resolution_makes_init_raise source destination exclude
    settings sync_pair dry st v :
  v = VNone ∨ (∃ b, v = VBool b) ∨ (∃ z, v = VInt z) →
  (settings !! "conflict_resolution" = Some v →
   fst (init source destination exclude
          (Some (main.sync_pair_settings settings sync_pair)) dry st)
   = Raise TypeError)
  ∧ (∀ g, layer settings g →
     sync_pair !! "conflict_resolution" = Some v →
     fst (init source destination exclude
            (Some (main.sync_pair_settings settings sync_pair)) dry st)
     = Raise TypeError).
Proof.
  intros Hv. unfold init, main.sync_pair_settings. split.
  - intros Hs.
    erewrite bind_ok by reflexivity.
    erewrite bind_ok by reflexivity.
    erewrite bind_ok by reflexivity.
    erewrite bind_raise; [reflexivity|].
    unfold py.get. rewrite lookup_insert_ne, Hs by done.
    by destruct Hv as [->|[[b ->]|[z ->]]].
  - intros g Hg Hp.
    erewrite bind_ok by reflexivity.
    erewrite bind_ok by reflexivity.
    erewrite bind_ok by reflexivity.
    erewrite bind_ok; cycle 1.
    { assert (py.get (<["sync_pair_config" := VDict sync_pair]> settings)
                "conflict_resolution" (VDict ∅) = VDict g) as ->.
      { unfold py.get. rewrite lookup_insert_ne by done. by apply layer_get. }
      apply dict_update_dict. }
    erewrite bind_ok; cycle 1.
    { unfold py.get at 1. rewrite lookup_insert_eq. reflexivity. }
    erewrite bind_raise; [reflexivity|].
    unfold py.get. rewrite Hp.
    by destruct Hv as [->|[[b ->]|[z ->]]].
Qed.

Lemma null_conflict_resolution_makes_init_raise_witness :
  fst (init "/src" "/dst" None
         (Some (main.sync_pair_settings (<["conflict_resolution" := VNone]> ∅) ∅))
         false st0)
  = Raise TypeError.
Proof.
  apply (null_conflict_resolution_makes_init_raise "/src" "/dst" None
           (<["conflict_resolution" := VNone]> ∅) ∅ false st0 VNone).
  - left. reflexivity.
  - reflexivity.
Defined.



(** ** The initial pass *)

Lemma delete_all_cons h clock source_dir fi rest st :
  main.delete_all h clock source_dir (fi :: rest) st
  = main.delete_all h clock source_dir rest
      (snd (handle_delete h (clock fi.1) (join source_dir fi.2) st)).
Proof.
  unfold main.delete_all. cbn [main.for_each]. unfold bind at 1.
  unfold try_except, main.delete_worker. destruct fi as [dest_file rel_path].
  unfold bind at 1 2. cbn [fst snd].
  by destruct (handle_delete _ _ _ st) as [[[]|e] st1].
Qed.

Lemma delete_all_returns h clock source_dir l st :
  fst (main.delete_all h clock source_dir l st) = Ok tt.
Proof.
  revert st. induction l as [|fi rest IH]; intros st; [done|].
  by rewrite delete_all_cons.
Qed.

(** X23. The delete phase of the initial pass returns whatever its
    tasks do. A task that ends with an exception leaves the state
    [handle_delete] left, with no record of the failure in the log,
    and the files after it are handled all the same. *)
Theorem delete_pass_drops_errors_silently h clock source_dir :
  (∀ l st, fst (main.delete_all h clock source_dir l st) = Ok tt)
  ∧ (∀ dest_file rel_path rest st,
       main.delete_all h clock source_dir ((dest_file, rel_path) :: rest) st
       = main.delete_all h clock source_dir rest
           (snd (handle_delete h (clock dest_file)
                   (join source_dir rel_path) st))).
Proof.
  split; [apply delete_all_returns|].
  intros dest_file rel_path rest st. apply delete_all_cons.
Qed.

Lemma join_nonempty a b : a ≠ "" → join a b ≠ "".
Proof.
  intros Ha. unfold join.
  destruct (startswith b "/") eqn:Hb; [by destruct b|].
  destruct (_ || _); by destruct a.
Qed.

Lemma walk_roots_nonempty fuel keep st top root dirs fs :
  (root, dirs, fs) ∈ main.walk_fuel fuel keep st top → root ≠ "".
Proof.
  revert top. induction fuel as [|n IH]; intros top Hin.
  { by apply elem_of_nil in Hin. }
  cbn [main.walk_fuel] in Hin.
  destruct (os.listdir top st) as [[names|e] st1] eqn:Hl;
    [|by apply elem_of_nil in Hin].
  apply elem_of_cons in Hin as [[= -> _ _]|Hin].
  - intros ->. by unfold os.listdir in Hl.
  - apply list_elem_of_In, in_flat_map in Hin as (d & _ & Hin).
    by apply list_elem_of_In, IH in Hin.
Qed.

Lemma walked_files_nonempty fuel keep st top f :
  f ∈ main.walked_files (main.walk_fuel fuel keep st top) → f ≠ "".
Proof.
  unfold main.walked_files.
  intros ([[root dirs] fs] & Hw & Hf)%list_elem_of_In%in_flat_map.
  apply in_map_iff in Hf as (x & <- & _).
  apply join_nonempty. by eapply walk_roots_nonempty, list_elem_of_In.
Qed.

Lemma scan_source_returns h source_dir candidates st :
  (∀ f, f ∈ candidates → f ≠ "") →
  ∃ l s, main.scan_source h source_dir candidates st = (Ok (l, s), st).
Proof.
  induction candidates as [|f rest IH]; intros Hne; [by eexists _, _|].
  destruct IH as (l & s & IH).
  { intros x Hx. apply Hne. by right. }
  assert (f ≠ "") as Hf by (apply Hne; by left).
  destruct (relpath_some (cwd st) f (handler.source_dir h) Hf) as [r Hr].
  destruct (relpath_some (cwd st) f source_dir Hf) as [r' Hr'].
  cbn [main.scan_source].
  erewrite bind_ok by (by apply should_exclude_run).
  destruct (excluded h r); [by eexists _, _|].
  erewrite bind_ok by (unfold os.path_relpath; by rewrite Hr').
  erewrite bind_ok by exact IH.
  by eexists _, _.
Qed.

Lemma scan_destination_returns h destination_dir source_files candidates st :
  (∀ f, f ∈ candidates → f ≠ "") →
  ∃ l, main.scan_destination h destination_dir source_files candidates st
       = (Ok l, st).
Proof.
  induction candidates as [|f rest IH]; intros Hne; [by eexists|].
  destruct IH as (l & IH).
  { intros x Hx. apply Hne. by right. }
  assert (f ≠ "") as Hf by (apply Hne; by left).
  destruct (relpath_some (cwd st) f (handler.source_dir h) Hf) as [r Hr].
  destruct (relpath_some (cwd st) f destination_dir Hf) as [r' Hr'].
  cbn [main.scan_destination].
  erewrite bind_ok by (by apply should_exclude_run).
  destruct (excluded h r); [by eexists|].
  erewrite bind_ok by (unfold os.path_relpath; by rewrite Hr').
  erewrite bind_ok by exact IH.
  destruct (bool_decide _); by eexists.
Qed.

Lemma init_layers_run source destination exclude settings sync_pair dry g p st :
  layer settings g → layer sync_pair p →
  ∃ h, init source destination exclude
         (Some (main.sync_pair_settings settings sync_pair)) dry st
       = (Ok h, set_is_syncing false st).
Proof.
  intros Hg Hp.
  assert (Hcr : py.get (main.sync_pair_settings settings sync_pair)
                  "conflict_resolution" (VDict ∅) = VDict g).
  { unfold py.get, main.sync_pair_settings.
    rewrite lookup_insert_ne by done. by apply layer_get. }
  assert (Hsp : py.get (main.sync_pair_settings settings sync_pair)
                  "sync_pair_config" (VDict ∅) = VDict sync_pair).
  { unfold py.get, main.sync_pair_settings. by rewrite lookup_insert_eq. }
  eexists.
  unfold init, bind, os.path_abspath, modify, ret. cbn beta iota.
  rewrite Hcr, Hsp. cbn beta iota. rewrite (layer_get _ _ Hp). reflexivity.
Qed.

(** X24. When the [conflict_resolution] entries are mappings or
    absent, and the destination directory exists or the run is dry,
    [perform_initial_sync] returns: no file, whatever happens while it
    is synced or deleted, makes the pass end with an exception. *)
Theorem initial_sync_runs_to_completion source destination exclude
    settings sync_pair dry clock g p st :
  layer settings g →
  layer sync_pair p →
  os.stat st destination ≠ None ∨ dry = true →
  ∃ st',
    main.perform_initial_sync source destination exclude
      (main.sync_pair_settings settings sync_pair) dry clock st
    = (Ok tt, st').
Proof.
  intros Hg Hp Hdest. unfold main.perform_initial_sync.
  set (st1 := add_log (LogInfo ("Starting initial sync from " +:+ source
                                 +:+ " to " +:+ destination)) st).
  erewrite (bind_ok _ _ st tt st1) by reflexivity.
  destruct (init_layers_run source destination exclude settings sync_pair dry
              g p st1 Hg Hp) as [h Hinit].
  erewrite bind_ok by exact Hinit.
  set (st2 := set_is_syncing false st1).
  erewrite bind_ok by reflexivity.
  assert (Hmk : ∃ st3,
    (if negb match os.stat st2 destination with Some _ => true | None => false end
     then
       let* _ := if negb dry then os.makedirs destination else ret tt in
       utils.logging_info ("Created destination directory: " +:+ destination)
     else ret tt) st2 = (Ok tt, st3)).
  { change (os.stat st2) with (os.stat st).
    destruct (os.stat st destination) as [x|]; cbn [negb]; [by eexists|].
    destruct Hdest as [?| ->]; [done|]. cbn [negb]. by eexists. }
  destruct Hmk as [st3 Hmk]. erewrite bind_ok by exact Hmk.
  erewrite bind_ok by reflexivity.
  destruct (scan_source_returns h source
              (main.walked_files
                 (main.walk_fuel (S (size (files st3)))
                    (main.prune (main.sync_pair_settings settings sync_pair))
                    st3 source)) st3) as (l & s & Hscan).
  { intros f. apply walked_files_nonempty. }
  erewrite bind_ok by exact Hscan. cbv beta iota.
  pose proof (sync_all_returns h clock l st3) as Hsync.
  destruct (main.sync_all h clock l st3) as [r4 st4] eqn:Hs4.
  cbn [fst] in Hsync. subst r4.
  erewrite bind_ok by exact Hs4.
  erewrite bind_ok by reflexivity.
  destruct (scan_destination_returns h destination s
              (main.walked_files
                 (main.walk_fuel (S (size (files st4))) (λ dirs, dirs)
                    st4 destination)) st4) as (dl & Hdscan).
  { intros f. apply walked_files_nonempty. }
  erewrite bind_ok by exact Hdscan.
  assert (Hdel : ∃ st5,
    match dl with
    | [] => ret tt
    | _ :: _ => main.delete_all h clock source dl
    end st4 = (Ok tt, st5)).
  { destruct dl as [|fi dl]; [by eexists|].
    pose proof (delete_all_returns h clock source (fi :: dl) st4) as Hd.
    destruct (main.delete_all h clock source (fi :: dl) st4) as [r5 st5].
    cbn [fst] in Hd. subst r5. by eexists. }
  destruct Hdel as [st5 Hdel]. erewrite bind_ok by exact Hdel.
  by eexists.
Qed.

Lemma initial_sync_runs_to_completion_witness :
  ∃ st',
    main.perform_initial_sync "/src" "/dst" None
      (main.sync_pair_settings ∅ ∅) false (λ _, now0) st0
    = (Ok tt, st').
Proof.
  apply (initial_sync_runs_to_completion "/src" "/dst" None ∅ ∅ false
           (λ _, now0) ∅ ∅ st0).
  - right. split; reflexivity.
  - right. split; reflexivity.
  - left. vm_compute. discriminate.
Defined.

(** ** sync5.py *)

Lemma try_finally_fst {A} (body : M A) (f : state → state) st :
  fst (try_finally body (modify f) st) = fst (body st).
Proof. unfold try_finally, modify. by destruct (body st). Qed.

Lemma sync5_sync_file_reads h now src :
  dry_run h = true → reads (sync5.sync_file h now src).
Proof.
  intros Hdry. unfold sync5.sync_file.
  apply reads_try_finally; [|apply reads_flag].
  apply reads_bind; [apply reads_flag|intros _].
  apply reads_bind; [apply reads_path_relpath|intros rel].
  apply reads_bind; [apply reads_should_exclude|intros excluded].
  destruct excluded; [apply reads_ret|].
  apply reads_bind; [apply reads_path_exists|intros there].
  rewrite Hdry. cbn [negb].
  destruct there; [|apply reads_logging_info].
  apply reads_bind; [apply reads_files_are_identical|intros same].
  destruct same; [apply reads_ret|].
  apply reads_bind; [apply reads_setting|intros policy].
  destruct (py.eq_str policy "keep_both").
  - apply reads_bind; [apply reads_get_duplicate_path|intros new_dest_path].
    apply reads_logging_info.
  - apply reads_bind; [apply reads_setting|intros policy'].
    destruct (py.eq_str policy' "keep_newest"); [|apply reads_ret].
    apply reads_bind; [apply reads_path_getmtime|intros ts].
    apply reads_bind; [apply reads_path_getmtime|intros td].
    destruct (ts >? td)%Z; apply reads_ret.
Qed.

Lemma sync5_handle_delete_reads h now src :
  dry_run h = true → reads (sync5.handle_delete h now src).
Proof.
  intros Hdry. unfold sync5.handle_delete.
  apply reads_try_finally; [|apply reads_flag].
  apply reads_bind; [apply reads_flag|intros _].
  apply reads_bind; [apply reads_path_relpath|intros rel].
  apply reads_bind; [apply reads_path_exists|intros there].
  destruct there; cbn [negb]; [|apply reads_ret].
  rewrite Hdry. apply reads_logging_info.
Qed.

(** X25. In [sync5.py] a dry run changes nothing: with dry-run on,
    neither [sync_file] nor [handle_delete] makes a directory, writes,
    moves or removes anything, for any path and in every branch, the
    one of a missing destination counterpart included. *)
Theorem sync5_dry_run_changes_nothing h now src st :
  dry_run h = true →
  files (snd (sync5.sync_file h now src st)) = files st
  ∧ ops (snd (sync5.sync_file h now src st)) = ops st
  ∧ files (snd (sync5.handle_delete h now src st)) = files st
  ∧ ops (snd (sync5.handle_delete h now src st)) = ops st.
Proof.
  intros Hdry.
  destruct (sync5_sync_file_reads h now src Hdry st) as (? & ? & _).
  destruct (sync5_handle_delete_reads h now src Hdry st) as (? & ? & _).
  done.
Qed.

Lemma sync5_dry_run_changes_nothing_witness :
  files (snd (sync5.sync_file (handler_of true ∅) now0 "/src/sub/n.txt" st0))
  = files st0
  ∧ ops (snd (sync5.sync_file (handler_of true ∅) now0 "/src/sub/n.txt" st0))
    = ops st0
  ∧ files (snd (sync5.handle_delete (handler_of true ∅) now0 "/src/sub/n.txt" st0))
    = files st0
  ∧ ops (snd (sync5.handle_delete (handler_of true ∅) now0 "/src/sub/n.txt" st0))
    = ops st0.
Proof.
  apply (sync5_dry_run_changes_nothing (handler_of true ∅) now0
           "/src/sub/n.txt" st0).
  reflexivity.
Defined.

(** X26. In [sync5.py], [handle_delete] with dry-run off on a path
    whose destination counterpart exists never returns when
    [cleanup_empty_dirs] is on, as it is by default: the class has no
    such method. Under the delete policy the file is unlinked first
    and the call then ends with [AttributeError]. *)
Theorem sync5_handle_delete_ends_with_an_exception h now src st rel :
  dry_run h = false →
  py.truthy (py.get (config h) "cleanup_empty_dirs" (VBool true)) = true →
  relpath (cwd st) src (source_dir h) = Some rel →
  os.stat st (join (destination_dir h) rel) ≠ None →
  (∃ e, fst (sync5.handle_delete h now src st) = Raise e)
  ∧ (∀ c m kd,
       conflict_settings h !! "deleted_files" = Some (VStr "delete") →
       os.stat st (join (destination_dir h) rel) = Some (File c m) →
       os.resolve (cwd st) (join (destination_dir h) rel) = Some kd →
       fst (sync5.handle_delete h now src st) = Raise AttributeError
       ∧ files (snd (sync5.handle_delete h now src st)) = delete kd (files st)).
Proof.
  intros Hdry Hclean Hrel Hdst.
  set (dp := join (destination_dir h) rel) in *.
  set (st0 := set_is_syncing true st).
  destruct (os.stat st dp) as [x|] eqn:Hx; [clear Hdst|done].
  split.
  - unfold sync5.handle_delete. rewrite try_finally_fst.
    erewrite bind_ok by reflexivity.
    erewrite bind_ok by (unfold os.path_relpath; cbn [cwd set_is_syncing];
                         by rewrite Hrel).
    fold dp st0.
    erewrite bind_ok by (by eapply (path_exists_some st0), Hx).
    cbn [negb]. rewrite Hdry.
    apply bind_fails. intros policy st1 _.
    apply bind_fails. intros [] st2 _.
    rewrite Hclean. by exists AttributeError.
  - intros c m kd Hpol Hf Hkd. injection Hf as ->.
    assert (Hskd : os.stat_key (files st) kd = Some (File c m)).
    { by rewrite <- (stat_resolved st _ _ Hkd). }
    pose proof (remove_file st0 dp kd c m Hkd Hskd) as Hrm.
    set (st1 := add_op (OpUnlink kd) (set_files (delete kd (files st0)) st0)) in *.
    assert (sync5.handle_delete h now src st
            = (Raise AttributeError,
               set_is_syncing false
                 (add_log (LogInfo ("Deleted: " +:+ rel)) st1))) as ->; [|done].
    unfold sync5.handle_delete. eapply try_finally_run.
    erewrite bind_ok by reflexivity.
    erewrite bind_ok by (unfold os.path_relpath; cbn [cwd set_is_syncing];
                         by rewrite Hrel).
    fold dp st0.
    erewrite bind_ok by (by eapply (path_exists_some st0), Hx).
    cbn [negb]. rewrite Hdry.
    erewrite bind_ok by (by apply setting_run).
    change (py.eq_str (VStr "delete") "trash") with false. cbv iota.
    erewrite bind_ok; cycle 1.
    { erewrite bind_ok by (by apply setting_run).
      change (py.eq_str (VStr "delete") "delete") with true. cbv iota.
      erewrite bind_ok by exact Hrm. reflexivity. }
    by rewrite Hclean.
Qed.

Lemma sync5_handle_delete_ends_with_an_exception_witness :
  fst (sync5.handle_delete (handler_of false delete_files) now0
         "/src/b.txt" st0) = Raise AttributeError
  ∧ files (snd (sync5.handle_delete (handler_of false delete_files) now0
                  "/src/b.txt" st0))
    = delete ["dst"; "b.txt"] (files st0).
Proof.
  destruct (sync5_handle_delete_ends_with_an_exception
              (handler_of false delete_files) now0 "/src/b.txt" st0 "b.txt")
    as [_ H]; try reflexivity.
  - vm_compute. discriminate.
  - apply (H (bytes "B") 10%Z ["dst"; "b.txt"]); reflexivity.
Defined.

(** ** Empty directories and the first scan *)

(** X27. [cleanup_empty_dirs] removes a directory that holds nothing,
    unless it is named as the destination directory is: it returns
    and the directory is gone. *)
Theorem cleanup_removes_an_empty_directory h d st k :
  String.eqb d (destination_dir h) = false →
  os.resolve (cwd st) d = Some k →
  k ≠ [] →
  files st !! k = Some Dir →
  os.entries (files st) k = [] →
  ∃ st', cleanup_empty_dirs h d st = (Ok tt, st')
    ∧ os.stat st' d = None.
Proof.
  intros Hne Hk Hroot Hdir He.
  destruct k as [|z k0]; [done|]. set (k := z :: k0) in *.
  assert (Hsk : os.stat_key (files st) k = Some Dir) by exact Hdir.
  set (st1 := add_op (OpRmdir k) (set_files (delete k (files st)) st)).
  destruct (relpath_some (cwd st) d (destination_dir h)) as [r Hr].
  { intros ->. done. }
  set (st2 := add_log (LogInfo ("Removed empty directory: " +:+ r)) st1).
  destruct (cleanup_spec (String.length d) h (dirname d) st2)
    as (st3 & Hrun & Hc & Hf).
  exists st3. split.
  - unfold cleanup_empty_dirs. cbn [cleanup_empty_dirs_fuel].
    erewrite bind_ok; cycle 1.
    { apply (path_exists_some st d Dir). unfold os.stat. by rewrite Hk. }
    cbn [negb]. rewrite Hne.
    unfold try_except.
    erewrite bind_ok; cycle 1.
    { unfold os.listdir. by rewrite Hk, Hsk, He. }
    cbv iota.
    erewrite bind_ok; cycle 1.
    { unfold os.rmdir. rewrite Hk. unfold k in *. by rewrite Hsk, He. }
    erewrite bind_ok; cycle 1.
    { unfold os.path_relpath. cbn [cwd add_op set_files]. by rewrite Hr. }
    erewrite bind_ok by reflexivity.
    fold k st1 st2. by rewrite Hrun.
  - unfold os.stat. rewrite Hc. cbn [cwd st2 st1 add_log add_op set_files].
    rewrite Hk.
    assert (os.stat_key (files st3) k = files st3 !! k) as -> by reflexivity.
    destruct (Hf k) as [->|(_ & -> & _)]; [|done].
    cbn [files st2 st1 add_log add_op set_files]. apply lookup_delete_eq.
Qed.

Lemma cleanup_removes_an_empty_directory_witness :
  ∃ st', cleanup_empty_dirs (handler_of false ∅) "/dst/old" st_empty_dir
         = (Ok tt, st')
    ∧ os.stat st' "/dst/old" = None.
Proof.
  apply (cleanup_removes_an_empty_directory (handler_of false ∅) "/dst/old"
           st_empty_dir ["dst"; "old"]); try reflexivity.
  discriminate.
Defined.

(** X28. The first scan of the initial pass returns, in the order of
    the walk, the files that [should_exclude] does not exclude, and
    the set of their paths relative to the source directory, which is
    what the second scan takes a destination file to have a source
    by. *)
Theorem first_scan_keeps_what_is_not_excluded h source_dir candidates st :
  (∀ f, f ∈ candidates → f ≠ "") →
  ∃ l s, main.scan_source h source_dir candidates st = (Ok (l, s), st)
    ∧ l `sublist_of` candidates
    ∧ (∀ f, f ∈ l ↔ f ∈ candidates ∧ should_exclude h f st = (Ok false, st))
    ∧ (∀ r, r ∈ s ↔ ∃ f, f ∈ l ∧ relpath (cwd st) f source_dir = Some r).
Proof.
  induction candidates as [|f rest IH]; intros Hne.
  { exists [], ∅. split; [done|]. split; [done|]. split.
    - intros f. split; [by intros ?%elem_of_nil|by intros [?%elem_of_nil _]].
    - intros r. split; [by intros ?%elem_of_empty|].
      by intros (f & ?%elem_of_nil & _). }
  destruct IH as (l & s & IH & Hsub & Hl & Hs).
  { intros x Hx. apply Hne. by right. }
  assert (f ≠ "") as Hf by (apply Hne; by left).
  destruct (relpath_some (cwd st) f (handler.source_dir h) Hf) as [r Hr].
  destruct (relpath_some (cwd st) f source_dir Hf) as [r' Hr'].
  pose proof (should_exclude_run h f st r Hr) as Hex.
  cbn [main.scan_source].
  erewrite bind_ok by exact Hex.
  destruct (excluded h r) eqn:He.
  - exists l, s. split; [exact IH|]. split; [by apply sublist_cons|].
    split; [|exact Hs].
    intros x. rewrite Hl, elem_of_cons. split.
    + intros [? ?]. split; [by right|done].
    + intros [[->|?] Hx]; [|done]. rewrite Hex in Hx. done.
  - erewrite bind_ok by (unfold os.path_relpath; by rewrite Hr').
    erewrite bind_ok by exact IH.
    exists (f :: l), ({[r']} ∪ s). split; [done|].
    split; [by apply sublist_skip|]. split.
    + intros x. rewrite !elem_of_cons, Hl. split.
      * intros [->|[? ?]]; [split; [by left|exact Hex]|split; [by right|done]].
      * intros [[->|?] ?]; [by left|by right].
    + intros x. rewrite elem_of_union, elem_of_singleton, Hs. split.
      * intros [->|(y & Hy & Hyr)].
        -- exists f. split; [by left|done].
        -- exists y. split; [by right|done].
      * intros (y & [->|Hy]%elem_of_cons & Hyr).
        -- left. congruence.
        -- right. by exists y.
Qed.

Lemma first_scan_keeps_what_is_not_excluded_witness :
  ∃ l s, main.scan_source (handler_of false ∅) "/src"
           ["/src/a.txt"; "/src/.env"] st0 = (Ok (l, s), st0)
    ∧ l `sublist_of` ["/src/a.txt"; "/src/.env"]
    ∧ (∀ f, f ∈ l ↔ f ∈ ["/src/a.txt"; "/src/.env"]
                     ∧ should_exclude (handler_of false ∅) f st0 = (Ok false, st0))
    ∧ (∀ r, r ∈ s ↔ ∃ f, f ∈ l ∧ relpath (cwd st0) f "/src" = Some r).
Proof.
  apply (first_scan_keeps_what_is_not_excluded (handler_of false ∅) "/src"
           ["/src/a.txt"; "/src/.env"] st0).
  intros f Hf. apply list_elem_of_In in Hf as [<-|[<-|[]]]; discriminate.
Defined.
